(** * CropSense forecast service (services/gemini-ai.js)

    A shallow embedding of [GeminiAIService] and a verification of its
    specification.  The service is JavaScript; the embedding keeps the
    features of the language the code relies on:

    - numbers are IEEE doubles in the source; here they are idealised as
      real numbers ([R]) together with [NaN], which the source produces
      when it does arithmetic on [undefined].  Rounding error, overflow
      and the infinities are outside this model, so a property that
      would depend on the last digits of a double is stated with a
      tolerance or with an inclusive bound; the lines where the doubles
      and the real numbers part are also given in binary64
      ([Module Double]);
    - strings are sequences of bytes (UTF-8);
    - a property lookup on an object literal also consults
      [Object.prototype];
    - [throw] / [try] / [catch] is an error result, and the two sources
      of non-determinism ([Math.random] and the clock) are streams that
      the host provides and the program consumes in order. *)

From Stdlib Require Import List String Ascii ZArith NArith Bool Lia.
From Stdlib Require Import Reals Lra.
From Stdlib Require SpecFloat.
Import ListNotations.

Local Open Scope string_scope.
Local Open Scope Z_scope.

(* ================================================================== *)
(** * Part I.  The JavaScript the service relies on                    *)
(* ================================================================== *)

Module Js.

(** ** Exceptions and results *)

Inductive exn : Type :=
| TypeError (msg : string)
| SyntaxError (msg : string)
| Error (msg : string).

Inductive result (A : Type) : Type :=
| Ok (a : A)
| Throw (e : exn).
Arguments Ok {A} a.
Arguments Throw {A} e.

(** ** Numbers *)

Inductive num : Type :=
| NaN
| Fin (r : R).

Definition lift2 (op : R -> R -> R) (a b : num) : num :=
  match a, b with
  | Fin x, Fin y => Fin (op x y)
  | _, _ => NaN
  end.

Definition nadd : num -> num -> num := lift2 Rplus.
Definition nsub : num -> num -> num := lift2 Rminus.
Definition nmul : num -> num -> num := lift2 Rmult.
(** Every divisor in the modelled code is a non-zero literal. *)
Definition ndiv : num -> num -> num := lift2 Rdiv.

(** [a > b]; any comparison with [NaN] is false. *)
Definition ngt (a b : num) : bool :=
  match a, b with
  | Fin x, Fin y => if Rgt_dec x y then true else false
  | _, _ => false
  end.

(** [Math.floor] and [Math.round] (nearest integer, ties towards
    positive infinity: [floor (x + 0.5)]). *)
Definition Rfloor (x : R) : Z := Int_part x.
Definition Rround (x : R) : R := IZR (Rfloor (x + / 2)).

Definition Math_round (a : num) : num :=
  match a with
  | NaN => NaN
  | Fin x => Fin (Rround x)
  end.

Definition Math_sin (a : num) : num :=
  match a with
  | NaN => NaN
  | Fin x => Fin (sin x)
  end.

(** The literal [n] of the source. *)
Definition lit (r : R) : num := Fin r.
Definition ofNat (n : nat) : num := Fin (INR n).

(** ** Values *)

#[warnings="-register-all"]
Inductive value : Type :=
| VUndef
| VNull
| VBool (b : bool)
| VNum (n : num)
| VStr (s : string)
| VArr (items : list value)
| VObj (fields : list (string * value)).

(** ToBoolean. *)
Definition truthy (v : value) : bool :=
  match v with
  | VUndef | VNull => false
  | VBool b => b
  | VNum NaN => false
  | VNum (Fin r) => if Req_dec_T r 0 then false else true
  | VStr s => negb (s =? EmptyString)%string
  | VArr _ | VObj _ => true
  end.

(** Own property of an object; a later duplicate key overrides an
    earlier one, as [JSON.parse] has it. *)
Fixpoint ownProperty (k : string) (fields : list (string * value))
  : option value :=
  match fields with
  | [] => None
  | (k', v) :: rest =>
      match ownProperty k rest with
      | Some w => Some w
      | None => if (k' =? k)%string then Some v else None
      end
  end.

(** [v.k] / [v[k]] for a key [k] that names no built-in property (the
    service reads parsed JSON only through the keys of its prompt
    schema): reading from [null] or [undefined] throws, an object
    yields its own property, anything else yields [undefined]. *)
Definition getField (v : value) (k : string) : result value :=
  match v with
  | VUndef => Throw (TypeError "Cannot read properties of undefined")
  | VNull => Throw (TypeError "Cannot read properties of null")
  | VObj fields =>
      match ownProperty k fields with
      | Some w => Ok w
      | None => Ok VUndef
      end
  | _ => Ok VUndef
  end.

(** ** Object literals used as lookup tables

    [table[key]] on an object literal finds the literal's own
    properties and, failing that, those of [Object.prototype]. *)

Definition objectPrototypeKeys : list string :=
  [ "constructor"; "__defineGetter__"; "__defineSetter__";
    "hasOwnProperty"; "__lookupGetter__"; "__lookupSetter__";
    "isPrototypeOf"; "propertyIsEnumerable"; "toString"; "valueOf";
    "__proto__"; "toLocaleString" ].

Inductive lookup (A : Type) : Type :=
| Own (a : A)          (* a property of the literal *)
| Inherited            (* a built-in of Object.prototype: truthy,
                          not an array, without data properties *)
| Absent.              (* undefined *)
Arguments Own {A} a.
Arguments Inherited {A}.
Arguments Absent {A}.

Definition inb (k : string) (ks : list string) : bool :=
  existsb (String.eqb k) ks.

Fixpoint assoc {A : Type} (k : string) (table : list (string * A))
  : option A :=
  match table with
  | [] => None
  | (k', a) :: rest => if (k' =? k)%string then Some a else assoc k rest
  end.

Definition tableGet {A : Type} (table : list (string * A)) (k : string)
  : lookup A :=
  match assoc k table with
  | Some a => Own a
  | None => if inb k objectPrototypeKeys then Inherited else Absent
  end.

(** ** Strings *)

Definition code (c : ascii) : N := N_of_ascii c.

(** Byte length of the white-space character (the [\s] of a regular
    expression, which is also what [trim] removes) that starts [s], or
    [0] when [s] does not start with one: TAB, LF, VT, FF, CR, SP,
    U+00A0, U+1680, U+2000..U+200A, U+2028, U+2029, U+202F, U+205F,
    U+3000 and U+FEFF in their UTF-8 encodings. *)
Definition wsLen (s : string) : nat :=
  match s with
  | String c1 r1 =>
      let b1 := code c1 in
      if ((9 <=? b1) && (b1 <=? 13) || (b1 =? 32))%N then 1%nat
      else
        match r1 with
        | String c2 r2 =>
            let b2 := code c2 in
            if ((b1 =? 194) && (b2 =? 160))%N then 2%nat
            else
              match r2 with
              | String c3 _ =>
                  let b3 := code c3 in
                  if ((b1 =? 225) && (b2 =? 154) && (b3 =? 128)
                      || (b1 =? 226) && (b2 =? 128)
                         && ((128 <=? b3) && (b3 <=? 138)
                             || (b3 =? 168) || (b3 =? 169) || (b3 =? 175))
                      || (b1 =? 226) && (b2 =? 129) && (b3 =? 159)
                      || (b1 =? 227) && (b2 =? 128) && (b3 =? 128)
                      || (b1 =? 239) && (b2 =? 187) && (b3 =? 191))%N
                  then 3%nat else 0%nat
              | EmptyString => 0%nat
              end
        | EmptyString => 0%nat
        end
  | EmptyString => 0%nat
  end.

Fixpoint drop (n : nat) (s : string) : string :=
  match n, s with
  | S n', String _ t => drop n' t
  | _, _ => s
  end.

Fixpoint take (n : nat) (s : string) : string :=
  match n, s with
  | S n', String c t => String c (take n' t)
  | _, _ => EmptyString
  end.

(** [skipSpaces fuel s] removes the white space that starts [s]; each
    round removes at least one byte, so [length s] rounds suffice. *)
Fixpoint skipSpaces (fuel : nat) (s : string) : string :=
  match fuel with
  | O => s
  | S fuel' =>
      match wsLen s with
      | O => s
      | n => skipSpaces fuel' (drop n s)
      end
  end.

Definition trimStart (s : string) : string :=
  skipSpaces (String.length s) s.

Fixpoint trimEnd (s : string) : string :=
  match s with
  | EmptyString => EmptyString
  | String c t =>
      if (trimStart s =? EmptyString)%string then EmptyString
      else String c (trimEnd t)
  end.

(** [String.prototype.trim]. *)
Definition trim (s : string) : string := trimEnd (trimStart s).

(** [s.replace(/pat\s*/g, '')] for a literal [pat]: every occurrence
    of [pat], scanning left to right, is removed together with the white
    space that follows it. *)
Fixpoint removeAll (fuel : nat) (pat s : string) : string :=
  match fuel with
  | O => s
  | S fuel' =>
      match s with
      | EmptyString => EmptyString
      | String c t =>
          if String.prefix pat s
          then removeAll fuel' pat (trimStart (drop (String.length pat) s))
          else String c (removeAll fuel' pat t)
      end
  end.

Definition replaceWithNothing (pat s : string) : string :=
  removeAll (String.length s) pat s.

(** [s.indexOf(c)] and [s.lastIndexOf(c)] for a one-character [c];
    [-1] when [c] does not occur. *)
Fixpoint indexOf (c : ascii) (s : string) : Z :=
  match s with
  | EmptyString => -1
  | String a t =>
      if Ascii.eqb a c then 0
      else let r := indexOf c t in if r =? -1 then -1 else r + 1
  end.

Fixpoint lastIndexOf (c : ascii) (s : string) : Z :=
  match s with
  | EmptyString => -1
  | String a t =>
      let r := lastIndexOf c t in
      if r =? -1 then (if Ascii.eqb a c then 0 else -1) else r + 1
  end.

(** [s.substring(from, to)]: both ends are clamped to the string and
    swapped when they come in the wrong order. *)
Definition substring (s : string) (from to : Z) : string :=
  let len := Z.of_nat (String.length s) in
  let a := Z.max 0 (Z.min from len) in
  let b := Z.max 0 (Z.min to len) in
  let lo := Z.min a b in
  let hi := Z.max a b in
  take (Z.to_nat (hi - lo)) (drop (Z.to_nat lo) s).

(** [String.prototype.toLowerCase], on the ASCII letters. *)
Definition lowerChar (c : ascii) : ascii :=
  let b := code c in
  if ((65 <=? b) && (b <=? 90))%N then ascii_of_N (b + 32) else c.

Fixpoint toLowerCase (s : string) : string :=
  match s with
  | EmptyString => EmptyString
  | String c t => String (lowerChar c) (toLowerCase t)
  end.

(** [a.join(sep)] on strings. *)
Fixpoint join (sep : string) (l : list string) : string :=
  match l with
  | [] => EmptyString
  | [x] => x
  | x :: rest => x ++ sep ++ join sep rest
  end.

(** [s.split(c)[0]]: the text before the first [c]. *)
Fixpoint beforeFirst (c : ascii) (s : string) : string :=
  match s with
  | EmptyString => EmptyString
  | String a t => if Ascii.eqb a c then EmptyString
                  else String a (beforeFirst c t)
  end.

(** [s.charAt(0).toUpperCase() + s.slice(1)], on the ASCII letters. *)
Definition capitalize (s : string) : string :=
  match s with
  | EmptyString => EmptyString
  | String c t =>
      let b := code c in
      String (if ((97 <=? b) && (b <=? 122))%N then ascii_of_N (b - 32) else c) t
  end.

(** ** Dates

    A [Date] holds a time value: milliseconds since the epoch, UTC.
    Local time is that of the host's time zone, whose offset from UTC
    changes with the date where daylight-saving time is observed: the
    functions below take the offset as [tza], where [tza t true] is the
    offset in force at the time value [t] and [tza t false] the offset
    in force when a clock on the wall shows the local time [t]. *)

Definition msPerDay : Z := 86400000.
Definition Day (t : Z) : Z := t / msPerDay.
Definition TimeWithinDay (t : Z) : Z := t mod msPerDay.

(** Year, month (1..12) and day of the month (1..31) of a day number
    in the proleptic Gregorian calendar. *)
Definition civilFromDays (day : Z) : Z * Z * Z :=
  let z := day + 719468 in
  let era := z / 146097 in
  let doe := z - era * 146097 in
  let yoe := (doe - doe / 1460 + doe / 36524 - doe / 146096) / 365 in
  let doy := doe - (365 * yoe + yoe / 4 - yoe / 100) in
  let mp := (5 * doy + 2) / 153 in
  let d := doy - (153 * mp + 2) / 5 + 1 in
  let m := if mp <? 10 then mp + 3 else mp - 9 in
  let y := yoe + era * 400 + (if m <=? 2 then 1 else 0) in
  (y, m, d).

Definition DateFromTime (t : Z) : Z :=
  let '(_, _, d) := civilFromDays (Day t) in d.

(** LocalTime and UTC of the language: from a time value to the local
    time and back. *)
Definition LocalTime (tza : Z -> bool -> Z) (t : Z) : Z := t + tza t true.
Definition UTC (tza : Z -> bool -> Z) (t : Z) : Z := t - tza t false.

(** [date.getDate()]: the day of the month, in local time. *)
Definition getDate (tza : Z -> bool -> Z) (t : Z) : Z :=
  DateFromTime (LocalTime tza t).

(** [date.setDate(dt)]: the language defines the new time value as
    [UTC (MakeDate (MakeDay (year, month, dt), TimeWithinDay lt))] where
    [lt] is the receiver's local time and [MakeDay (year, month, dt)] is
    the day number of the first day of [lt]'s month plus [dt - 1]; [dt]
    may lie outside the month.  The time of day on the wall is kept, so
    the time value moves by an hour more or less than a whole number of
    days when the offset changes in between. *)
Definition setDate (tza : Z -> bool -> Z) (t dt : Z) : Z :=
  let lt := LocalTime tza t in
  let firstOfMonth := Day lt - (DateFromTime lt - 1) in
  UTC tza ((firstOfMonth + dt - 1) * msPerDay + TimeWithinDay lt).

Definition digit (d : Z) : ascii := ascii_of_N (48 + Z.to_N d).

Fixpoint padDigits (width : nat) (n : Z) : string :=
  match width with
  | O => EmptyString
  | S w => padDigits w (n / 10) ++ String (digit (n mod 10)) EmptyString
  end.

(** [date.toISOString()]: [YYYY-MM-DDTHH:mm:ss.sssZ], with a signed
    six-digit year outside 0..9999. *)
Definition toISOString (t : Z) : string :=
  let '(y, m, d) := civilFromDays (Day t) in
  let ms := TimeWithinDay t in
  (if (0 <=? y) && (y <=? 9999) then padDigits 4 y
   else (if y <? 0 then "-" else "+") ++ padDigits 6 (Z.abs y))
  ++ "-" ++ padDigits 2 m ++ "-" ++ padDigits 2 d
  ++ "T" ++ padDigits 2 (ms / 3600000)
  ++ ":" ++ padDigits 2 (ms / 60000 mod 60)
  ++ ":" ++ padDigits 2 (ms / 1000 mod 60)
  ++ "." ++ padDigits 3 (ms mod 1000) ++ "Z".

(** ** A reference implementation of [JSON.parse]

    The grammar of ECMA-404.  Numbers denote the real they spell;
    [\uXXXX] escapes are stored in UTF-8. *)

Definition decimal (mantissa exponent : Z) : R :=
  (IZR mantissa * powerRZ 10 exponent)%R.

(** JSON text in this development is written with ['] where the
    text has a double quote; [dq] puts the double quotes in. *)
Fixpoint dq (s : string) : string :=
  match s with
  | EmptyString => EmptyString
  | String c t => String (if (code c =? 39)%N then ascii_of_N 34 else c) (dq t)
  end.

Fixpoint skipJsonWs (s : string) : string :=
  match s with
  | String c t =>
      let b := code c in
      if ((b =? 32) || (b =? 9) || (b =? 10) || (b =? 13))%N
      then skipJsonWs t else s
  | EmptyString => s
  end.

Definition isDigit (c : ascii) : bool :=
  ((48 <=? code c) && (code c <=? 57))%N.

(** Reads a run of digits: the number they spell after [acc], how many
    there were, and the rest of the text. *)
Fixpoint readDigits (s : string) (acc : Z) (count : Z)
  : Z * Z * string :=
  match s with
  | String c t =>
      if isDigit c
      then readDigits t (10 * acc + Z.of_N (code c - 48)) (count + 1)
      else (acc, count, s)
  | EmptyString => (acc, count, s)
  end.

(** [expect b s]: the text after the byte [b] that starts [s]. *)
Definition expect (b : N) (s : string) : option string :=
  match s with
  | String c t => if (code c =? b)%N then Some t else None
  | EmptyString => None
  end.

(** Bytes: 43 and 45 are the signs, 46 the point, 48 the digit 0, 69
    and 101 the letter E. *)
Definition readExponent (s : string) : option (Z * string) :=
  match expect 101 s, expect 69 s with
  | None, None => Some (0, s)
  | Some t, _ | None, Some t =>
      let '(sign, t') :=
        match expect 43 t, expect 45 t with
        | Some u, _ => (1, u)
        | None, Some u => (-1, u)
        | None, None => (1, t)
        end in
      let '(e, n, rest) := readDigits t' 0 0 in
      if n =? 0 then None else Some (sign * e, rest)
  end.

Definition readFraction (s : string) (int : Z) : option (Z * Z * string) :=
  match expect 46 s with
  | Some t =>
      let '(m, n, rest) := readDigits t int 0 in
      if n =? 0 then None else Some (m, n, rest)
  | None => Some (int, 0, s)
  end.

Definition parseNumber (s : string) : option (value * string) :=
  let '(sign, s1) :=
    match expect 45 s with
    | Some t => (-1, t)
    | None => (1, s)
    end in
  let '(int, n, s2) :=
    match expect 48 s1 with
    | Some t => (0, 1, t)
    | None => readDigits s1 0 0
    end in
  if n =? 0 then None
  else
    match readFraction s2 int with
    | None => None
    | Some (m, fracLen, s3) =>
        match readExponent s3 with
        | None => None
        | Some (e, s4) =>
            Some (VNum (Fin (decimal (sign * m) (e - fracLen))), s4)
        end
    end.

Definition hexVal (c : ascii) : option N :=
  let b := code c in
  if ((48 <=? b) && (b <=? 57))%N then Some (b - 48)%N
  else if ((97 <=? b) && (b <=? 102))%N then Some (b - 87)%N
  else if ((65 <=? b) && (b <=? 70))%N then Some (b - 55)%N
  else None.

Definition hex4 (s : string) : option (N * string) :=
  match s with
  | String a (String b (String c (String d rest))) =>
      match hexVal a, hexVal b, hexVal c, hexVal d with
      | Some x, Some y, Some z, Some w =>
          Some (((x * 16 + y) * 16 + z) * 16 + w, rest)%N
      | _, _, _, _ => None
      end
  | _ => None
  end.

Definition utf8 (cp : N) : string :=
  let byte n := ascii_of_N n in
  (if cp <? 128 then String (byte cp) EmptyString
   else if cp <? 2048 then
     String (byte (192 + cp / 64)) (String (byte (128 + cp mod 64)) EmptyString)
   else if cp <? 65536 then
     String (byte (224 + cp / 4096))
       (String (byte (128 + cp / 64 mod 64))
          (String (byte (128 + cp mod 64)) EmptyString))
   else
     String (byte (240 + cp / 262144))
       (String (byte (128 + cp / 4096 mod 64))
          (String (byte (128 + cp / 64 mod 64))
             (String (byte (128 + cp mod 64)) EmptyString))))%N.

(** A [\u] escape, with its low surrogate when it is a high one. *)
Definition readUnicodeEscape (s : string) : option (string * string) :=
  match hex4 s with
  | None => None
  | Some (hi, rest) =>
      let single := Some (utf8 hi, rest) in
      if ((55296 <=? hi) && (hi <=? 56319))%N then
        match expect 92 rest with
        | Some rest1 =>
            match expect 117 rest1 with
            | Some rest2 =>
                match hex4 rest2 with
                | Some (lo, rest3) =>
                    if ((56320 <=? lo) && (lo <=? 57343))%N
                    then Some (utf8 (65536 + (hi - 55296) * 1024
                                     + (lo - 56320))%N, rest3)
                    else single
                | None => single
                end
            | None => single
            end
        | None => single
        end
      else single
  end.

(** The characters of a string literal, after its opening quote. *)
Fixpoint parseChars (fuel : nat) (s : string) : option (string * string) :=
  match fuel with
  | O => None
  | S fuel' =>
      let continue (piece rest : string) :=
        match parseChars fuel' rest with
        | Some (str, rest') => Some (piece ++ str, rest')
        | None => None
        end in
      match s with
      | EmptyString => None
      | String c t =>
          if (code c =? 34)%N then Some (EmptyString, t)
          else if (code c =? 92)%N then
            match t with
            | String e u =>
                let b := code e in
                let one n := continue (String (ascii_of_N n) EmptyString) u in
                if (b =? 34)%N then one 34%N
                else if (b =? 92)%N then one 92%N
                else if (b =? 47)%N then one 47%N
                else if (b =? 98)%N then one 8%N
                else if (b =? 102)%N then one 12%N
                else if (b =? 110)%N then one 10%N
                else if (b =? 114)%N then one 13%N
                else if (b =? 116)%N then one 9%N
                else if (b =? 117)%N then
                  match readUnicodeEscape u with
                  | Some (piece, rest) => continue piece rest
                  | None => None
                  end
                else None
            | EmptyString => None
            end
          else if (code c <? 32)%N then None
          else continue (String c EmptyString) t
      end
  end.

Definition parseLiteral (s : string) : option (value * string) :=
  if String.prefix "true" s then Some (VBool true, drop 4 s)
  else if String.prefix "false" s then Some (VBool false, drop 5 s)
  else if String.prefix "null" s then Some (VNull, drop 4 s)
  else parseNumber s.

(** Bytes: 123 and 125 are the braces, 91 and 93 the brackets, 34 the
    double quote, 44 the comma, 58 the colon. *)
Fixpoint parseValue (fuel : nat) (s : string) {struct fuel}
  : option (value * string) :=
  match fuel with
  | O => None
  | S fuel' =>
      let s := skipJsonWs s in
      match expect 123 s, expect 91 s, expect 34 s with
      | Some t, _, _ =>
          match expect 125 (skipJsonWs t) with
          | Some rest => Some (VObj [], rest)
          | None =>
              match parseMembers fuel' t with
              | Some (fields, rest) => Some (VObj fields, rest)
              | None => None
              end
          end
      | None, Some t, _ =>
          match expect 93 (skipJsonWs t) with
          | Some rest => Some (VArr [], rest)
          | None =>
              match parseElements fuel' t with
              | Some (items, rest) => Some (VArr items, rest)
              | None => None
              end
          end
      | None, None, Some t =>
          match parseChars (String.length s) t with
          | Some (str, rest) => Some (VStr str, rest)
          | None => None
          end
      | None, None, None => parseLiteral s
      end
  end

with parseElements (fuel : nat) (s : string) {struct fuel}
  : option (list value * string) :=
  match fuel with
  | O => None
  | S fuel' =>
      match parseValue fuel' s with
      | None => None
      | Some (v, rest) =>
          let rest := skipJsonWs rest in
          match expect 93 rest, expect 44 rest with
          | Some rest', _ => Some ([v], rest')
          | None, Some rest' =>
              match parseElements fuel' rest' with
              | Some (vs, rest'') => Some (v :: vs, rest'')
              | None => None
              end
          | None, None => None
          end
      end
  end

with parseMembers (fuel : nat) (s : string) {struct fuel}
  : option (list (string * value) * string) :=
  match fuel with
  | O => None
  | S fuel' =>
      match expect 34 (skipJsonWs s) with
      | None => None
      | Some t =>
          match parseChars (String.length s) t with
          | None => None
          | Some (key, rest) =>
              match expect 58 (skipJsonWs rest) with
              | None => None
              | Some rest1 =>
                  match parseValue fuel' rest1 with
                  | None => None
                  | Some (v, rest2) =>
                      let rest2 := skipJsonWs rest2 in
                      match expect 125 rest2, expect 44 rest2 with
                      | Some rest3, _ => Some ([(key, v)], rest3)
                      | None, Some rest3 =>
                          match parseMembers fuel' rest3 with
                          | Some (fs, rest4) => Some ((key, v) :: fs, rest4)
                          | None => None
                          end
                      | None, None => None
                      end
                  end
              end
          end
      end
  end.

Definition referenceParse (text : string) : result value :=
  match parseValue (2 * String.length text + 2) text with
  | Some (v, rest) =>
      match skipJsonWs rest with
      | EmptyString => Ok v
      | _ => Throw (SyntaxError "Unexpected non-whitespace character after JSON")
      end
  | None => Throw (SyntaxError "Unexpected token in JSON")
  end.

End Js.

(* ================================================================== *)
(** * Part II.  The host and the effects of the service                *)
(* ================================================================== *)

Module Effects.
Import Js.

(** What the service obtains from its environment.  [Math_random k] is
    the result of the [k]-th call of [Math.random()] and [Date_now k]
    the time value of the [k]-th [new Date()], both counted from 0. *)
Record Host : Type := {
  Math_random : nat -> R;
  Date_now : nat -> Z;
  (** the offset of local time from UTC, in milliseconds: at a time
      value ([true]) and at a local time ([false]) *)
  LocalTZA : Z -> bool -> Z;
  Number_toString : R -> string;
  toLocaleDateString : Z -> string;
  (** [new Date(v)] for an arbitrary value: its time value, or [None]
      for an invalid date *)
  Date_parse : value -> option Z;
  JSON_parse : string -> result value
}.

(** How many random numbers and clock readings have been consumed. *)
Record World : Type := {
  draws : nat;
  clockReads : nat
}.

(** A computation may draw, read the clock and throw. *)
Definition M (A : Type) : Type := World -> result A * World.

Definition ret {A : Type} (a : A) : M A := fun w => (Ok a, w).

Definition throw {A : Type} (e : exn) : M A := fun w => (Throw e, w).

Definition bind {A B : Type} (c : M A) (k : A -> M B) : M B :=
  fun w =>
    match c w with
    | (Ok a, w') => k a w'
    | (Throw e, w') => (Throw e, w')
    end.

(** [try { c } catch (error) { handler error }] *)
Definition tryCatch {A : Type} (c : M A) (handler : exn -> M A) : M A :=
  fun w =>
    match c w with
    | (Ok a, w') => (Ok a, w')
    | (Throw e, w') => handler e w'
    end.

Definition liftResult {A : Type} (r : result A) : M A := fun w => (r, w).

Definition random (h : Host) : M num :=
  fun w => (Ok (Fin (Math_random h (draws w))),
            {| draws := S (draws w); clockReads := clockReads w |}).

Definition newDate (h : Host) : M Z :=
  fun w => (Ok (Date_now h (clockReads w)),
            {| draws := draws w; clockReads := S (clockReads w) |}).

(** [for (let i = start; i < start + count; i++) state = body i state] *)
Fixpoint forLoop {S : Type} (count start : nat) (body : nat -> S -> M S)
  (state : S) : M S :=
  match count with
  | O => ret state
  | Datatypes.S count' =>
      bind (body start state)
           (fun state' => forLoop count' (Datatypes.S start) body state')
  end.

(** [items.map(f)] for an [f] that may throw. *)
Fixpoint mapResult {A B : Type} (f : A -> result B) (items : list A)
  : result (list B) :=
  match items with
  | [] => Ok []
  | x :: rest =>
      match f x with
      | Throw e => Throw e
      | Ok y =>
          match mapResult f rest with
          | Throw e => Throw e
          | Ok ys => Ok (y :: ys)
          end
      end
  end.

(** [n.toString()] *)
Definition numberText (h : Host) (n : num) : string :=
  match n with
  | NaN => "NaN"
  | Fin r => Number_toString h r
  end.

(** ToString, which also turns a value into a property key.  An array
    converts through [join].  An object converts through its [toString]
    method: the one it inherits gives "[object Object]"; an own property
    of that name hides it and, coming from JSON, is no function, so that
    the conversion throws. *)
Fixpoint ToString (h : Host) (v : value) : result string :=
  match v with
  | VUndef => Ok "undefined"
  | VNull => Ok "null"
  | VBool true => Ok "true"
  | VBool false => Ok "false"
  | VNum n => Ok (numberText h n)
  | VStr s => Ok s
  | VArr items =>
      match mapResult (fun item =>
                         match item with
                         | VUndef | VNull => Ok EmptyString
                         | _ => ToString h item
                         end) items with
      | Ok texts => Ok (join "," texts)
      | Throw e => Throw e
      end
  | VObj fields =>
      match ownProperty "toString" fields with
      | None => Ok "[object Object]"
      | Some _ => Throw (TypeError "Cannot convert object to primitive value")
      end
  end.

(** The text of an element in [join]. *)
Definition elementText (h : Host) (item : value) : result string :=
  match item with
  | VUndef | VNull => Ok EmptyString
  | _ => ToString h item
  end.

(** [array.join(sep)]; only an array has the method. *)
Definition arrayJoin (h : Host) (array : value) (sep : string)
  : result string :=
  match array with
  | VArr items =>
      match mapResult (elementText h) items with
      | Ok texts => Ok (join sep texts)
      | Throw e => Throw e
      end
  | VUndef | VNull => Throw (TypeError "Cannot read properties of undefined")
  | _ => Throw (TypeError "join is not a function")
  end.

(** [new Date(v).toLocaleDateString()]; an array or an object is first
    converted to a string. *)
Definition localeDateOf (h : Host) (v : value) : result string :=
  let format (v : value) : string :=
    match Date_parse h v with
    | Some t => toLocaleDateString h t
    | None => "Invalid Date"
    end in
  match v with
  | VArr _ | VObj _ =>
      match ToString h v with
      | Ok text => Ok (format (VStr text))
      | Throw e => Throw e
      end
  | _ => Ok (format v)
  end.

End Effects.

Declare Scope js_scope.
Delimit Scope js_scope with js.
Notation "x <- c1 ;; c2" := (Effects.bind c1 (fun x => c2))
  (at level 61, c1 at next level, right associativity) : js_scope.
Notation "c1 ;;; c2" := (Effects.bind c1 (fun _ => c2))
  (at level 61, right associativity) : js_scope.

(* ================================================================== *)
(** * Part III.  GeminiAIService                                       *)
(* ================================================================== *)

Module GeminiAIService.
Import Js Effects.
Local Open Scope R_scope.
Local Open Scope js_scope.

(** ** Data *)

(** The [inputData] of a request; [quantity] may be left out. *)
Record Request : Type := {
  crop : string;
  district : string;
  season : string;
  quantity : option R
}.

Definition quantityValue (inputData : Request) : value :=
  match quantity inputData with
  | Some q => VNum (Fin q)
  | None => VUndef
  end.

(** The three horizons of a trend: the keys ['7day'], ['14day'] and
    ['30day']. *)
Record Trend (A : Type) : Type := {
  day7 : list A;
  day14 : list A;
  day30 : list A
}.
Arguments day7 {A} t.
Arguments day14 {A} t.
Arguments day30 {A} t.

Definition mapTrend {A B : Type} (f : A -> B) (t : Trend A) : Trend B :=
  {| day7 := map f (day7 t); day14 := map f (day14 t);
     day30 := map f (day30 t) |}.

Record MarketRecord : Type := {
  name : value;
  lat : value;
  lng : value;
  demand : string;
  price : num;
  risk : string
}.

(** The [recommendations] of a forecast: an object on the AI path, a
    list of sentences on the mock path. *)
Inductive Recommendations : Type :=
| RecommendationBlock (sowingTime sellingTime : string)
    (marketStrategy : value) (actions : list string)
| RecommendationList (sentences : list string).

Record Metadata : Type := {
  meta_crop : string;
  meta_district : string;
  meta_season : string;
  meta_quantity : value;
  meta_timestamp : string;
  meta_source : string
}.

Record Forecast : Type := {
  success : bool;
  f_crop : string;
  f_district : string;
  f_season : string;
  f_quantity : value;
  demandTrend : Trend value;
  priceTrend : Trend value;
  glutRisk : string;
  optimalPlantingTime : value;
  optimalSellingTime : value;
  recommendedQuantity : value;
  suggestedMarkets : value;
  actionSummary : value;
  recommendations : Recommendations;
  markets : option (list MarketRecord);
  marketHeatmap : list MarketRecord;
  metadata : option Metadata;
  timestamp : string;
  source : string
}.

(** ** cleanJsonResponse *)

(** Bytes 123 and 125 are the braces. *)
Definition openBrace : ascii := ascii_of_N 123.
Definition closeBrace : ascii := ascii_of_N 125.

Definition stripFences (text : string) : string :=
  replaceWithNothing "```" (replaceWithNothing "```json" text).

Definition cleanJsonResponse (response : string) : string :=
  let cleaned := trim response in
  let cleaned := stripFences cleaned in
  let startIndex := indexOf openBrace cleaned in
  let lastIndex := lastIndexOf closeBrace cleaned in
  if negb (startIndex =? -1)%Z && negb (lastIndex =? -1)%Z
     && (lastIndex >? startIndex)%Z
  then substring cleaned startIndex (lastIndex + 1)
  else cleaned.

(** ** validateForecastData *)

Definition requiredFields : list string := ["forecast_trend"; "glut_risk"].

Fixpoint checkRequired (data : value) (fields : list string) : result unit :=
  match fields with
  | [] => Ok tt
  | field :: rest =>
      match getField data field with
      | Throw e => Throw e
      | Ok v =>
          if truthy v then checkRequired data rest
          else Throw (Error ("Missing required field: " ++ field))
      end
  end.

Definition isNonEmptyArray (v : value) : bool :=
  match v with
  | VArr (_ :: _) => true
  | _ => false
  end.

Definition riskLabels : list string := ["Low"; "Medium"; "High"].

(** [riskLabels.includes(v)] *)
Definition isRiskLabel (v : value) : bool :=
  match v with
  | VStr s => inb s riskLabels
  | _ => false
  end.

Definition validateForecastData (data : value) : result unit :=
  match checkRequired data requiredFields with
  | Throw e => Throw e
  | Ok _ =>
      match getField data "forecast_trend" with
      | Throw e => Throw e
      | Ok trend =>
          if negb (isNonEmptyArray trend)
          then Throw (Error "forecast_trend must be a non-empty array")
          else
            match getField data "glut_risk" with
            | Throw e => Throw e
            | Ok risk =>
                if negb (isRiskLabel risk)
                then Throw (Error "glut_risk must be Low, Medium, or High")
                else Ok tt
            end
      end
  end.

(** ** generateMarketHeatmap *)

Definition baseCoordinates : list (string * (R * R)) :=
  [ ("KR Market", (12.9716, 77.5946));
    ("Yeshwantpur Market", (13.0283, 77.5546));
    ("Bangalore Central Market", (12.9716, 77.5946));
    ("Mysore Market", (12.2958, 76.6394));
    ("Hubli Market", (15.3647, 75.1240));
    ("Mangalore Market", (12.9141, 74.8560)) ].

(** [baseCoordinates[market] || [12.9716 + ..., 77.5946 + ...]],
    followed by the reads [coords[0]] and [coords[1]].  A built-in
    inherited from [Object.prototype] is truthy, so it is kept, and it
    has no element 0 or 1. *)
Definition coordinatesOf (h : Host) (market : value) : M (value * value) :=
  key <- liftResult (ToString h market) ;;
  match tableGet baseCoordinates key with
  | Own (la, lo) => ret (VNum (Fin la), VNum (Fin lo))
  | Inherited => ret (VUndef, VUndef)
  | Absent =>
      r1 <- random h ;;
      r2 <- random h ;;
      ret (VNum (nadd (lit 12.9716) (nmul (nsub r1 (lit 0.5)) (lit 2))),
           VNum (nadd (lit 77.5946) (nmul (nsub r2 (lit 0.5)) (lit 2))))
  end.

Definition marketEntry (h : Host) (market : value) (index : nat)
  : M MarketRecord :=
  coords <- coordinatesOf h market ;;
  r <- random h ;;
  ret {| name := market;
         lat := fst coords;
         lng := snd coords;
         demand := "high";
         price := nadd (lit 25) (nmul r (lit 15));
         risk := if (index =? 0)%nat then "low" else "medium" |}.

(** [suggestedMarkets.forEach((market, index) => marketData.push(...))] *)
Fixpoint forEachMarket (h : Host) (suggestedMarkets : list value)
  (index : nat) (marketData : list MarketRecord) : M (list MarketRecord) :=
  match suggestedMarkets with
  | [] => ret marketData
  | market :: rest =>
      entry <- marketEntry h market index ;;
      forEachMarket h rest (S index) (marketData ++ [entry])
  end.

Definition generateMarketHeatmap (h : Host) (suggestedMarkets : list value)
  : M (list MarketRecord) :=
  forEachMarket h suggestedMarkets 0%nat [].

(** [generateMarketHeatmap(v)] for an arbitrary value: only an array
    has [forEach]. *)
Definition generateMarketHeatmapOf (h : Host) (v : value)
  : M (list MarketRecord) :=
  match v with
  | VArr items => generateMarketHeatmap h items
  | VUndef | VNull => throw (TypeError "Cannot read properties of undefined")
  | _ => throw (TypeError "suggestedMarkets.forEach is not a function")
  end.

(** ** formatForecastResponse *)

(** The receiver of [.slice(...).map(...)] or of [.map(...)]: only an
    array has both methods. *)
Definition arrayItems (v : value) : result (list value) :=
  match v with
  | VArr items => Ok items
  | VUndef | VNull => Throw (TypeError "Cannot read properties of undefined")
  | _ => Throw (TypeError "map is not a function")
  end.

(** [items.map(item => item[key])] *)
Definition pluck (key : string) (items : list value) : result (list value) :=
  mapResult (fun item => getField item key) items.

(** [trend.slice(0, n).map(item => item[key])], or [trend.map(...)]
    when there is no bound. *)
Definition sliceMap (trend : value) (bound : option nat) (key : string)
  : result (list value) :=
  match arrayItems trend with
  | Throw e => Throw e
  | Ok items =>
      pluck key (match bound with
                 | Some n => firstn n items
                 | None => items
                 end)
  end.

(** [v.toLowerCase()] *)
Definition toLowerCaseOf (v : value) : result string :=
  match v with
  | VStr s => Ok (toLowerCase s)
  | VUndef | VNull => Throw (TypeError "Cannot read properties of undefined")
  | _ => Throw (TypeError "toLowerCase is not a function")
  end.

Definition formatForecastResponse (h : Host) (aiData : value)
  (inputData : Request) : M Forecast :=
  let field k := liftResult (getField aiData k) in
  let series bound key :=
    (trend <- field "forecast_trend" ;;
     liftResult (sliceMap trend bound key)) in
  d7 <- series (Some 7%nat) "expected_demand_kg" ;;
  d14 <- series (Some 14%nat) "expected_demand_kg" ;;
  d30 <- series None "expected_demand_kg" ;;
  p7 <- series (Some 7%nat) "expected_price_per_kg" ;;
  p14 <- series (Some 14%nat) "expected_price_per_kg" ;;
  p30 <- series None "expected_price_per_kg" ;;
  glut_risk <- field "glut_risk" ;;
  lowered <- liftResult (toLowerCaseOf glut_risk) ;;
  optimal_planting_time <- field "optimal_planting_time" ;;
  optimal_selling_time <- field "optimal_selling_time" ;;
  recommended_quantity_kg <- field "recommended_quantity_kg" ;;
  suggested_markets <- field "suggested_markets" ;;
  action_summary <- field "action_summary" ;;
  plantingText <- liftResult (localeDateOf h optimal_planting_time) ;;
  sellingText <- liftResult (localeDateOf h optimal_selling_time) ;;
  recommendedText <- liftResult (ToString h recommended_quantity_kg) ;;
  joined <- liftResult (arrayJoin h suggested_markets ", ") ;;
  riskText <- liftResult (ToString h glut_risk) ;;
  marketRecords <- generateMarketHeatmapOf h suggested_markets ;;
  heatmap <- generateMarketHeatmapOf h suggested_markets ;;
  stamp1 <- newDate h ;;
  stamp2 <- newDate h ;;
  ret {| success := true;
         f_crop := crop inputData;
         f_district := district inputData;
         f_season := season inputData;
         f_quantity := quantityValue inputData;
         demandTrend := {| day7 := d7; day14 := d14; day30 := d30 |};
         priceTrend := {| day7 := p7; day14 := p14; day30 := p30 |};
         glutRisk := lowered;
         optimalPlantingTime := optimal_planting_time;
         optimalSellingTime := optimal_selling_time;
         recommendedQuantity := recommended_quantity_kg;
         suggestedMarkets := suggested_markets;
         actionSummary := action_summary;
         recommendations :=
           RecommendationBlock
             ("Optimal sowing for " ++ crop inputData ++ " in "
              ++ district inputData ++ " is " ++ plantingText)
             ("Best selling window is " ++ sellingText)
             action_summary
             [ "🌱 Optimal planting time: " ++ plantingText;
               "💰 Best selling period: " ++ sellingText;
               "📊 Recommended quantity: " ++ recommendedText ++ " kg";
               "🏪 Suggested markets: " ++ joined;
               "⚠️ Glut risk: " ++ riskText ];
         markets := Some marketRecords;
         marketHeatmap := heatmap;
         metadata :=
           Some {| meta_crop := crop inputData;
                   meta_district := district inputData;
                   meta_season := season inputData;
                   meta_quantity := quantityValue inputData;
                   meta_timestamp := toISOString stamp1;
                   meta_source := "gemini-ai" |};
         timestamp := toISOString stamp2;
         source := "gemini-ai" |}.

(** ** generateMockForecast *)

Record CropData : Type := {
  basePrice : num;
  volatility : num;
  demandMultiplier : num
}.

Definition cropEntry (p v m : R) : CropData :=
  {| basePrice := Fin p; volatility := Fin v; demandMultiplier := Fin m |}.

Definition crops : list (string * CropData) :=
  [ ("Rice", cropEntry 25 0.1 1.2);
    ("Wheat", cropEntry 22 0.08 1.1);
    ("Maize", cropEntry 18 0.12 1.0);
    ("Cotton", cropEntry 45 0.15 0.9);
    ("Sugarcane", cropEntry 3 0.05 1.3);
    ("Tomato", cropEntry 35 0.2 1.1);
    ("Onion", cropEntry 20 0.18 1.0);
    ("Potato", cropEntry 15 0.12 1.1) ].

(** The three fields read from a built-in of [Object.prototype]: all
    [undefined], which arithmetic turns into [NaN]. *)
Definition builtinAsCrop : CropData :=
  {| basePrice := NaN; volatility := NaN; demandMultiplier := NaN |}.

Definition asCropData (found : lookup CropData) : CropData :=
  match found with
  | Own c => c
  | _ => builtinAsCrop
  end.

(** [crops[inputData.crop] || crops['Rice']] *)
Definition cropDataOf (cropName : string) : CropData :=
  match tableGet crops cropName with
  | Absent => asCropData (tableGet crops "Rice")
  | found => asCropData found
  end.

(** [inputData.quantity || 100] *)
Definition baseQuantityOf (inputData : Request) : R :=
  match quantity inputData with
  | Some q => if Req_dec_T q 0 then 100 else q
  | None => 100
  end.

Definition marketsByDistrict : list (string * list string) :=
  [ ("Karnataka",
     ["KR Market"; "Yeshwantpur Market"; "Bangalore Central Market"]);
    ("Maharashtra", ["Crawford Market"; "Pune Market"; "Nashik Market"]);
    ("Tamil Nadu",
     ["Koyambedu Market"; "Chennai Central Market"; "Coimbatore Market"]);
    ("Punjab", ["Ludhiana Market"; "Amritsar Market"; "Jalandhar Market"]);
    ("Haryana", ["Gurgaon Market"; "Faridabad Market"; "Panipat Market"]) ].

(** [marketsByDistrict[inputData.district] || marketsByDistrict['Karnataka']] *)
Definition suggestedMarketsOf (districtName : string)
  : lookup (list string) :=
  match tableGet marketsByDistrict districtName with
  | Absent => tableGet marketsByDistrict "Karnataka"
  | found => found
  end.

(** The receiver of [suggestedMarkets.slice(0, 2)], the first use of
    [suggestedMarkets] (in the action summary): an array of the table
    has the method, a built-in of [Object.prototype] has not. *)
Definition sliceReceiver (suggested : lookup (list string))
  : result (list string) :=
  match suggested with
  | Own names => Ok names
  | Inherited => Throw (TypeError "suggestedMarkets.slice is not a function")
  | Absent => Throw (TypeError "Cannot read properties of undefined")
  end.

Definition push {A : Type} (array : list A) (x : A) : list A := array ++ [x].

Definition emptyTrend : Trend num := {| day7 := []; day14 := []; day30 := [] |}.

Definition pushTrend (i : nat) (t : Trend num) (x : num) : Trend num :=
  {| day30 := push (day30 t) x;
     day14 := if (i <? 14)%nat then push (day14 t) x else day14 t;
     day7 := if (i <? 7)%nat then push (day7 t) x else day7 t |}.

(** The body of the loop over the 30 days; the state is the pair
    [(demandTrend, priceTrend)]. *)
Definition dayStep (h : Host) (cropData : CropData) (baseDemand : num)
  (i : nat) (trends : Trend num * Trend num) : M (Trend num * Trend num) :=
  let dayFactor :=
    nadd (lit 1) (nmul (Math_sin (ndiv (ofNat i) (lit 7))) (lit 0.1)) in
  r <- random h ;;
  let randomFactor :=
    nadd (lit 1) (nmul (nsub r (lit 0.5)) (volatility cropData)) in
  let demand := Math_round (nmul (nmul baseDemand dayFactor) randomFactor) in
  let price :=
    ndiv (Math_round (nmul (nmul (basePrice cropData) randomFactor) (lit 100)))
         (lit 100) in
  ret (pushTrend i (fst trends) demand, pushTrend i (snd trends) price).

(** [array.reduce((a, b) => a + b, 0)] *)
Definition sum (array : list num) : num := fold_left nadd array (lit 0).

Definition classifyGlut (baseQuantity avgDemand : num) : string :=
  if ngt baseQuantity (nmul avgDemand (lit 1.5)) then "high"
  else if ngt baseQuantity (nmul avgDemand (lit 1.2)) then "medium"
  else "low".

Definition generateMockForecast (h : Host) (inputData : Request)
  : M Forecast :=
  let cropData := cropDataOf (crop inputData) in
  let baseQuantity := Fin (baseQuantityOf inputData) in
  let baseDemand := Math_round (nmul baseQuantity (demandMultiplier cropData)) in
  trends <- forLoop 30 0 (dayStep h cropData baseDemand)
                    (emptyTrend, emptyTrend) ;;
  let demandTrend := fst trends in
  let priceTrend := snd trends in
  let avgDemand := ndiv (sum (day30 demandTrend)) (lit 30) in
  let glutRisk := classifyGlut baseQuantity avgDemand in
  let suggestedMarkets := suggestedMarketsOf (district inputData) in
  today <- newDate h ;;
  let plantingDate :=
    setDate (LocalTZA h) today (getDate (LocalTZA h) today + 7) in
  let sellingDate :=
    setDate (LocalTZA h) plantingDate (getDate (LocalTZA h) plantingDate + 90) in
  let recommended := Math_round (nmul avgDemand (lit 0.9)) in
  names <- liftResult (sliceReceiver suggestedMarkets) ;;
  let twoMarkets := join " and " (firstn 2 names) in
  heatmap <- generateMarketHeatmap h (map VStr names) ;;
  stamp <- newDate h ;;
  ret {| success := true;
         f_crop := crop inputData;
         f_district := district inputData;
         f_season := season inputData;
         f_quantity := VNum baseQuantity;
         demandTrend := mapTrend VNum demandTrend;
         priceTrend := mapTrend VNum priceTrend;
         glutRisk := glutRisk;
         optimalPlantingTime :=
           VStr (beforeFirst "T" (toISOString plantingDate));
         optimalSellingTime :=
           VStr (beforeFirst "T" (toISOString sellingDate));
         recommendedQuantity := VNum recommended;
         suggestedMarkets := VArr (map VStr names);
         actionSummary :=
           VStr ("Plant " ++ numberText h recommended ++ " kg of "
                 ++ crop inputData ++ ". Sell at " ++ twoMarkets
                 ++ " markets around " ++ toLocaleDateString h sellingDate
                 ++ " to minimize glut risk.");
         recommendations :=
           RecommendationList
             [ "🌱 Start planting around "
                 ++ toLocaleDateString h plantingDate;
               "💰 Best selling period: "
                 ++ toLocaleDateString h sellingDate;
               "📊 Recommended quantity: "
                 ++ numberText h recommended ++ " kg";
               "🏪 Focus on " ++ twoMarkets ++ " markets";
               "⚠️ Glut risk: " ++ capitalize glutRisk ];
         markets := None;
         marketHeatmap := heatmap;
         metadata := None;
         timestamp := toISOString stamp;
         source := "mock-data" |}.

(** ** generateForecast *)

(** How the race between the streamed reply and the 15-second timer
    ends: the stream completes first with its chunks ([None] for a chunk
    without text), the call rejects, or the timer fires first.  The
    prompt is built from strings and a number, which cannot throw; what
    the model answers to it is left open. *)
Inductive AiOutcome : Type :=
| Streamed (chunks : list (option string))
| Rejected (error : exn)
| TimedOut.

(** [for await (const chunk of response) if (chunk.text) fullResponse += chunk.text] *)
Definition accumulate (chunks : list (option string)) : string :=
  fold_left (fun fullResponse chunk =>
               match chunk with
               | Some text => fullResponse ++ text
               | None => fullResponse
               end) chunks EmptyString.

Definition raceWithTimeout (ai : AiOutcome) : result string :=
  match ai with
  | Streamed chunks => Ok (accumulate chunks)
  | Rejected error => Throw error
  | TimedOut => Throw (Error "AI request timeout after 15 seconds")
  end.

(** The Response Normalizer: what the [try] block does with the raw
    text of the reply. *)
Definition normalize (h : Host) (fullResponse : string) (inputData : Request)
  : M Forecast :=
  let cleanedResponse := cleanJsonResponse fullResponse in
  forecastData <- liftResult (JSON_parse h cleanedResponse) ;;
  liftResult (validateForecastData forecastData) ;;;
  formatForecastResponse h forecastData inputData.

(** The [try] block. *)
Definition aiPath (h : Host) (ai : AiOutcome) (inputData : Request)
  : M Forecast :=
  fullResponse <- liftResult (raceWithTimeout ai) ;;
  normalize h fullResponse inputData.

Definition generateForecast (h : Host) (isAvailable : bool) (ai : AiOutcome)
  (inputData : Request) : M Forecast :=
  if negb isAvailable then generateMockForecast h inputData
  else
    tryCatch (aiPath h ai inputData)
             (fun error => generateMockForecast h inputData).

(** ** calculateVolatility *)

(** On a series of finite numbers.  With an empty series or a mean of
    zero the source divides by zero, which is outside the model. *)
Definition calculateVolatility (prices : list R) : string :=
  let mean := fold_left Rplus prices 0 / INR (List.length prices) in
  let variance :=
    fold_left (fun a b => a + (b - mean) ^ 2) prices 0
    / INR (List.length prices) in
  let stdDev := sqrt variance in
  let volatility := stdDev / mean in
  if Rgt_dec volatility 0.15 then "high"
  else if Rgt_dec volatility 0.08 then "medium"
  else "low".

End GeminiAIService.

(* ================================================================== *)
(** * Part III-A.  The arithmetic of the service in double precision   *)
(* ================================================================== *)

(** Part III computes with real numbers.  The source computes with
    IEEE 754 binary64 numbers and rounds every result to the nearest
    double, ties to even.  This module gives, in binary64 as the
    standard library specifies it, the lines of the service whose
    outcome can depend on that rounding: the comparisons of the glut
    classification, the price of a market record and the revenue of a
    simulation. *)

Module Double.
Import SpecFloat.

Definition double : Type := spec_float.

Definition prec : Z := 53.
Definition emax : Z := 1024.

(** A whole number; exact below [2^53] in absolute value. *)
Definition ofZ (n : Z) : double := binary_normalize prec emax n 0 false.

Definition add : double -> double -> double := SFadd prec emax.
Definition mul : double -> double -> double := SFmul prec emax.
Definition div : double -> double -> double := SFdiv prec emax.

(** [a > b] *)
Definition gt (a b : double) : bool := SFltb b a.

(** The decimal literal [digits / 10^places] of the source: the double
    nearest to it, which the quotient of the two whole numbers is. *)
Definition decimal (digits : Z) (places : nat) : double :=
  div (ofZ digits) (ofZ (10 ^ Z.of_nat places)).

(** [array.reduce((a, b) => a + b, 0)] *)
Definition sum (array : list double) : double :=
  fold_left add array (ofZ 0).

(** The glut classification of [generateMockForecast]. *)
Definition classifyGlut (baseQuantity avgDemand : double) : string :=
  if gt baseQuantity (mul avgDemand (decimal 15 1)) then "high"
  else if gt baseQuantity (mul avgDemand (decimal 12 1)) then "medium"
  else "low".


(** [25 + Math.random() * 15], the price of a market record. *)
Definition marketPrice (r : double) : double :=
  add (ofZ 25) (mul r (ofZ 15)).

(** [Math.round]: the whole number [floor (x + 1/2)], without an
    intermediate rounding; a double with an exponent that is not
    negative is whole already. *)
Definition round (x : double) : double :=
  match x with
  | S754_finite s m e =>
      if (0 <=? e)%Z then x
      else
        let twice := (2 * (if s then Z.neg m else Z.pos m))%Z in
        binary_normalize prec emax
          ((twice + 2 ^ (- e)) / 2 ^ (1 - e))%Z 0 s
  | _ => x
  end.

(** [calculateRevenue], on prices and a quantity that are numbers. *)
Definition calculateRevenue (prices : list double) (quantity : double)
  : double :=
  let avgPrice := div (sum prices) (ofZ 30) in
  round (mul avgPrice quantity).

(** The largest double below 1. *)
Definition belowOne : double := S754_finite false (2 ^ 53 - 1) (-53).

End Double.

(* ================================================================== *)
(** * Part IV.  Vocabulary of the specification, and sample inputs     *)
(* ================================================================== *)

Module Spec.
Import Js Effects GeminiAIService.
Local Open Scope R_scope.

(** ** Series *)

(** One underlying series seen through three windows: the invariant of
    the generator's loop after [i] days. *)
Definition windows {A : Type} (i : nat) (t : Trend A) : Prop :=
  List.length (day30 t) = i
  /\ day14 t = firstn 14 (day30 t)
  /\ day7 t = firstn 7 (day30 t).

Definition numberOf (v : value) : num :=
  match v with
  | VNum n => n
  | _ => NaN
  end.

(** The arithmetic mean. *)
Definition mean (prices : list R) : R :=
  fold_left Rplus prices 0 / INR (List.length prices).



(** What the rounding of the doubles is allowed for in a comparison:
    a part in [10^9], far above the error of a few operations in
    binary64 (a part in [10^15]). *)
Definition tolerance : R := / 1000000000.


(** ** Market records *)

(** The coordinates of a record follow the lookup of its name in the
    table of coordinates: those of the table for a name of the table, a
    random offset from the default coordinate for a name that is no
    property at all, and [undefined] for a name that finds a built-in of
    [Object.prototype]. *)
Definition coordinatesFollow (h : Host) (r : MarketRecord) : Prop :=
  forall key,
    ToString h (name r) = Ok key ->
    match tableGet baseCoordinates key with
    | Own (la, lo) => lat r = VNum (Fin la) /\ lng r = VNum (Fin lo)
    | Absent =>
        exists k1 k2,
          lat r = VNum (Fin (12.9716 + (Math_random h k1 - 0.5) * 2))
          /\ lng r = VNum (Fin (77.5946 + (Math_random h k2 - 0.5) * 2))
    | Inherited => lat r = VUndef /\ lng r = VUndef
    end.

(** ** Raw text *)

(** Whether the character [c] occurs in [s]. *)
Fixpoint occurs (c : ascii) (s : string) : bool :=
  match s with
  | EmptyString => false
  | String a t => Ascii.eqb a c || occurs c t
  end.

(** The text has an opening brace with a closing brace after it. *)
Definition bracePair (text : string) : Prop :=
  exists pre mid post,
    text = pre ++ String openBrace (mid ++ String closeBrace post).

(** The last step of [cleanJsonResponse], on the trimmed text without
    its fences. *)
Definition sliceBraces (cleaned : string) : string :=
  let startIndex := indexOf openBrace cleaned in
  let lastIndex := lastIndexOf closeBrace cleaned in
  if negb (startIndex =? -1)%Z && negb (lastIndex =? -1)%Z
     && (lastIndex >? startIndex)%Z
  then substring cleaned startIndex (lastIndex + 1)
  else cleaned.

(** [rest] is what remains of [s] after some leading text. *)
Definition suffix (rest s : string) : Prop :=
  exists used, s = (used ++ rest)%string.

Definition isObject (v : value) : bool :=
  match v with
  | VObj _ => true
  | _ => false
  end.

(** The spec's MalformedResponse is the [SyntaxError] of [JSON.parse]. *)
Definition malformedResponse (e : exn) : Prop :=
  match e with
  | SyntaxError _ => True
  | _ => False
  end.

Definition notMalformed (e : exn) : Prop := ~ malformedResponse e.

(** A computation throws only errors that satisfy [P]. *)
Definition throwsOnly {A : Type} (P : exn -> Prop) (c : M A) : Prop :=
  forall w e w', c w = (Throw e, w') -> P e.

Definition newline : string := String (ascii_of_N 10) EmptyString.

(** A fenced reply after a line of prose. *)
Definition fencedReply : string :=
  "Here you go:" ++ newline ++ "```json" ++ newline
  ++ dq "{'glut_risk': 'Low', 'forecast_trend': [{'date': '2026-11-03'}]}"
  ++ newline ++ "```".

(** ** Reshaping *)

Definition nullish (v : value) : bool :=
  match v with
  | VUndef | VNull => true
  | _ => false
  end.

(** Neither an array nor an object. *)
Definition primitive (v : value) : bool :=
  match v with
  | VArr _ | VObj _ => false
  | _ => true
  end.

(** What the reshaping step relies on in a reply that follows the
    schema of the prompt: the trend is an array of items, the risk a
    string, the markets an array of names, and the two dates and the
    recommended quantity are strings or numbers. *)
Definition followsSchema (aiData : value) (trend markets : list value)
  : Prop :=
  getField aiData "forecast_trend" = Ok (VArr trend)
  /\ forallb (fun item => negb (nullish item)) trend = true
  /\ (exists risk, getField aiData "glut_risk" = Ok (VStr risk))
  /\ getField aiData "suggested_markets" = Ok (VArr markets)
  /\ forallb primitive markets = true
  /\ (exists planting selling recommended,
        getField aiData "optimal_planting_time" = Ok planting
        /\ getField aiData "optimal_selling_time" = Ok selling
        /\ getField aiData "recommended_quantity_kg" = Ok recommended
        /\ primitive planting = true
        /\ primitive selling = true
        /\ primitive recommended = true).

(** [item[key]] for an item that is neither [null] nor [undefined]. *)
Definition propertyOf (key : string) (item : value) : value :=
  match getField item key with
  | Ok v => v
  | Throw _ => VUndef
  end.

(** [l.slice(0, n)], or [l] itself when there is no bound. *)
Definition bounded {A : Type} (bound : option nat) (l : list A) : list A :=
  match bound with
  | Some n => firstn n l
  | None => l
  end.

(** A trend of ten days, and a reply in the schema of the prompt that
    carries it. *)
Definition trendItem (day demandKg pricePerKg : R) : value :=
  VObj [ ("date", VNum (Fin day));
         ("expected_demand_kg", VNum (Fin demandKg));
         ("expected_price_per_kg", VNum (Fin pricePerKg)) ].

Definition tenDays : list value :=
  [ trendItem 1 120 25; trendItem 2 118 25.5; trendItem 3 121 24.75;
    trendItem 4 119 25; trendItem 5 125 26; trendItem 6 130 26.5;
    trendItem 7 128 26; trendItem 8 122 25.5; trendItem 9 120 25;
    trendItem 10 117 24.5 ].

Definition tenDayReply : value :=
  VObj [ ("forecast_trend", VArr tenDays);
         ("glut_risk", VStr "Medium");
         ("optimal_planting_time", VStr "2026-11-10");
         ("optimal_selling_time", VStr "2027-02-10");
         ("recommended_quantity_kg", VNum (Fin 110));
         ("suggested_markets", VArr [VStr "KR Market"; VStr "Mysore Market"]);
         ("action_summary", VStr "Plant in phases.") ].

(** ** Validation *)

(** [data[k]] for an object with the given fields. *)
Definition fieldOf (fields : list (string * value)) (k : string) : value :=
  match ownProperty k fields with
  | Some v => v
  | None => VUndef
  end.

(** Validation fails with a validation error: an [Error] thrown by
    [validateForecastData] itself. *)
Definition rejected (data : value) : Prop :=
  exists msg, validateForecastData data = Throw (Error msg).

Definition isArray (v : value) : bool :=
  match v with
  | VArr _ => true
  | _ => false
  end.

(** A field is missing, as the code reads it ([!data[field]]): it is
    absent, or it holds [null], [false], [0] or the empty string. *)
Definition missing (fields : list (string * value)) (k : string) : Prop :=
  truthy (fieldOf fields k) = false.

(** The condition under which C5 has validation fail: a required field
    is missing, the trend array is empty, or the risk is not one of the
    three labels. *)
Definition claimedRejection (fields : list (string * value)) : Prop :=
  missing fields "forecast_trend"
  \/ missing fields "glut_risk"
  \/ fieldOf fields "forecast_trend" = VArr []
  \/ isRiskLabel (fieldOf fields "glut_risk") = false.

(** The same, with the case that the trend field holds something that
    is not an array. *)
Definition amendedRejection (fields : list (string * value)) : Prop :=
  claimedRejection fields
  \/ isArray (fieldOf fields "forecast_trend") = false.

(** A reply whose trend is a word instead of an array. *)
Definition proseTrend : list (string * value) :=
  [ ("forecast_trend", VStr "rising"); ("glut_risk", VStr "Low") ].

(** ** Prices *)

(** Population standard deviation. *)
Definition stdDev (prices : list R) : R :=
  sqrt (fold_left (fun a b => a + (b - mean prices) ^ 2) prices 0
        / INR (List.length prices)).


(** A price per kilogram of an ordinary size, between a thousandth and
    a million: far from the smallest and the largest doubles. *)
Definition ordinaryPrice (p : R) : Prop := / 1000 <= p <= 1000000.

(** ** Sample hosts and requests *)

Definition sampleHost : Host :=
  {| Math_random := fun _ => 0.5;
     Date_now := fun k => (1793577600000 + Z.of_nat k)%Z;
     LocalTZA := fun _ _ => 19800000%Z;
     Number_toString := fun _ => "#";
     toLocaleDateString := fun t => beforeFirst "T" (toISOString t);
     Date_parse := fun _ => None;
     JSON_parse := referenceParse |}.

Definition startOfWorld : World := {| draws := 0; clockReads := 0 |}.






Definition riceRequest : Request :=
  {| crop := "Rice"; district := "Karnataka"; season := "Kharif";
     quantity := Some 100 |}.

(** A request whose region is the string [constructor]. *)
Definition constructorRequest : Request :=
  {| crop := "Rice"; district := "constructor"; season := "Kharif";
     quantity := Some 100 |}.

End Spec.

(* ================================================================== *)
(** * Part IV-A.  The simulation and the routes                       *)
(* ================================================================== *)

(** The rest of [GeminiAIService] (services/gemini-ai.js): [init],
    [generateSimulation] and the three functions it calls.  They do
    arithmetic on what a forecast holds, and a forecast of the AI path
    holds whatever values the reply had, so the operators are those of
    JavaScript on arbitrary values. *)

Module Simulation.
Import Js Effects GeminiAIService.
Local Open Scope R_scope.
Local Open Scope js_scope.

(** ** init *)

(** [apiKey] is the environment variable, [None] when it is not set;
    [construct] tells whether [new GoogleGenAI({apiKey})] throws.  The
    result is [isAvailable]. *)
Definition init (apiKey : option string) (construct : string -> result unit)
  : bool :=
  match apiKey with
  | None => false
  | Some key =>
      if (key =? EmptyString)%string then false
      else
        match construct key with
        | Ok _ => true
        | Throw _ => false
        end
  end.

(** ** Operators *)

(** ToPrimitive: an array or an object becomes the string that its
    [toString] gives. *)
Definition ToPrimitive (h : Host) (v : value) : result value :=
  match v with
  | VArr _ | VObj _ =>
      match ToString h v with
      | Ok text => Ok (VStr text)
      | Throw e => Throw e
      end
  | _ => Ok v
  end.

(** ToNumber.  [StringToNumber] is the numeric value of a string, [NaN]
    when the string is no numeric literal. *)
Definition ToNumber (StringToNumber : string -> num) (h : Host) (v : value)
  : result num :=
  match ToPrimitive h v with
  | Throw e => Throw e
  | Ok VUndef => Ok NaN
  | Ok VNull => Ok (lit 0)
  | Ok (VBool true) => Ok (lit 1)
  | Ok (VBool false) => Ok (lit 0)
  | Ok (VNum n) => Ok n
  | Ok (VStr s) => Ok (StringToNumber s)
  | Ok _ => Ok NaN
  end.

Definition isString (v : value) : bool :=
  match v with
  | VStr _ => true
  | _ => false
  end.

(** [a + b]: concatenation as soon as one side is a string (or an
    array or object, which becomes one), addition of numbers
    otherwise. *)
Definition add (StringToNumber : string -> num) (h : Host) (a b : value)
  : result value :=
  match ToPrimitive h a with
  | Throw e => Throw e
  | Ok pa =>
      match ToPrimitive h b with
      | Throw e => Throw e
      | Ok pb =>
          if isString pa || isString pb
          then
            match ToString h pa with
            | Throw e => Throw e
            | Ok ta =>
                match ToString h pb with
                | Throw e => Throw e
                | Ok tb => Ok (VStr (ta ++ tb))
                end
            end
          else
            match ToNumber StringToNumber h pa with
            | Throw e => Throw e
            | Ok na =>
                match ToNumber StringToNumber h pb with
                | Throw e => Throw e
                | Ok nb => Ok (VNum (nadd na nb))
                end
            end
      end
  end.

(** [array.reduce(f, initial)] for an [f] that may throw. *)
Fixpoint reduce {A B : Type} (f : A -> B -> result A) (array : list B)
  (initial : A) : result A :=
  match array with
  | [] => Ok initial
  | b :: rest =>
      match f initial b with
      | Throw e => Throw e
      | Ok a => reduce f rest a
      end
  end.

(** [array.reduce((a, b) => a + b, 0)] *)
Definition total (StringToNumber : string -> num) (h : Host)
  (array : list value) : result value :=
  reduce (add StringToNumber h) array (VNum (lit 0)).

(** [Math.sqrt] *)
Definition Math_sqrt (a : num) : num :=
  match a with
  | NaN => NaN
  | Fin x => if Rlt_dec x 0 then NaN else Fin (sqrt x)
  end.

(** [x / array.length], where [x] was reduced from the initial value
    0: for an empty array this is [0 / 0], which is [NaN]. *)
Definition overLength (x : num) (n : nat) : num :=
  match n with
  | O => NaN
  | _ => ndiv x (ofNat n)
  end.

(** [stdDev / mean > threshold] for a positive threshold.  The
    deviation is a square root and so not negative, and the mean is a
    sum started from [0] and so never the negative zero: dividing by a
    mean of zero gives [Infinity], which exceeds the threshold, except
    that [0 / 0] is [NaN], which does not. *)
Definition ratioExceeds (stdDev mean : num) (threshold : R) : bool :=
  match stdDev, mean with
  | Fin s, Fin m =>
      if Req_dec_T m 0
      then (if Rgt_dec s 0 then true else false)
      else (if Rgt_dec (s / m) threshold then true else false)
  | _, _ => false
  end.

(** ** calculateVolatility, on the array of a forecast *)

(** [(a, b) => a + Math.pow(b - mean, 2)] *)
Definition addSquare (StringToNumber : string -> num) (h : Host)
  (mean a : num) (b : value) : result num :=
  match ToNumber StringToNumber h b with
  | Throw e => Throw e
  | Ok nb =>
      let d := nsub nb mean in
      Ok (nadd a (nmul d d))
  end.

Definition calculateVolatilityOf (StringToNumber : string -> num) (h : Host)
  (prices : list value) : result string :=
  match total StringToNumber h prices with
  | Throw e => Throw e
  | Ok sumOfPrices =>
      match ToNumber StringToNumber h sumOfPrices with
      | Throw e => Throw e
      | Ok s =>
          let mean := overLength s (List.length prices) in
          match reduce (addSquare StringToNumber h mean) prices (lit 0) with
          | Throw e => Throw e
          | Ok squares =>
              let variance := overLength squares (List.length prices) in
              let stdDev := Math_sqrt variance in
              if ratioExceeds stdDev mean 0.15 then Ok "high"
              else if ratioExceeds stdDev mean 0.08 then Ok "medium"
              else Ok "low"
          end
      end
  end.

(** ** calculateRevenue, calculateProfit, assessRisk *)

(** [inputData.quantity || forecast.recommendedQuantity] *)
Definition quantityOr (inputData : Request) (forecast : Forecast) : value :=
  match quantity inputData with
  | Some q => if Req_dec_T q 0 then recommendedQuantity forecast
              else VNum (Fin q)
  | None => recommendedQuantity forecast
  end.

Definition calculateRevenue (StringToNumber : string -> num) (h : Host)
  (forecast : Forecast) (inputData : Request) : result num :=
  match total StringToNumber h (day30 (priceTrend forecast)) with
  | Throw e => Throw e
  | Ok sumOfPrices =>
      match ToNumber StringToNumber h sumOfPrices with
      | Throw e => Throw e
      | Ok s =>
          let avgPrice := ndiv s (lit 30) in
          match ToNumber StringToNumber h (quantityOr inputData forecast) with
          | Throw e => Throw e
          | Ok q => Ok (Math_round (nmul avgPrice q))
          end
      end
  end.

Definition calculateProfit (StringToNumber : string -> num) (h : Host)
  (forecast : Forecast) (inputData : Request) : result num :=
  match calculateRevenue StringToNumber h forecast inputData with
  | Throw e => Throw e
  | Ok revenue =>
      match ToNumber StringToNumber h (quantityOr inputData forecast) with
      | Throw e => Throw e
      | Ok q =>
          let costs := nmul q (lit 10) in
          Ok (Math_round (nsub revenue costs))
      end
  end.

Record RiskFactors : Type := {
  risk_glutRisk : string;
  marketVolatility : string;
  seasonalFactor : string
}.

Definition assessRisk (StringToNumber : string -> num) (h : Host)
  (forecast : Forecast) (inputData : Request) : result RiskFactors :=
  match calculateVolatilityOf StringToNumber h
          (day30 (priceTrend forecast)) with
  | Throw e => Throw e
  | Ok v =>
      Ok {| risk_glutRisk := glutRisk forecast;
            marketVolatility := v;
            seasonalFactor :=
              if (season inputData =? "Kharif")%string then "medium"
              else "low" |}
  end.

(** ** generateSimulation *)

(** The [inputData] of a simulation: that of a forecast and the chosen
    market. *)
Record SimulationRequest : Type := {
  request : Request;
  marketChoice : option string
}.

Record Predictions : Type := {
  revenue : num;
  profit : num;
  riskAssessment : RiskFactors
}.

(** [{...forecast, simulationType, marketChoice, predictions}] *)
Record Simulation : Type := {
  forecast : Forecast;
  simulationType : string;
  sim_marketChoice : string;
  predictions : Predictions
}.

(** [inputData.marketChoice || 'Local Market'] *)
Definition marketChoiceOf (inputData : SimulationRequest) : string :=
  match marketChoice inputData with
  | Some m => if (m =? EmptyString)%string then "Local Market" else m
  | None => "Local Market"
  end.

(** The extra [scenario] of [baseInput] is read by nothing. *)
Definition generateSimulation (StringToNumber : string -> num) (h : Host)
  (isAvailable : bool) (ai : AiOutcome) (inputData : SimulationRequest)
  : M Simulation :=
  forecast <- generateForecast h isAvailable ai (request inputData) ;;
  revenue <- liftResult (calculateRevenue StringToNumber h forecast
                           (request inputData)) ;;
  profit <- liftResult (calculateProfit StringToNumber h forecast
                          (request inputData)) ;;
  riskAssessment <- liftResult (assessRisk StringToNumber h forecast
                                  (request inputData)) ;;
  ret {| forecast := forecast;
         simulationType := "scenario-analysis";
         sim_marketChoice := marketChoiceOf inputData;
         predictions := {| revenue := revenue;
                           profit := profit;
                           riskAssessment := riskAssessment |} |}.

End Simulation.

(** The two endpoints of routes/forecast.js and the route's own mock
    generator.  A request body is whatever JSON the client sent: any
    value, and [undefined] when no body was parsed. *)

Module Routes.
Import Js Effects GeminiAIService Simulation.
Local Open Scope R_scope.
Local Open Scope js_scope.

Record SampleMarket : Type := {
  sm_name : string;
  sm_lat : R;
  sm_lng : R;
  sm_demand : string
}.

Definition sampleMarket (n : string) (la lo : R) (d : string) : SampleMarket :=
  {| sm_name := n; sm_lat := la; sm_lng := lo; sm_demand := d |}.

Definition SAMPLE_MARKETS : list (string * list SampleMarket) :=
  [ ("Karnataka",
     [ sampleMarket "Bangalore APMC" 12.9716 77.5946 "high";
       sampleMarket "Mysore Market" 12.2958 76.6394 "medium";
       sampleMarket "Hubli APMC" 15.3647 75.1240 "low";
       sampleMarket "Mangalore Market" 12.9141 74.8560 "high" ]);
    ("Maharashtra",
     [ sampleMarket "Mumbai APMC" 19.0760 72.8777 "high";
       sampleMarket "Pune Market" 18.5204 73.8567 "medium";
       sampleMarket "Nashik APMC" 19.9975 73.7898 "low";
       sampleMarket "Nagpur Market" 21.1458 79.0882 "medium" ]);
    ("Tamil Nadu",
     [ sampleMarket "Chennai Koyambedu" 13.0827 80.2707 "high";
       sampleMarket "Coimbatore Market" 11.0168 76.9558 "medium";
       sampleMarket "Madurai APMC" 9.9252 78.1198 "low";
       sampleMarket "Salem Market" 11.6643 78.1460 "medium" ]) ].

(** [SAMPLE_MARKETS[district] || SAMPLE_MARKETS['Karnataka']]; a
    built-in of [Object.prototype] is truthy and is kept. *)
Definition sampleMarketsOf (districtName : string)
  : lookup (list SampleMarket) :=
  match tableGet SAMPLE_MARKETS districtName with
  | Absent => tableGet SAMPLE_MARKETS "Karnataka"
  | found => found
  end.

(** ** The request body *)

(** [v || fallback] *)
Definition orElse (v fallback : value) : value :=
  if truthy v then v else fallback.

(** [k = fallback] in a destructuring pattern: the default stands in
    for [undefined] only. *)
Definition withDefault (v fallback : value) : value :=
  match v with
  | VUndef => fallback
  | _ => v
  end.

(** [error.message] *)
Definition message (error : exn) : string :=
  match error with
  | TypeError msg | SyntaxError msg | Error msg => msg
  end.

(** ** generateMockForecast of the routes *)

(** [Array.from({ length: n }, (_, i) => f i)] for an [f] that draws:
    the calls are made in order. *)
Fixpoint arrayFrom {A : Type} (n i : nat) (f : nat -> M A) : M (list A) :=
  match n with
  | O => ret []
  | S n' =>
      x <- f i ;;
      rest <- arrayFrom n' (S i) f ;;
      ret (x :: rest)
  end.

(** The three generators differ in their length and in the slope of
    the day: [Math.round(base + (Math.random() - 0.5) * variance +
    i * slope)]. *)
Definition generateDays (h : Host) (n : nat) (slope : R) (base : num)
  (variance : R) : M (list num) :=
  arrayFrom n 0 (fun i =>
    r <- random h ;;
    ret (Math_round
           (nadd (nadd base (nmul (nsub r (lit 0.5)) (lit variance)))
                 (nmul (ofNat i) (lit slope))))).

Definition generate7Day (h : Host) := generateDays h 7 2.
Definition generate14Day (h : Host) := generateDays h 14 1.5.
Definition generate30Day (h : Host) := generateDays h 30 1.

Definition glutRisks : list string := ["low"; "medium"; "high"].

(** [array[index]] for a whole number [index]: [undefined] out of
    range. *)
Definition elementAt {A : Type} (array : list A) (index : Z) : option A :=
  if (index <? 0)%Z then None else nth_error array (Z.to_nat index).

Record RouteRecommendations : Type := {
  sowingTime : string;
  sellingTime : string;
  marketStrategy : string;
  actions : list string
}.

Record MarketAnalysis : Type := {
  expectedDemand : string;
  competitionLevel : string;
  seasonalFactors : string
}.

Record RouteMetadata : Type := {
  rm_crop : value;
  rm_district : value;
  rm_season : value;
  rm_quantity : value;
  rm_timestamp : string;
  rm_source : string
}.

Record RouteForecast : Type := {
  rf_demandTrend : Trend num;
  rf_priceTrend : Trend num;
  (** [None] is [undefined] *)
  rf_glutRisk : option string;
  rf_recommendations : RouteRecommendations;
  rf_marketAnalysis : MarketAnalysis;
  rf_markets : lookup (list SampleMarket);
  rf_metadata : RouteMetadata
}.

(** [glutRisk === label] *)
Definition riskIs (glutRisk : option string) (label : string) : bool :=
  match glutRisk with
  | Some s => (s =? label)%string
  | None => false
  end.

(** The four arguments are values of the body.  The template literals
    convert them to strings, in the order in which the object literal
    is evaluated: the crop, the district and the season in
    [sowingTime], the quantity in the first of the [actions]; a value
    that cannot be converted makes the generator throw there, after
    the random numbers of the six series and before the one of
    [expectedDemand]. *)
Definition generateMockForecast (h : Host)
  (crop district season quantity : value) : M RouteForecast :=
  r1 <- random h ;;
  let basePrice := nadd (nmul r1 (lit 30)) (lit 15) in
  r2 <- random h ;;
  let demandBase := nadd (nmul r2 (lit 50)) (lit 50) in
  r3 <- random h ;;
  let glutRisk :=
    match r3 with
    | Fin r => elementAt glutRisks (Rfloor (r * 3))
    | NaN => None
    end in
  d7 <- generate7Day h demandBase 8 ;;
  d14 <- generate14Day h demandBase 12 ;;
  d30 <- generate30Day h demandBase 15 ;;
  p7 <- generate7Day h basePrice 3 ;;
  p14 <- generate14Day h basePrice 5 ;;
  p30 <- generate30Day h basePrice 7 ;;
  cropText <- liftResult (ToString h crop) ;;
  districtText <- liftResult (ToString h district) ;;
  seasonText <- liftResult (ToString h season) ;;
  quantityText <- liftResult (ToString h quantity) ;;
  r4 <- random h ;;
  stamp <- newDate h ;;
  ret {| rf_demandTrend := {| day7 := d7; day14 := d14; day30 := d30 |};
         rf_priceTrend := {| day7 := p7; day14 := p14; day30 := p30 |};
         rf_glutRisk := glutRisk;
         rf_recommendations :=
           {| sowingTime :=
                "Optimal sowing for " ++ cropText ++ " in " ++ districtText
                ++ " is 2-3 weeks into " ++ seasonText ++ " season";
              sellingTime := "Best selling window is 45-60 days after harvest";
              marketStrategy :=
                "Focus on "
                ++ (if riskIs glutRisk "low" then "local markets"
                    else "diversified regional markets");
              actions :=
                [ "Plant " ++ quantityText ++ "kg of " ++ cropText
                    ++ " in phases";
                  "Monitor weather patterns closely";
                  "Establish contracts with 2-3 buyers";
                  "Consider value-addition if glut risk is high" ] |};
         rf_marketAnalysis :=
           {| expectedDemand :=
                numberText h
                  (Math_round (nmul (nsub r4 (lit 0.5)) (lit 40))) ++ "%";
              competitionLevel :=
                if riskIs glutRisk "high" then "high"
                else if riskIs glutRisk "medium" then "medium" else "low";
              seasonalFactors :=
                seasonText ++ " season typically shows "
                ++ (if riskIs glutRisk "low" then "stable" else "volatile")
                ++ " pricing for " ++ cropText |};
         rf_markets := sampleMarketsOf districtText;
         rf_metadata :=
           {| rm_crop := crop;
              rm_district := district;
              rm_season := season;
              rm_quantity := quantity;
              rm_timestamp := toISOString stamp;
              rm_source := "mock-data" |} |}.

(** ** The calls of the service

    Part III models [generateForecast], and Part IV-A
    [generateSimulation], for the input that a client of the API sends:
    texts for the crop, the district, the season and the market choice,
    a finite number for the quantity.  What the service does with
    fields of other types is left open: it is the computation [other],
    which may return anything and may throw. *)

Definition requestOf (crop district season quantity : value)
  : option Request :=
  match crop, district, season, quantity with
  | VStr c, VStr d, VStr s, VNum (Fin q) =>
      Some {| GeminiAIService.crop := c;
              GeminiAIService.district := d;
              GeminiAIService.season := s;
              GeminiAIService.quantity := Some q |}
  | _, _, _, _ => None
  end.

Definition simulationRequestOf (crop district season quantity
  marketChoice : value) : option SimulationRequest :=
  match requestOf crop district season quantity, marketChoice with
  | Some inputData, VStr m =>
      Some {| request := inputData; Simulation.marketChoice := Some m |}
  | Some inputData, VUndef =>
      Some {| request := inputData; Simulation.marketChoice := None |}
  | _, _ => None
  end.

(** [geminiAI.generateForecast({ crop, district, season, quantity })] *)
Definition callGenerateForecast (h : Host) (isAvailable : bool)
  (ai : AiOutcome) (other : M Forecast)
  (crop district season quantity : value) : M Forecast :=
  match requestOf crop district season quantity with
  | Some inputData => generateForecast h isAvailable ai inputData
  | None => other
  end.

(** [geminiAI.generateSimulation({ crop, district, season, quantity,
    marketChoice })] *)
Definition callGenerateSimulation (StringToNumber : string -> num)
  (h : Host) (isAvailable : bool) (ai : AiOutcome) (other : M Simulation)
  (crop district season quantity marketChoice : value) : M Simulation :=
  match simulationRequestOf crop district season quantity marketChoice with
  | Some inputData =>
      generateSimulation StringToNumber h isAvailable ai inputData
  | None => other
  end.

(** ** POST /forecast *)

Inductive ForecastResponse : Type :=
  (** 400 [{ error: 'Missing required fields', required }] *)
| BadRequest (required : list string)
  (** 200 with the forecast of the service, its [markets] replaced *)
| ForecastData (forecastData : Forecast)
    (markets : lookup (list SampleMarket))
  (** 200 with the route's own mock forecast *)
| FallbackData (mockForecast : RouteForecast) (warning error_details : string)
  (** 500 [{ error: 'Failed to generate forecast', message,
      fallback_error }] *)
| ForecastFailed (message fallback_error : string).

(** The fallback of the handler, in its own [try]. *)
Definition fallbackForecast (h : Host) (body : value) : M RouteForecast :=
  crop <- liftResult (getField body "crop") ;;
  district <- liftResult (getField body "district") ;;
  season <- liftResult (getField body "season") ;;
  quantity <- liftResult (getField body "quantity") ;;
  generateMockForecast h
    (orElse crop (VStr "Rice"))
    (orElse district (VStr "Karnataka"))
    (orElse season (VStr "Kharif"))
    (orElse quantity (VNum (lit 100))).

(** The [try] block of the handler.  Destructuring [undefined] or
    [null] throws; the first template literal converts the crop, the
    district and the season to strings, which may throw; the service
    object exists, so the check for it never throws; the district is
    converted again as the key of [SAMPLE_MARKETS], to the same
    string. *)
Definition forecastBlock (h : Host) (isAvailable : bool) (ai : AiOutcome)
  (other : M Forecast) (body : value) : M ForecastResponse :=
  crop <- liftResult (getField body "crop") ;;
  district <- liftResult (getField body "district") ;;
  season <- liftResult (getField body "season") ;;
  given <- liftResult (getField body "quantity") ;;
  let quantity := withDefault given (VNum (lit 100)) in
  if negb (truthy crop) || negb (truthy district) || negb (truthy season)
  then ret (BadRequest ["crop"; "district"; "season"])
  else
    cropText <- liftResult (ToString h crop) ;;
    districtText <- liftResult (ToString h district) ;;
    seasonText <- liftResult (ToString h season) ;;
    forecastData <-
      callGenerateForecast h isAvailable ai other
        crop district season quantity ;;
    ret (ForecastData forecastData (sampleMarketsOf districtText)).

Definition postForecast (h : Host) (isAvailable : bool) (ai : AiOutcome)
  (other : M Forecast) (body : value) : M ForecastResponse :=
  tryCatch
    (forecastBlock h isAvailable ai other body)
    (fun error =>
       tryCatch
         (mockForecast <- fallbackForecast h body ;;
          ret (FallbackData mockForecast
                 "Using fallback data due to service error"
                 (message error)))
         (fun fallbackError =>
            ret (ForecastFailed (message error) (message fallbackError)))).

(** ** POST /simulate *)

Inductive SimulationResponse : Type :=
  (** 400 *)
| SimulationBadRequest (required : list string)
  (** 200 *)
| SimulationData (simulationData : Simulation)
  (** 500 [{ error: 'Simulation failed', message }] *)
| SimulationFailed (message : string).

(** The [try] block of the handler; its template literal converts
    the quantity, the crop and the district. *)
Definition simulationBlock (StringToNumber : string -> num) (h : Host)
  (isAvailable : bool) (ai : AiOutcome) (other : M Simulation)
  (body : value) : M SimulationResponse :=
  crop <- liftResult (getField body "crop") ;;
  district <- liftResult (getField body "district") ;;
  season <- liftResult (getField body "season") ;;
  quantity <- liftResult (getField body "quantity") ;;
  marketChoice <- liftResult (getField body "marketChoice") ;;
  if negb (truthy crop) || negb (truthy district) || negb (truthy season)
     || negb (truthy quantity)
  then ret (SimulationBadRequest ["crop"; "district"; "season"; "quantity"])
  else
    quantityText <- liftResult (ToString h quantity) ;;
    cropText <- liftResult (ToString h crop) ;;
    districtText <- liftResult (ToString h district) ;;
    simulationData <-
      callGenerateSimulation StringToNumber h isAvailable ai other
        crop district season quantity marketChoice ;;
    ret (SimulationData simulationData).

Definition postSimulate (StringToNumber : string -> num) (h : Host)
  (isAvailable : bool) (ai : AiOutcome) (other : M Simulation)
  (body : value) : M SimulationResponse :=
  tryCatch
    (simulationBlock StringToNumber h isAvailable ai other body)
    (fun error => ret (SimulationFailed (message error))).

End Routes.

(* ================================================================== *)
(** * Part IV-B.  Vocabulary of the further properties                *)
(* ================================================================== *)

Module Vocabulary.
Import Js Effects GeminiAIService Spec Simulation.
Local Open Scope R_scope.
Local Open Scope list_scope.

(** The two shorter horizons are the first 7 and the first 14 entries
    of the 30-day horizon. *)
Definition prefixes {A : Type} (t : Trend A) : Prop :=
  day7 t = firstn 7 (day30 t) /\ day14 t = firstn 14 (day30 t).

(** One of the three risk levels of a forecast. *)
Definition riskLevel (s : string) : Prop :=
  s = "low"%string \/ s = "medium"%string \/ s = "high"%string.

(** [Math.random()] returns a number of the interval [0, 1). *)
Definition unitRandom (h : Host) : Prop :=
  forall k, 0 <= Math_random h k < 1.

(** The demand and the price that the loop of [generateMockForecast]
    computes on day [i] from the [k]-th random number. *)
Definition demandAt (h : Host) (cropData : CropData) (baseDemand : num)
  (i k : nat) : num :=
  let dayFactor :=
    nadd (lit 1) (nmul (Math_sin (ndiv (ofNat i) (lit 7))) (lit 0.1)) in
  let randomFactor :=
    nadd (lit 1) (nmul (nsub (Fin (Math_random h k)) (lit 0.5))
                       (volatility cropData)) in
  Math_round (nmul (nmul baseDemand dayFactor) randomFactor).

Definition priceAt (h : Host) (cropData : CropData) (k : nat) : num :=
  let randomFactor :=
    nadd (lit 1) (nmul (nsub (Fin (Math_random h k)) (lit 0.5))
                       (volatility cropData)) in
  ndiv (Math_round (nmul (nmul (basePrice cropData) randomFactor) (lit 100)))
       (lit 100).

(** [baseDemand] of [generateMockForecast]. *)
Definition baseDemandOf (inputData : Request) : num :=
  Math_round (nmul (Fin (baseQuantityOf inputData))
                   (demandMultiplier (cropDataOf (crop inputData)))).

(** The two 30-day series of a mock forecast that starts in world [w]:
    day [j] uses the [j]-th random number from there. *)
Definition mockDemands (h : Host) (inputData : Request) (w : World)
  : list num :=
  map (fun j => demandAt h (cropDataOf (crop inputData))
                  (baseDemandOf inputData) j (draws w + j))
      (seq 0 30).

Definition mockPrices (h : Host) (inputData : Request) (w : World)
  : list num :=
  map (fun j => priceAt h (cropDataOf (crop inputData)) (draws w + j))
      (seq 0 30).

(** The same two quantities for an entry of the table, as real
    numbers. *)
Definition demandReal (h : Host) (v b : R) (i k : nat) : R :=
  Rround (b * (1 + sin (INR i / 7) * 0.1)
          * (1 + (Math_random h k - 0.5) * v)).

Definition priceReal (h : Host) (p v : R) (k : nat) : R :=
  Rround (p * (1 + (Math_random h k - 0.5) * v) * 100) / 100.



(** A finite number between two bounds. *)
Definition within (lo hi : R) (v : value) : Prop :=
  exists x : R, v = VNum (Fin x) /\ lo <= x <= hi.

(** The crop name finds an entry of the table, or nothing at all (and
    then the entry of Rice is used). *)
Definition pricedCrop (cropName : string) : Prop :=
  tableGet crops cropName <> Inherited.

(** The price of a market record comes from one random number, drawn
    between the two states of the world. *)
Definition pricedBy (h : Host) (w w' : World) (r : MarketRecord) : Prop :=
  exists k : nat,
    (draws w <= k < draws w')%nat
    /\ price r = Fin (25 + Math_random h k * 15).

(** A reply in the schema of the prompt, inside a fence. *)
Definition schemaReply : string :=
  "```json" ++ newline
  ++ dq ("{'forecast_trend': ["
         ++ "{'date': '2026-11-03', 'expected_demand_kg': 120,"
         ++ " 'expected_price_per_kg': 25.5},"
         ++ "{'date': '2026-11-04', 'expected_demand_kg': 118,"
         ++ " 'expected_price_per_kg': 26}],"
         ++ " 'glut_risk': 'Medium',"
         ++ " 'optimal_planting_time': '2026-11-10',"
         ++ " 'optimal_selling_time': '2027-02-10',"
         ++ " 'recommended_quantity_kg': 110,"
         ++ " 'suggested_markets': ['KR Market', 'Mysore Market'],"
         ++ " 'action_summary': 'Plant in phases.'}")
  ++ newline ++ "```".

(** A request for a crop whose name is a built-in of
    [Object.prototype]. *)
Definition toStringCropRequest : Request :=
  {| crop := "toString"; district := "Karnataka"; season := "Kharif";
     quantity := Some 100 |}.

(** An array of finite numbers. *)
Definition numbers (series : list R) : list value :=
  map (fun r => VNum (Fin r)) series.

(** The sum of [g] over a series. *)
Definition sumOf (g : R -> R) (series : list R) : R :=
  fold_left (fun a b => a + g b) series 0.


(** At most a thousand prices of an ordinary size, and a quantity of
    at most a million kilograms: the sums and products of the
    predictions then stay far below [2^53], where the doubles hold
    every whole number. *)
Definition ordinarySeries (series : list R) : Prop :=
  (List.length series <= 1000)%nat /\ Forall ordinaryPrice series.

Definition ordinaryQuantity (q : R) : Prop := Rabs q <= 1000000.

(** [x] is [exact] up to the rounding to a whole number and the
    rounding of the doubles before it. *)
Definition roundedFrom (exact : R) (x : Z) : Prop :=
  Rabs (IZR x - exact) <= / 2 + tolerance * Rabs exact.

(** Day [j] of a series of the routes' mock generator, made from the
    [k]-th random number. *)
Definition routeDay (h : Host) (base : num) (variance slope : R)
  (j k : nat) : num :=
  Math_round
    (nadd (nadd base (nmul (nsub (Fin (Math_random h k)) (lit 0.5))
                           (lit variance)))
          (nmul (ofNat j) (lit slope))).

(** A series of [n] such days whose random numbers start at the
    [start]-th. *)
Definition routeDays (h : Host) (n : nat) (slope : R) (base : num)
  (variance : R) (start : nat) : list num :=
  map (fun j => routeDay h base variance slope j (start + j)) (seq 0 n).

(** Byte 96, of which a fence is made. *)
Definition backtick : ascii := ascii_of_N 96.

(** The bare text of an object, and the same inside a fence. *)
Definition bareObject (body : string) : string :=
  String openBrace (body ++ String closeBrace EmptyString).

Definition fencedObject (body : string) : string :=
  "```json" ++ newline ++ bareObject body ++ newline ++ "```".

(** A price that is a number, or that is missing: [undefined] is what
    reshaping puts in the place of a price that the reply left out. *)
Definition numberOrMissing (v : value) : Prop :=
  v = VUndef \/ exists n, v = VNum n.

(** A reply in the schema of the prompt whose second day has no
    price. *)
Definition pricelessReply : value :=
  VObj [ ("forecast_trend",
          VArr [ trendItem 1 120 25;
                 VObj [ ("date", VNum (Fin 2));
                        ("expected_demand_kg", VNum (Fin 118)) ] ]);
         ("glut_risk", VStr "Medium");
         ("optimal_planting_time", VStr "2026-11-10");
         ("optimal_selling_time", VStr "2027-02-10");
         ("recommended_quantity_kg", VNum (Fin 110));
         ("suggested_markets", VArr [VStr "KR Market"; VStr "Mysore Market"]);
         ("action_summary", VStr "Plant in phases.") ].

(** A request body with its three texts and a quantity. *)
Definition bodyOf (cropName districtName seasonName : string) (q : R)
  : value :=
  VObj [ ("crop", VStr cropName);
         ("district", VStr districtName);
         ("season", VStr seasonName);
         ("quantity", VNum (Fin q)) ].

(** The field [k] of a body is there and is not [null], [false], [0],
    [NaN] or the empty string. *)
Definition supplied (body : value) (k : string) : Prop :=
  truthy (propertyOf k body) = true.

(** A value that a template literal cannot convert to a string. *)
Definition unconvertible (h : Host) (v : value) : Prop :=
  exists e, ToString h v = Throw e.

(** A body with a crop that has a [toString] of its own, as in
    [{"crop": {"toString": 1}, "district": "Karnataka", ...}]. *)
Definition toStringBody : value :=
  VObj [ ("crop", VObj [("toString", VNum (Fin 1))]);
         ("district", VStr "Karnataka");
         ("season", VStr "Kharif");
         ("quantity", VNum (Fin 100)) ].

End Vocabulary.

(* ================================================================== *)
(** * Part V.  Verification                                            *)
(* ================================================================== *)

(** ** The effects *)

Module EffectsFacts.
Import Js Effects.

Lemma bind_ok {A B : Type} (c : M A) (k : A -> M B) (w w1 : World) (a : A) :
  c w = (Ok a, w1) -> bind c k w = k a w1.
Proof. intros E. unfold bind. rewrite E. reflexivity. Qed.

Lemma bind_throw {A B : Type} (c : M A) (k : A -> M B) (w w1 : World)
  (e : exn) :
  c w = (Throw e, w1) -> bind c k w = (Throw e, w1).
Proof. intros E. unfold bind. rewrite E. reflexivity. Qed.

Lemma bind_inv_ok {A B : Type} (c : M A) (k : A -> M B) (w w' : World)
  (b : B) :
  bind c k w = (Ok b, w') ->
  exists a w1, c w = (Ok a, w1) /\ k a w1 = (Ok b, w').
Proof.
  unfold bind. destruct (c w) as [[a|e] w1]; intros E.
  - exists a, w1. split; [reflexivity | exact E].
  - discriminate E.
Qed.

Lemma liftResult_inv_ok {A : Type} (r : result A) (w w' : World) (a : A) :
  liftResult r w = (Ok a, w') -> r = Ok a /\ w' = w.
Proof. unfold liftResult. intros E. inversion E. split; reflexivity. Qed.

Lemma ret_inv {A : Type} (a b : A) (w w' : World) :
  ret a w = (Ok b, w') -> a = b /\ w = w'.
Proof. unfold ret. intros E. inversion E. split; reflexivity. Qed.

End EffectsFacts.

(** ** generateMarketHeatmap *)

Module HeatmapFacts.
Import Js Effects GeminiAIService Spec EffectsFacts.
Local Open Scope R_scope.
Local Open Scope list_scope.

Lemma primitive_ToString (h : Host) (v : value) :
  primitive v = true -> exists text, ToString h v = Ok text.
Proof.
  destruct v as [| |b|n|text|items|fields]; try discriminate; intros _;
    try destruct b; eexists; reflexivity.
Qed.

Lemma primitive_names (names : list string) :
  forallb primitive (map VStr names) = true.
Proof. induction names as [|n names IH]; [reflexivity | exact IH]. Qed.

(** One record: once the name has become a key it does not throw,
    carries the name it was given, and its coordinates follow the three
    outcomes of the table lookup. *)
Lemma marketEntry_ok (h : Host) (market : value) (key : string)
  (index : nat) (w : World) :
  ToString h market = Ok key ->
  exists r w',
    marketEntry h market index w = (Ok r, w')
    /\ name r = market
    /\ demand r = "high"%string
    /\ risk r = (if (index =? 0)%nat then "low" else "medium")%string
    /\ (forall la lo,
          tableGet baseCoordinates key = Own (la, lo) ->
          lat r = VNum (Fin la) /\ lng r = VNum (Fin lo))
    /\ (tableGet baseCoordinates key = Absent ->
          lat r = VNum (Fin (12.9716 + (Math_random h (draws w) - 0.5) * 2))
          /\ lng r = VNum (Fin (77.5946
                                + (Math_random h (S (draws w)) - 0.5) * 2)))
    /\ (tableGet baseCoordinates key = Inherited ->
          lat r = VUndef /\ lng r = VUndef).
Proof.
  intros Hkey. unfold marketEntry, coordinatesOf, bind, liftResult.
  rewrite Hkey.
  destruct (tableGet baseCoordinates key) as [[la lo]| |];
    cbv [ret random]; cbn;
    eexists; eexists; (split; [reflexivity |]); cbn;
    repeat split; try discriminate; try reflexivity.
  all: congruence.
Qed.

Lemma marketEntry_coordinatesFollow (h : Host) (market : value)
  (key : string) (index : nat) (w w' : World) (r : MarketRecord) :
  ToString h market = Ok key ->
  marketEntry h market index w = (Ok r, w') ->
  coordinatesFollow h r.
Proof.
  intros Hkey E.
  destruct (marketEntry_ok h market key index w Hkey)
    as (r0 & w0 & E0 & Hn & _ & _ & Hown & Habsent & Hinherited).
  assert (r0 = r) as -> by congruence.
  intros key' Hkey'. rewrite Hn, Hkey in Hkey'.
  assert (key' = key) as -> by congruence.
  destruct (tableGet baseCoordinates key) as [[la lo]| |].
  - apply Hown. reflexivity.
  - apply Hinherited. reflexivity.
  - eexists. eexists. apply Habsent. reflexivity.
Qed.

(** The loop: one record per name, in order, appended to what was
    already there. *)
Lemma forEachMarket_ok (h : Host) (names : list value) :
  forallb primitive names = true ->
  forall (index : nat) (marketData : list MarketRecord) (w : World),
  exists records w',
    forEachMarket h names index marketData w = (Ok (marketData ++ records), w')
    /\ map name records = names
    /\ Forall (fun r => demand r = "high"%string) records
    /\ (forall k r, nth_error records k = Some r ->
          risk r = (if (index + k =? 0)%nat then "low" else "medium")%string)
    /\ Forall (coordinatesFollow h) records.
Proof.
  induction names as [|market rest IH]; intros Hall index marketData w.
  - exists [], w. cbn. rewrite app_nil_r.
    repeat split; auto. intros [|k] r E; discriminate E.
  - cbn [forallb] in Hall. apply andb_true_iff in Hall.
    destruct Hall as [Hmarket Hrest].
    destruct (primitive_ToString h market Hmarket) as (key & Hkey).
    destruct (marketEntry_ok h market key index w Hkey)
      as (r & w1 & E & Hn & Hd & Hr & _).
    destruct (IH Hrest (S index) (marketData ++ [r]) w1)
      as (records & w' & E' & Hnames & Hdemand & Hrisk & Hcoords).
    exists (r :: records), w'. cbn [forEachMarket].
    rewrite (bind_ok _ _ _ _ _ E), E', <- app_assoc. cbn.
    split; [reflexivity |]. split; [| split; [| split]].
    + rewrite Hn, Hnames. reflexivity.
    + constructor; assumption.
    + intros [|k] r' Ek; cbn in Ek.
      * inversion Ek; subst r'. rewrite Nat.add_0_r. exact Hr.
      * rewrite (Hrisk k r' Ek).
        replace (index + S k)%nat with (S index + k)%nat by lia.
        reflexivity.
    + constructor; [| exact Hcoords].
      exact (marketEntry_coordinatesFollow h market key index w w1 r Hkey E).
Qed.

(** What holds for every list of names (strings, or other values that
    are neither arrays nor objects): same length and order, the names
    kept, demand "high", risk "low" for the first record and "medium"
    for the others, and coordinates that follow the table lookup. *)
Lemma generateMarketHeatmap_shape (h : Host) (names : list value) (w : World) :
  forallb primitive names = true ->
  exists records w',
    generateMarketHeatmap h names w = (Ok records, w')
    /\ List.length records = List.length names
    /\ map name records = names
    /\ Forall (fun r => demand r = "high"%string) records
    /\ (forall k r, nth_error records k = Some r ->
          risk r = (if (k =? 0)%nat then "low" else "medium")%string)
    /\ Forall (coordinatesFollow h) records.
Proof.
  intros Hall.
  destruct (forEachMarket_ok h names Hall 0%nat [] w)
    as (records & w' & E & Hnames & Hdemand & Hrisk & Hcoords).
  exists records, w'. unfold generateMarketHeatmap. rewrite E. cbn.
  repeat split; auto.
  rewrite <- Hnames, length_map. reflexivity.
Qed.

End HeatmapFacts.

(** ** generateMockForecast *)

Module MockFacts.
Import Js Effects GeminiAIService Spec EffectsFacts HeatmapFacts.
Local Open Scope R_scope.
Local Open Scope list_scope.

Lemma firstn_push {A : Type} (n : nat) (l : list A) (x : A) :
  firstn n (push l x)
  = if (List.length l <? n)%nat then push (firstn n l) x else firstn n l.
Proof.
  unfold push. rewrite firstn_app.
  destruct (List.length l <? n)%nat eqn:E.
  - apply Nat.ltb_lt in E.
    destruct (n - List.length l)%nat as [|k] eqn:Ek; [lia |].
    cbn. rewrite firstn_nil. reflexivity.
  - apply Nat.ltb_ge in E.
    replace (n - List.length l)%nat with 0%nat by lia.
    cbn. apply app_nil_r.
Qed.

(** A day's push keeps the three horizons windows onto one series. *)
Lemma pushTrend_windows (i : nat) (t : Trend num) (x : num) :
  windows i t -> windows (S i) (pushTrend i t x).
Proof.
  intros (Hlen & H14 & H7). unfold windows, pushTrend.
  cbn [day7 day14 day30]. repeat split.
  - unfold push. rewrite length_app. cbn. lia.
  - rewrite firstn_push, Hlen, H14. reflexivity.
  - rewrite firstn_push, Hlen, H7. reflexivity.
Qed.

Lemma dayStep_ok (h : Host) (c : CropData) (b : num) (i : nat)
  (trends : Trend num * Trend num) (w : World) :
  exists d p,
    dayStep h c b i trends w
    = (Ok (pushTrend i (fst trends) d, pushTrend i (snd trends) p),
       {| draws := S (draws w); clockReads := clockReads w |}).
Proof. unfold dayStep. cbv [bind random ret]. eexists. eexists. reflexivity. Qed.

(** The loop never throws, leaves the clock alone, and maintains the
    invariant [windows] on both trends. *)
Lemma forLoop_days (h : Host) (c : CropData) (b : num) (count : nat) :
  forall (i : nat) (trends : Trend num * Trend num) (w : World),
    windows i (fst trends) -> windows i (snd trends) ->
    exists trends' w',
      forLoop count i (dayStep h c b) trends w = (Ok trends', w')
      /\ windows (i + count) (fst trends')
      /\ windows (i + count) (snd trends')
      /\ clockReads w' = clockReads w.
Proof.
  induction count as [|count IH]; intros i trends w Hd Hp.
  - exists trends, w. cbn. rewrite Nat.add_0_r. auto.
  - destruct (dayStep_ok h c b i trends w) as (d & p & E).
    destruct (IH (S i) (pushTrend i (fst trends) d, pushTrend i (snd trends) p)
                {| draws := S (draws w); clockReads := clockReads w |})
      as (trends' & w' & E' & Hd' & Hp' & Hc).
    + cbn. apply pushTrend_windows. exact Hd.
    + cbn. apply pushTrend_windows. exact Hp.
    + exists trends', w'. cbn [forLoop].
      rewrite (bind_ok _ _ _ _ _ E), E'.
      replace (i + S count)%nat with (S i + count)%nat by lia.
      auto.
Qed.

Lemma windows_empty : windows 0 emptyTrend.
Proof. repeat split. Qed.

(** The district's markets are never [undefined]: the default region
    is in the table. *)
Lemma suggestedMarketsOf_cases (districtName : string) :
  (exists names, suggestedMarketsOf districtName = Own names)
  \/ (suggestedMarketsOf districtName = Inherited
      /\ inb districtName objectPrototypeKeys = true).
Proof.
  unfold suggestedMarketsOf, tableGet.
  destruct (assoc districtName marketsByDistrict) as [names|].
  - left. exists names. reflexivity.
  - destruct (inb districtName objectPrototypeKeys).
    + right. split; reflexivity.
    + left. eexists. reflexivity.
Qed.

(** What a returned mock forecast is made of. *)
Lemma generateMockForecast_inv (h : Host) (inputData : Request)
  (w w' : World) (f : Forecast) :
  generateMockForecast h inputData w = (Ok f, w') ->
  exists dT pT : Trend num,
    windows 30 dT /\ windows 30 pT
    /\ demandTrend f = mapTrend VNum dT
    /\ priceTrend f = mapTrend VNum pT
    /\ f_quantity f = VNum (Fin (baseQuantityOf inputData))
    /\ glutRisk f
       = classifyGlut (Fin (baseQuantityOf inputData))
                      (ndiv (sum (day30 dT)) (lit 30))
    /\ recommendedQuantity f
       = VNum (Math_round (nmul (ndiv (sum (day30 dT)) (lit 30)) (lit 0.9)))
    /\ (let tza := LocalTZA h in
        let today := Date_now h (clockReads w) in
        let plantingDate := setDate tza today (getDate tza today + 7) in
        let sellingDate :=
          setDate tza plantingDate (getDate tza plantingDate + 90) in
        optimalPlantingTime f
        = VStr (beforeFirst "T" (toISOString plantingDate))
        /\ optimalSellingTime f
           = VStr (beforeFirst "T" (toISOString sellingDate)))
    /\ source f = "mock-data"%string.
Proof.
  unfold generateMockForecast. intros E.
  destruct (forLoop_days h (cropDataOf (crop inputData))
              (Math_round (nmul (Fin (baseQuantityOf inputData))
                 (demandMultiplier (cropDataOf (crop inputData)))))
              30 0 (emptyTrend, emptyTrend) w windows_empty windows_empty)
    as ([dT pT] & w1 & Eloop & Hd & Hp & Hclock).
  rewrite (bind_ok _ _ _ _ _ Eloop) in E.
  apply bind_inv_ok in E. destruct E as (today & w2 & Etoday & E).
  unfold newDate in Etoday. inversion Etoday; subst today w2; clear Etoday.
  apply bind_inv_ok in E. destruct E as (names & w3 & Enames & E).
  apply bind_inv_ok in E. destruct E as (heatmap & w4 & Eheat & E).
  apply bind_inv_ok in E. destruct E as (stamp & w5 & Estamp & E).
  apply ret_inv in E. destruct E as [Ef _]. subst f.
  exists dT, pT. cbn [fst snd] in Hd, Hp.
  cbn [demandTrend priceTrend f_quantity glutRisk recommendedQuantity
       optimalPlantingTime optimalSellingTime source fst snd clockReads].
  rewrite Hclock.
  repeat split; try assumption; try apply Hd; try apply Hp.
Qed.

(** A district of the table, or one that is no property at all, gets a
    forecast. *)
Lemma generateMockForecast_returns (h : Host) (inputData : Request)
  (w : World) (names : list string) :
  suggestedMarketsOf (district inputData) = Own names ->
  exists f w', generateMockForecast h inputData w = (Ok f, w').
Proof.
  intros Hnames. unfold generateMockForecast.
  destruct (forLoop_days h (cropDataOf (crop inputData))
              (Math_round (nmul (Fin (baseQuantityOf inputData))
                 (demandMultiplier (cropDataOf (crop inputData)))))
              30 0 (emptyTrend, emptyTrend) w windows_empty windows_empty)
    as (trends & w1 & Eloop & _).
  rewrite (bind_ok _ _ _ _ _ Eloop). cbv beta.
  erewrite bind_ok by reflexivity. cbv beta.
  rewrite Hnames.
  erewrite bind_ok by reflexivity. cbv beta.
  match goal with
  | |- context [bind (generateMarketHeatmap h (map VStr ?ns)) _ ?w0] =>
      destruct (generateMarketHeatmap_shape h (map VStr ns) w0
                  (primitive_names ns))
        as (records & w2 & Eheat & _)
  end.
  rewrite (bind_ok _ _ _ _ _ Eheat). cbv beta.
  erewrite bind_ok by reflexivity. cbv beta.
  eexists. eexists. reflexivity.
Qed.

(** A district that names a built-in of [Object.prototype] makes the
    generator throw. *)
Lemma generateMockForecast_throws (h : Host) (inputData : Request)
  (w : World) :
  suggestedMarketsOf (district inputData) = Inherited ->
  exists w',
    generateMockForecast h inputData w
    = (Throw (TypeError "suggestedMarkets.slice is not a function"), w').
Proof.
  intros Hnames. unfold generateMockForecast.
  destruct (forLoop_days h (cropDataOf (crop inputData))
              (Math_round (nmul (Fin (baseQuantityOf inputData))
                 (demandMultiplier (cropDataOf (crop inputData)))))
              30 0 (emptyTrend, emptyTrend) w windows_empty windows_empty)
    as (trends & w1 & Eloop & _).
  rewrite (bind_ok _ _ _ _ _ Eloop). cbv beta.
  erewrite bind_ok by reflexivity. cbv beta.
  rewrite Hnames.
  erewrite bind_throw by reflexivity.
  eexists. reflexivity.
Qed.

End MockFacts.

Module MockClaims.
Import Js Effects GeminiAIService Spec EffectsFacts MockFacts.
Local Open Scope R_scope.
Local Open Scope list_scope.

Lemma windows_map {A B : Type} (g : A -> B) (i : nat) (t : Trend A) :
  windows i t -> windows i (mapTrend g t).
Proof.
  intros (Hlen & H14 & H7). unfold windows, mapTrend. cbn [day7 day14 day30].
  rewrite length_map, H14, H7, !firstn_map. auto.
Qed.

Lemma windows_prefix {A : Type} (i : nat) (t : Trend A) :
  windows i t ->
  day7 t = firstn 7 (day14 t) /\ day14 t = firstn 14 (day30 t).
Proof.
  intros (_ & H14 & H7). split; [| exact H14].
  rewrite H14, firstn_firstn. exact H7.
Qed.

(** C2.  In the output of the Mock Forecast Generator the 7-day series
    is the first 7 elements of the 14-day series and the 14-day series
    is the first 14 elements of the 30-day series, for the demand trend
    and for the price trend; the three series have 7, 14 and 30
    elements. *)
Theorem C2_mock_prefix_invariant (h : Host) (inputData : Request)
  (w w' : World) (f : Forecast) :
  generateMockForecast h inputData w = (Ok f, w') ->
  (day7 (demandTrend f) = firstn 7 (day14 (demandTrend f))
   /\ day14 (demandTrend f) = firstn 14 (day30 (demandTrend f)))
  /\ (day7 (priceTrend f) = firstn 7 (day14 (priceTrend f))
      /\ day14 (priceTrend f) = firstn 14 (day30 (priceTrend f)))
  /\ List.length (day30 (demandTrend f)) = 30%nat
  /\ List.length (day30 (priceTrend f)) = 30%nat.
Proof.
  intros E.
  destruct (generateMockForecast_inv h inputData w w' f E)
    as (dT & pT & Hd & Hp & Ed & Ep & _).
  rewrite Ed, Ep.
  pose proof (windows_map VNum 30 dT Hd) as Hd'.
  pose proof (windows_map VNum 30 pT Hp) as Hp'.
  repeat split;
    first [ apply (windows_prefix 30 _ Hd') | apply (windows_prefix 30 _ Hp')
          | apply Hd' | apply Hp' ].
Qed.

Lemma C2_mock_prefix_invariant_witness :
  exists f w',
    generateMockForecast sampleHost riceRequest startOfWorld = (Ok f, w')
    /\ day7 (demandTrend f) = firstn 7 (day14 (demandTrend f))
    /\ day14 (priceTrend f) = firstn 14 (day30 (priceTrend f)).
Proof.
  destruct (generateMockForecast_returns sampleHost riceRequest startOfWorld
              _ eq_refl) as (f & w' & E).
  exists f, w'. split; [exact E |].
  split;
    apply (C2_mock_prefix_invariant sampleHost riceRequest startOfWorld
             _ _ E).
Defined.

(** *** Glut risk and recommended quantity *)


Lemma map_numberOf_VNum (series : list num) :
  map numberOf (map VNum series) = series.
Proof. rewrite map_map. cbn. apply map_id. Qed.







(** [Math.round] yields the nearest integer, the upper one at a tie. *)
Lemma Rround_nearest (x : R) :
  exists z : Z, Rround x = IZR z /\ IZR z - / 2 <= x < IZR z + / 2.
Proof.
  exists (Rfloor (x + / 2)). split; [reflexivity |].
  unfold Rfloor. destruct (base_Int_part (x + / 2)) as [Hle Hgt]. lra.
Qed.



(** *** Dates *)






End MockClaims.

(** ** calculateVolatility *)

Module VolatilityClaims.
Import Js GeminiAIService Spec.
Local Open Scope R_scope.
Local Open Scope list_scope.


Lemma fold_plus_shift (l : list R) (a : R) :
  fold_left Rplus l a = a + fold_left Rplus l 0.
Proof.
  revert a. induction l as [|x l IH]; intros a; cbn [fold_left].
  - lra.
  - rewrite (IH (a + x)), (IH (0 + x)). lra.
Qed.

Lemma sum_repeat (p : R) (n : nat) :
  fold_left Rplus (repeat p n) 0 = INR n * p.
Proof.
  induction n as [|n IH].
  - cbn. lra.
  - cbn [repeat fold_left]. rewrite fold_plus_shift, IH, S_INR. lra.
Qed.

Lemma squares_repeat (p m : R) (n : nat) (a : R) :
  fold_left (fun a b => a + (b - m) ^ 2) (repeat p n) a
  = a + INR n * (p - m) ^ 2.
Proof.
  revert a. induction n as [|n IH]; intros a.
  - cbn. lra.
  - cbn [repeat fold_left]. rewrite IH, S_INR. lra.
Qed.

Lemma mean_repeat (p : R) (n : nat) :
  (0 < n)%nat -> mean (repeat p n) = p.
Proof.
  intros Hn. unfold mean. rewrite sum_repeat, repeat_length.
  assert (0 < INR n) by (apply lt_0_INR; exact Hn).
  field. lra.
Qed.

(** A series without variance has deviation 0. *)
Lemma stdDev_repeat (p : R) (n : nat) :
  (0 < n)%nat -> stdDev (repeat p n) = 0.
Proof.
  intros Hn. unfold stdDev.
  rewrite (mean_repeat p n Hn), squares_repeat, repeat_length.
  replace (0 + INR n * (p - p) ^ 2) with 0 by ring.
  unfold Rdiv. rewrite Rmult_0_l. apply sqrt_0.
Qed.










End VolatilityClaims.

(** ** generateForecast *)

Module OrchestratorClaims.
Import Js Effects GeminiAIService Spec EffectsFacts HeatmapFacts MockFacts.
Local Open Scope R_scope.
Local Open Scope list_scope.

(** The three ways through [generateForecast]. *)
Lemma generateForecast_unavailable (h : Host) (ai : AiOutcome)
  (inputData : Request) (w : World) :
  generateForecast h false ai inputData w = generateMockForecast h inputData w.
Proof. reflexivity. Qed.

Lemma generateForecast_ai_succeeds (h : Host) (ai : AiOutcome)
  (inputData : Request) (w w1 : World) (f : Forecast) :
  aiPath h ai inputData w = (Ok f, w1) ->
  generateForecast h true ai inputData w = (Ok f, w1).
Proof.
  intros E. unfold generateForecast, tryCatch. cbn [negb]. rewrite E.
  reflexivity.
Qed.

Lemma generateForecast_ai_fails (h : Host) (ai : AiOutcome)
  (inputData : Request) (w w1 : World) (e : exn) :
  aiPath h ai inputData w = (Throw e, w1) ->
  generateForecast h true ai inputData w = generateMockForecast h inputData w1.
Proof.
  intros E. unfold generateForecast, tryCatch. cbn [negb]. rewrite E.
  reflexivity.
Qed.

(** For a region of the table, or one that names no property at all,
    the fallback works as intended: without a credential, and whenever
    the AI path throws, the result is the forecast of the mock
    generator, tagged "mock-data". *)
Lemma generateForecast_falls_back (h : Host) (ai : AiOutcome)
  (inputData : Request) (w : World) (names : list string) :
  suggestedMarketsOf (district inputData) = Own names ->
  (exists f w',
      generateForecast h false ai inputData w = (Ok f, w')
      /\ source f = "mock-data"%string)
  /\ (forall e w1,
        aiPath h ai inputData w = (Throw e, w1) ->
        exists f w',
          generateForecast h true ai inputData w = (Ok f, w')
          /\ generateMockForecast h inputData w1 = (Ok f, w')
          /\ source f = "mock-data"%string).
Proof.
  intros Hnames.
  assert (forall w0, exists f w',
             generateMockForecast h inputData w0 = (Ok f, w')
             /\ source f = "mock-data"%string) as Hmock.
  { intros w0.
    destruct (generateMockForecast_returns h inputData w0 names Hnames)
      as (f & w' & E).
    exists f, w'. split; [exact E |].
    destruct (generateMockForecast_inv h inputData w0 w' f E)
      as (dT & pT & H). apply H. }
  split.
  - rewrite generateForecast_unavailable. apply Hmock.
  - intros e w1 Efail.
    destruct (Hmock w1) as (f & w' & E & Hsource).
    exists f, w'.
    rewrite (generateForecast_ai_fails h ai inputData w w1 e Efail).
    auto.
Qed.

(** The AI path fails when the timer wins and when the call rejects. *)
Lemma aiPath_timeout (h : Host) (inputData : Request) (w : World) :
  aiPath h TimedOut inputData w
  = (Throw (Error "AI request timeout after 15 seconds"), w).
Proof. reflexivity. Qed.

Lemma aiPath_rejected (h : Host) (error : exn) (inputData : Request)
  (w : World) :
  aiPath h (Rejected error) inputData w = (Throw error, w).
Proof. reflexivity. Qed.

Lemma suggestedMarketsOf_constructor :
  suggestedMarketsOf (district constructorRequest) = Inherited.
Proof. reflexivity. Qed.

(** C1 (the code departs from the claim).  For a region of the table,
    or one that names no property at all, [generateForecast] returns the
    forecast of the mock generator, tagged "mock-data", when no
    credential is configured and whenever the AI path throws.  A region
    that names a built-in of [Object.prototype] finds that built-in in
    [marketsByDistrict]; the mock generator then throws, and the error
    leaves [generateForecast] in both cases.  The region [constructor]
    is such a region. *)
Theorem C1_fallback_and_inherited_district (h : Host) (ai : AiOutcome)
  (inputData : Request) (w : World) :
  (forall names,
     suggestedMarketsOf (district inputData) = Own names ->
     (exists f w',
         generateForecast h false ai inputData w = (Ok f, w')
         /\ source f = "mock-data"%string)
     /\ (forall e w1,
           aiPath h ai inputData w = (Throw e, w1) ->
           exists f w',
             generateForecast h true ai inputData w = (Ok f, w')
             /\ generateMockForecast h inputData w1 = (Ok f, w')
             /\ source f = "mock-data"%string))
  /\ (suggestedMarketsOf (district inputData) = Inherited ->
      (exists w',
          generateForecast h false ai inputData w
          = (Throw (TypeError "suggestedMarkets.slice is not a function"), w'))
      /\ (forall e w1,
            aiPath h ai inputData w = (Throw e, w1) ->
            exists w',
              generateForecast h true ai inputData w
              = (Throw (TypeError "suggestedMarkets.slice is not a function"),
                 w')))
  /\ suggestedMarketsOf (district constructorRequest) = Inherited
  /\ (exists w',
        generateForecast h true TimedOut constructorRequest w
        = (Throw (TypeError "suggestedMarkets.slice is not a function"), w')).
Proof.
  split; [| split; [| split]].
  - intros names Hnames.
    exact (generateForecast_falls_back h ai inputData w names Hnames).
  - intros Hinherited. split.
    + rewrite generateForecast_unavailable.
      apply generateMockForecast_throws. exact Hinherited.
    + intros e w1 Efail.
      rewrite (generateForecast_ai_fails h ai inputData w w1 e Efail).
      apply generateMockForecast_throws. exact Hinherited.
  - exact suggestedMarketsOf_constructor.
  - rewrite (generateForecast_ai_fails h TimedOut constructorRequest w w _
               (aiPath_timeout h constructorRequest w)).
    apply generateMockForecast_throws. exact suggestedMarketsOf_constructor.
Qed.

End OrchestratorClaims.

Module HeatmapClaims.
Import Js Effects GeminiAIService Spec EffectsFacts HeatmapFacts.
Local Open Scope R_scope.
Local Open Scope list_scope.

(** A name of the table gets the table's coordinates, a name that is
    no property at all an offset of at most 1 from the default
    coordinate (for random numbers in [0, 1)). *)
Lemma marketEntry_coordinates (h : Host) (market : string) (index : nat)
  (w : World) :
  (forall k, 0 <= Math_random h k < 1) ->
  exists r w',
    marketEntry h (VStr market) index w = (Ok r, w')
    /\ (forall la lo,
          tableGet baseCoordinates market = Own (la, lo) ->
          lat r = VNum (Fin la) /\ lng r = VNum (Fin lo))
    /\ (tableGet baseCoordinates market = Absent ->
          exists dx dy,
            lat r = VNum (Fin (12.9716 + dx))
            /\ lng r = VNum (Fin (77.5946 + dy))
            /\ -1 <= dx < 1 /\ -1 <= dy < 1).
Proof.
  intros Hrandom.
  destruct (marketEntry_ok h (VStr market) market index w eq_refl)
    as (r & w' & E & _ & _ & _ & Hown & Habsent & _).
  exists r, w'.
  split; [exact E |]. split; [exact Hown |].
  intros Ha. destruct (Habsent Ha) as [Hlat Hlng].
  exists ((Math_random h (draws w) - 0.5) * 2),
         ((Math_random h (S (draws w)) - 0.5) * 2).
  pose proof (Hrandom (draws w)). pose proof (Hrandom (S (draws w))).
  repeat split; try assumption; lra.
Qed.

(** C10 (the code departs from the claim).  For every list of market
    names the heatmap has one record per name, in the order of the
    names and carrying them, with demand "high" and risk "low" for the
    first record and "medium" for the others, and a name of the table
    gets the table's coordinates.  A name that is not in the table gets
    the random offset from the default coordinate only if it names no
    property at all: the name [constructor] finds the built-in
    [Object.prototype.constructor], which is kept, and its elements 0
    and 1 are [undefined], so that the record has neither the fixed nor
    the randomized coordinates. *)
Theorem C10_heatmap_and_inherited_names (h : Host) (w : World) :
  (forall names : list string,
     exists records w',
       generateMarketHeatmap h (map VStr names) w = (Ok records, w')
       /\ List.length records = List.length names
       /\ map name records = map VStr names
       /\ Forall (fun r => demand r = "high"%string) records
       /\ (forall k r, nth_error records k = Some r ->
             risk r = (if (k =? 0)%nat then "low" else "medium")%string)
       /\ Forall (coordinatesFollow h) records)
  /\ generateMarketHeatmap h [VStr "constructor"] w
     = (Ok [ {| name := VStr "constructor";
                lat := VUndef;
                lng := VUndef;
                demand := "high";
                price := Fin (25 + Math_random h (draws w) * 15);
                risk := "low" |} ],
        {| draws := S (draws w); clockReads := clockReads w |})
  /\ tableGet baseCoordinates "constructor" = Inherited
  /\ assoc "constructor" baseCoordinates = None.
Proof.
  split; [| repeat split].
  intros names.
  destruct (generateMarketHeatmap_shape h (map VStr names) w
              (primitive_names names))
    as (records & w' & E & Hlen & Hnames & Hdemand & Hrisk & Hcoords).
  exists records, w'. rewrite length_map in Hlen.
  repeat split; assumption.
Qed.

End HeatmapClaims.

(** ** validateForecastData *)

Module ValidationClaims.
Import Js Effects GeminiAIService Spec.
Local Open Scope list_scope.

Lemma getField_object (fields : list (string * value)) (k : string) :
  getField (VObj fields) k = Ok (fieldOf fields k).
Proof. unfold getField, fieldOf. destruct (ownProperty k fields); reflexivity. Qed.

(** The four checks, in the order the code makes them. *)
Lemma validateForecastData_checks (fields : list (string * value)) :
  let trend := fieldOf fields "forecast_trend" in
  let risk := fieldOf fields "glut_risk" in
  validateForecastData (VObj fields)
  = if negb (truthy trend)
    then Throw (Error "Missing required field: forecast_trend")
    else if negb (truthy risk)
    then Throw (Error "Missing required field: glut_risk")
    else if negb (isNonEmptyArray trend)
    then Throw (Error "forecast_trend must be a non-empty array")
    else if negb (isRiskLabel risk)
    then Throw (Error "glut_risk must be Low, Medium, or High")
    else Ok tt.
Proof.
  cbv zeta. unfold validateForecastData, requiredFields.
  cbn [checkRequired]. rewrite !getField_object.
  destruct (truthy (fieldOf fields "forecast_trend")); [| reflexivity].
  destruct (truthy (fieldOf fields "glut_risk")); reflexivity.
Qed.

Lemma isNonEmptyArray_truthy (v : value) :
  isNonEmptyArray v = true -> truthy v = true.
Proof. destruct v; try discriminate. reflexivity. Qed.

Lemma isRiskLabel_truthy (v : value) :
  isRiskLabel v = true -> truthy v = true.
Proof.
  destruct v as [| | | |s| |]; try discriminate. cbn [isRiskLabel truthy].
  destruct s; [discriminate | reflexivity].
Qed.

(** Validation passes exactly for a non-empty trend array together
    with one of the three labels, and otherwise fails with a validation
    error. *)
Lemma validateForecastData_decides (fields : list (string * value)) :
  (isNonEmptyArray (fieldOf fields "forecast_trend")
   && isRiskLabel (fieldOf fields "glut_risk") = true
   /\ validateForecastData (VObj fields) = Ok tt)
  \/ (isNonEmptyArray (fieldOf fields "forecast_trend")
      && isRiskLabel (fieldOf fields "glut_risk") = false
      /\ rejected (VObj fields)).
Proof.
  unfold rejected. rewrite validateForecastData_checks. cbv zeta.
  destruct (isNonEmptyArray (fieldOf fields "forecast_trend")) eqn:Ha;
    destruct (isRiskLabel (fieldOf fields "glut_risk")) eqn:Hr;
    cbn [andb negb];
    try rewrite (isNonEmptyArray_truthy _ Ha);
    try rewrite (isRiskLabel_truthy _ Hr); cbn [negb].
  - left. split; reflexivity.
  - right. split; [reflexivity |].
    destruct (truthy (fieldOf fields "glut_risk")); cbn [negb];
      eexists; reflexivity.
  - right. split; [reflexivity |].
    destruct (truthy (fieldOf fields "forecast_trend")); cbn [negb];
      eexists; reflexivity.
  - right. split; [reflexivity |].
    destruct (truthy (fieldOf fields "forecast_trend")); cbn [negb];
      [| eexists; reflexivity].
    destruct (truthy (fieldOf fields "glut_risk")); cbn [negb];
      eexists; reflexivity.
Qed.

Lemma amendedRejection_iff (fields : list (string * value)) :
  amendedRejection fields
  <-> isNonEmptyArray (fieldOf fields "forecast_trend")
      && isRiskLabel (fieldOf fields "glut_risk") = false.
Proof.
  unfold amendedRejection, claimedRejection, missing.
  set (trend := fieldOf fields "forecast_trend").
  set (risk := fieldOf fields "glut_risk").
  rewrite andb_false_iff. split.
  - intros [[H | [H | [H | H]]] | H].
    + left. destruct (isNonEmptyArray trend) eqn:E; [| reflexivity].
      rewrite (isNonEmptyArray_truthy _ E) in H. discriminate H.
    + right. destruct (isRiskLabel risk) eqn:E; [| reflexivity].
      rewrite (isRiskLabel_truthy _ E) in H. discriminate H.
    + left. rewrite H. reflexivity.
    + right. exact H.
    + left. destruct trend; try reflexivity. discriminate H.
  - intros [H | H].
    + destruct trend as [| | | | |items|];
        try (right; reflexivity).
      destruct items as [|item rest]; [| discriminate H].
      left. right. right. left. reflexivity.
    + left. right. right. right. exact H.
Qed.

(** C5, as stated, fails: a reply whose [forecast_trend] is the word
    "rising" is rejected, although neither field is missing, the trend is
    not an empty array and the risk is a permitted label. *)
Lemma C5_non_array_counterexample :
  rejected (VObj proseTrend) /\ ~ claimedRejection proseTrend.
Proof.
  split.
  - eexists. reflexivity.
  - intros [H | [H | [H | H]]]; discriminate H.
Qed.

(** C5 (amended).  Validation fails with a validation error exactly
    when the trend field or the risk field is missing, the trend field
    is not an array or is an empty array, or the risk is not one of
    'Low', 'Medium', 'High' (case-sensitive); in particular for a reply
    without [glut_risk], with [glut_risk] "Extreme", or with an empty
    [forecast_trend]. *)
Theorem C5_validation_rejects (fields : list (string * value)) :
  (rejected (VObj fields) <-> amendedRejection fields)
  /\ (validateForecastData (VObj fields) = Ok tt
      <-> ~ amendedRejection fields)
  /\ (ownProperty "glut_risk" fields = None -> rejected (VObj fields))
  /\ (ownProperty "glut_risk" fields = Some (VStr "Extreme") ->
      rejected (VObj fields))
  /\ (ownProperty "glut_risk" fields = Some (VStr "low") ->
      rejected (VObj fields))
  /\ (ownProperty "forecast_trend" fields = Some (VArr []) ->
      rejected (VObj fields)).
Proof.
  assert (rejected (VObj fields) <-> amendedRejection fields) as Hiff.
  { rewrite amendedRejection_iff.
    destruct (validateForecastData_decides fields) as [[Hb Hok] | [Hb Hrej]].
    - split.
      + intros (msg & E). rewrite Hok in E. discriminate.
      + intros E. rewrite Hb in E. discriminate.
    - split; auto. }
  split; [exact Hiff |]. split.
  - rewrite amendedRejection_iff.
    destruct (validateForecastData_decides fields) as [[Hb Hok] | [Hb Hrej]].
    + split; auto. intros _ E. rewrite Hb in E. discriminate.
    + destruct Hrej as (msg & E). rewrite E. split.
      * discriminate.
      * intros Hn. exfalso. apply Hn. exact Hb.
  - unfold amendedRejection, claimedRejection, missing, fieldOf in Hiff.
    repeat split; intros H; apply Hiff; rewrite H.
    + left. right. left. reflexivity.
    + left. right. right. right. reflexivity.
    + left. right. right. right. reflexivity.
    + left. right. right. left. reflexivity.
Qed.

End ValidationClaims.

(** ** formatForecastResponse *)

Module ReshapeClaims.
Import Js Effects GeminiAIService Spec EffectsFacts HeatmapFacts.
Local Open Scope list_scope.

Lemma pluck_defined (key : string) (items : list value) :
  forallb (fun item => negb (nullish item)) items = true ->
  pluck key items = Ok (map (propertyOf key) items).
Proof.
  unfold pluck. induction items as [|item rest IH]; intros Hall.
  - reflexivity.
  - cbn [forallb] in Hall. apply andb_true_iff in Hall.
    destruct Hall as [Hitem Hrest].
    cbn [mapResult map]. rewrite (IH Hrest). unfold propertyOf.
    destruct item; try discriminate Hitem; cbn [getField];
      try reflexivity.
    destruct (ownProperty key fields); reflexivity.
Qed.

Lemma forallb_firstn {A : Type} (p : A -> bool) (n : nat) (l : list A) :
  forallb p l = true -> forallb p (firstn n l) = true.
Proof.
  revert n. induction l as [|x l IH]; intros [|n] H; try reflexivity.
  cbn [forallb firstn] in *. apply andb_true_iff in H.
  destruct H as [Hx Hl]. rewrite Hx, (IH n Hl). reflexivity.
Qed.

(** One of the six series of the reshaped forecast. *)
Lemma series_ok (aiData : value) (trend : list value) (bound : option nat)
  (key : string) (w : World) :
  getField aiData "forecast_trend" = Ok (VArr trend) ->
  forallb (fun item => negb (nullish item)) trend = true ->
  bind (liftResult (getField aiData "forecast_trend"))
       (fun t => liftResult (sliceMap t bound key)) w
  = (Ok (map (propertyOf key) (bounded bound trend)), w).
Proof.
  intros Htrend Hall. unfold bind, liftResult. rewrite Htrend.
  unfold sliceMap. cbn [arrayItems]. fold (bounded bound trend).
  rewrite pluck_defined; [reflexivity |].
  destruct bound as [n|]; [apply forallb_firstn |]; exact Hall.
Qed.

(** Reading one field of a value succeeds when reading another did. *)
Lemma getField_defined (v : value) (k0 k : string) (v0 : value) :
  getField v k0 = Ok v0 -> exists x, getField v k = Ok x.
Proof.
  destruct v; cbn [getField]; intros H; try discriminate H;
    try (eexists; reflexivity).
  destruct (ownProperty k fields); eexists; reflexivity.
Qed.

Lemma liftResult_ok {A : Type} (r : result A) (a : A) (w : World) :
  r = Ok a -> liftResult r w = (Ok a, w).
Proof. intros ->. reflexivity. Qed.

Lemma primitive_localeDateOf (h : Host) (v : value) :
  primitive v = true -> exists text, localeDateOf h v = Ok text.
Proof.
  destruct v; try discriminate; intros _; eexists; reflexivity.
Qed.

Lemma primitive_elements (h : Host) (items : list value) :
  forallb primitive items = true ->
  exists texts, mapResult (elementText h) items = Ok texts.
Proof.
  induction items as [|item rest IH]; intros Hall.
  - exists []. reflexivity.
  - cbn [forallb] in Hall. apply andb_true_iff in Hall.
    destruct Hall as [Hitem Hrest].
    destruct (IH Hrest) as (texts & E).
    assert (exists text, elementText h item = Ok text) as (text & Et).
    { destruct item as [| |b| | | |]; try discriminate Hitem;
        try destruct b; eexists; reflexivity. }
    exists (text :: texts). cbn [mapResult]. rewrite Et, E. reflexivity.
Qed.

(** What the reshaping step returns for a reply that follows the
    schema. *)
Lemma formatForecastResponse_returns (h : Host) (aiData : value)
  (inputData : Request) (w : World) (trend markets : list value) :
  followsSchema aiData trend markets ->
  exists f w',
    formatForecastResponse h aiData inputData w = (Ok f, w')
    /\ demandTrend f
       = {| day7 := map (propertyOf "expected_demand_kg") (firstn 7 trend);
            day14 := map (propertyOf "expected_demand_kg") (firstn 14 trend);
            day30 := map (propertyOf "expected_demand_kg") trend |}
    /\ priceTrend f
       = {| day7 := map (propertyOf "expected_price_per_kg") (firstn 7 trend);
            day14 := map (propertyOf "expected_price_per_kg") (firstn 14 trend);
            day30 := map (propertyOf "expected_price_per_kg") trend |}
    /\ source f = "gemini-ai"%string.
Proof.
  intros (Htrend & Hall & (risk & Hrisk) & Hmarkets & Hnames
          & planting & selling & recommended
          & Hplanting & Hselling & Hrecommended & Pp & Ps & Pr).
  destruct (getField_defined aiData _ "action_summary" _ Htrend)
    as (summary & Hsummary).
  destruct (primitive_localeDateOf h planting Pp) as (plantingText & Tp).
  destruct (primitive_localeDateOf h selling Ps) as (sellingText & Ts).
  destruct (primitive_ToString h recommended Pr) as (recommendedText & Tr).
  destruct (primitive_elements h markets Hnames) as (texts & Tm).
  unfold formatForecastResponse. cbv zeta.
  do 6 (rewrite (bind_ok _ _ _ _ _ (series_ok aiData trend _ _ w Htrend Hall));
        cbv beta).
  rewrite (bind_ok _ _ _ _ _ (liftResult_ok _ _ w Hrisk)); cbv beta.
  erewrite bind_ok by reflexivity. cbv beta.
  rewrite (bind_ok _ _ _ _ _ (liftResult_ok _ _ w Hplanting)); cbv beta.
  rewrite (bind_ok _ _ _ _ _ (liftResult_ok _ _ w Hselling)); cbv beta.
  rewrite (bind_ok _ _ _ _ _ (liftResult_ok _ _ w Hrecommended)); cbv beta.
  rewrite (bind_ok _ _ _ _ _ (liftResult_ok _ _ w Hmarkets)); cbv beta.
  rewrite (bind_ok _ _ _ _ _ (liftResult_ok _ _ w Hsummary)); cbv beta.
  rewrite (bind_ok _ _ _ _ _ (liftResult_ok _ _ w Tp)); cbv beta.
  rewrite (bind_ok _ _ _ _ _ (liftResult_ok _ _ w Ts)); cbv beta.
  rewrite (bind_ok _ _ _ _ _ (liftResult_ok _ _ w Tr)); cbv beta.
  cbn [arrayJoin]. rewrite Tm.
  erewrite bind_ok by reflexivity. cbv beta.
  erewrite bind_ok by reflexivity. cbv beta.
  cbn [generateMarketHeatmapOf].
  destruct (generateMarketHeatmap_shape h markets w Hnames)
    as (records & w1 & E1 & _).
  rewrite (bind_ok _ _ _ _ _ E1); cbv beta.
  destruct (generateMarketHeatmap_shape h markets w1 Hnames)
    as (heatmap & w2 & E2 & _).
  rewrite (bind_ok _ _ _ _ _ E2); cbv beta.
  erewrite bind_ok by reflexivity. cbv beta.
  erewrite bind_ok by reflexivity. cbv beta.
  eexists. eexists. split; [reflexivity |].
  cbn [demandTrend priceTrend source bounded].
  repeat split.
Qed.

(** C4.  For a reply in the schema of the prompt whose trend array has
    [n] elements (whatever [n] is, so for [n < 30] and for the [n = 10]
    of the example), the 30-day series of the reshaped forecast are
    exactly the [n] demand values and the [n] price values in order,
    without padding; the 14-day series are their first [min 14 n]
    elements and the 7-day series their first [min 7 n].  This is also
    the output of the Normalizer on any text that parses to that reply
    and passes validation. *)
Theorem C4_reshape_truncates (h : Host) (aiData : value)
  (inputData : Request) (w : World) (trend markets : list value) :
  followsSchema aiData trend markets ->
  let n := List.length trend in
  let demand := map (propertyOf "expected_demand_kg") trend in
  let price := map (propertyOf "expected_price_per_kg") trend in
  exists f w',
    formatForecastResponse h aiData inputData w = (Ok f, w')
    /\ (day30 (demandTrend f) = demand
        /\ day14 (demandTrend f) = firstn 14 demand
        /\ day7 (demandTrend f) = firstn 7 demand)
    /\ (day30 (priceTrend f) = price
        /\ day14 (priceTrend f) = firstn 14 price
        /\ day7 (priceTrend f) = firstn 7 price)
    /\ (List.length (day30 (demandTrend f)) = n
        /\ List.length (day14 (demandTrend f)) = Nat.min 14 n
        /\ List.length (day7 (demandTrend f)) = Nat.min 7 n)
    /\ (List.length (day30 (priceTrend f)) = n
        /\ List.length (day14 (priceTrend f)) = Nat.min 14 n
        /\ List.length (day7 (priceTrend f)) = Nat.min 7 n)
    /\ (forall response,
          JSON_parse h (cleanJsonResponse response) = Ok aiData ->
          validateForecastData aiData = Ok tt ->
          normalize h response inputData w = (Ok f, w')).
Proof.
  intros Hschema. cbv zeta.
  destruct (formatForecastResponse_returns h aiData inputData w trend markets
              Hschema)
    as (f & w' & E & Hd & Hp & _).
  exists f, w'. split; [exact E |].
  rewrite Hd, Hp. cbn [day7 day14 day30].
  rewrite !firstn_map, !length_map, !length_firstn.
  repeat split.
  intros response Hparse Hvalid. unfold normalize. cbv zeta.
  rewrite (bind_ok _ _ _ _ _ (liftResult_ok _ _ w Hparse)). cbv beta.
  rewrite (bind_ok _ _ _ _ _ (liftResult_ok _ _ w Hvalid)). exact E.
Qed.

Lemma tenDayReply_followsSchema :
  followsSchema tenDayReply tenDays [VStr "KR Market"; VStr "Mysore Market"].
Proof.
  unfold followsSchema. repeat split; try reflexivity.
  - eexists. reflexivity.
  - eexists. eexists. eexists. repeat split; reflexivity.
Qed.

Lemma C4_reshape_truncates_witness :
  exists f w',
    formatForecastResponse sampleHost tenDayReply riceRequest startOfWorld
    = (Ok f, w')
    /\ List.length (day30 (demandTrend f)) = 10%nat
    /\ List.length (day14 (demandTrend f)) = 10%nat
    /\ List.length (day7 (demandTrend f)) = 7%nat.
Proof.
  destruct (C4_reshape_truncates sampleHost tenDayReply riceRequest
              startOfWorld tenDays _ tenDayReply_followsSchema)
    as (f & w' & E & _ & _ & Hlen & _).
  exists f, w'. split; [exact E | exact Hlen].
Defined.

End ReshapeClaims.

(** ** cleanJsonResponse *)

Module TextFacts.
Import Js Effects GeminiAIService Spec.
Local Open Scope Z_scope.

Lemma length_append (a b : string) :
  String.length (a ++ b) = (String.length a + String.length b)%nat.
Proof. induction a as [|c a IH]; cbn; [reflexivity | rewrite IH; reflexivity]. Qed.

Lemma append_assoc (a b c : string) : ((a ++ b) ++ c = a ++ (b ++ c))%string.
Proof. induction a as [|x a IH]; cbn; [reflexivity | rewrite IH; reflexivity]. Qed.

Lemma drop_append (a b : string) : drop (String.length a) (a ++ b) = b.
Proof. induction a as [|c a IH]; cbn; [destruct b; reflexivity | exact IH]. Qed.

Lemma take_append (a b : string) : take (String.length a) (a ++ b) = a.
Proof.
  induction a as [|c a IH]; cbn; [destruct b; reflexivity | rewrite IH; reflexivity].
Qed.

Lemma occurs_append (c : ascii) (a b : string) :
  occurs c (a ++ b) = occurs c a || occurs c b.
Proof.
  induction a as [|x a IH]; cbn; [reflexivity |].
  rewrite IH. apply orb_assoc.
Qed.

Lemma indexOf_lower (c : ascii) (s : string) : -1 <= indexOf c s.
Proof.
  induction s as [|a s IH]; cbn; [lia |].
  destruct (Ascii.eqb a c); [lia |].
  destruct (indexOf c s =? -1) eqn:E; lia.
Qed.

Lemma lastIndexOf_lower (c : ascii) (s : string) : -1 <= lastIndexOf c s.
Proof.
  induction s as [|a s IH]; cbn; [lia |].
  destruct (lastIndexOf c s =? -1) eqn:E; [destruct (Ascii.eqb a c) |]; lia.
Qed.

Lemma indexOf_absent (c : ascii) (s : string) :
  occurs c s = false <-> indexOf c s = -1.
Proof.
  induction s as [|a s IH]; cbn; [tauto |].
  destruct (Ascii.eqb a c); cbn [orb].
  - split; [discriminate | lia].
  - pose proof (indexOf_lower c s).
    destruct (indexOf c s =? -1) eqn:E.
    + apply Z.eqb_eq in E. tauto.
    + apply Z.eqb_neq in E. split; [tauto | lia].
Qed.

Lemma lastIndexOf_absent (c : ascii) (s : string) :
  occurs c s = false <-> lastIndexOf c s = -1.
Proof.
  induction s as [|a s IH]; cbn; [tauto |].
  pose proof (lastIndexOf_lower c s).
  destruct (lastIndexOf c s =? -1) eqn:E.
  - apply Z.eqb_eq in E. destruct (Ascii.eqb a c); cbn [orb].
    + split; [discriminate | lia].
    + tauto.
  - apply Z.eqb_neq in E.
    split; [| lia]. intros Ho. apply orb_false_iff in Ho. tauto.
Qed.

(** The index of the first occurrence. *)
Lemma indexOf_first (c : ascii) (pre rest : string) :
  occurs c pre = false ->
  indexOf c (pre ++ String c rest) = Z.of_nat (String.length pre).
Proof.
  induction pre as [|a pre IH]; intros Ho.
  - cbn. rewrite Ascii.eqb_refl. reflexivity.
  - cbn [occurs] in Ho. apply orb_false_iff in Ho. destruct Ho as [Ha Ho].
    cbn [append indexOf String.length]. rewrite Ha, (IH Ho).
    destruct (Z.of_nat (String.length pre) =? -1) eqn:E; [| lia].
    apply Z.eqb_eq in E. lia.
Qed.

(** The index of the last occurrence. *)
Lemma lastIndexOf_last (c : ascii) (front post : string) :
  occurs c post = false ->
  lastIndexOf c (front ++ String c post) = Z.of_nat (String.length front).
Proof.
  intros Ho. induction front as [|a front IH].
  - cbn. apply lastIndexOf_absent in Ho. rewrite Ho.
    cbn. rewrite Ascii.eqb_refl. reflexivity.
  - cbn [append lastIndexOf String.length]. rewrite IH.
    destruct (Z.of_nat (String.length front) =? -1) eqn:E; [| lia].
    apply Z.eqb_eq in E. lia.
Qed.

Lemma indexOf_split (c : ascii) (s : string) :
  indexOf c s <> -1 ->
  exists pre rest,
    s = (pre ++ String c rest)%string /\ occurs c pre = false.
Proof.
  induction s as [|a s IH]; cbn; [congruence |].
  destruct (Ascii.eqb a c) eqn:Ea.
  - intros _. apply Ascii.eqb_eq in Ea. subst a.
    exists EmptyString, s. split; reflexivity.
  - destruct (indexOf c s =? -1) eqn:E; [congruence |].
    apply Z.eqb_neq in E. intros _.
    destruct (IH E) as (pre & rest & Hs & Ho).
    exists (String a pre), rest. cbn. rewrite Ea, Ho, Hs. split; reflexivity.
Qed.

Lemma lastIndexOf_split (c : ascii) (s : string) :
  lastIndexOf c s <> -1 ->
  exists front post,
    s = (front ++ String c post)%string /\ occurs c post = false.
Proof.
  induction s as [|a s IH]; cbn; [congruence |].
  destruct (lastIndexOf c s =? -1) eqn:E.
  - apply Z.eqb_eq in E. destruct (Ascii.eqb a c) eqn:Ea; [| congruence].
    intros _. apply Ascii.eqb_eq in Ea. subst a.
    exists EmptyString, s. split; [reflexivity |].
    apply lastIndexOf_absent. exact E.
  - apply Z.eqb_neq in E. intros _.
    destruct (IH E) as (front & post & Hs & Ho).
    exists (String a front), post. cbn. rewrite Hs. split; [reflexivity | exact Ho].
Qed.

(** Two ways of cutting one text, the first cut being the earlier. *)
Lemma append_split (a x b y : string) :
  (a ++ x = b ++ y)%string ->
  (String.length a < String.length b)%nat ->
  exists m, b = (a ++ m)%string /\ x = (m ++ y)%string.
Proof.
  revert b. induction a as [|c a IH]; intros b E Hlen.
  - exists b. split; [reflexivity | exact E].
  - destruct b as [|d b]; [cbn in Hlen; lia |].
    cbn in E. inversion E; subst d.
    destruct (IH b H1) as (m & Hb & Hx); [cbn in Hlen; lia |].
    exists m. cbn. rewrite Hb. split; [reflexivity | exact Hx].
Qed.

Lemma substring_middle (pre mid post : string) :
  substring (pre ++ mid ++ post)
            (Z.of_nat (String.length pre))
            (Z.of_nat (String.length pre + String.length mid))
  = mid.
Proof.
  unfold substring. rewrite !length_append.
  set (p := String.length pre). set (m := String.length mid).
  set (q := String.length post).
  replace (Z.min _ _) with (Z.of_nat p) by lia.
  replace (Z.to_nat _) with m by lia.
  replace (Z.to_nat _) with p by lia.
  subst p m. rewrite drop_append. apply take_append.
Qed.

End TextFacts.

(** ** The reference parser *)

Module ParserFacts.
Import Js Effects GeminiAIService Spec TextFacts.
Local Open Scope Z_scope.

Lemma suffix_refl (s : string) : suffix s s.
Proof. exists EmptyString. reflexivity. Qed.

Lemma suffix_trans (a b c : string) : suffix a b -> suffix b c -> suffix a c.
Proof.
  intros (u & Hu) (v & Hv). exists (v ++ u)%string.
  rewrite Hv, Hu, append_assoc. reflexivity.
Qed.

Lemma suffix_cons (c : ascii) (rest s : string) :
  suffix rest s -> suffix rest (String c s).
Proof. intros (u & Hu). exists (String c u). cbn. rewrite Hu. reflexivity. Qed.

Lemma skipJsonWs_suffix (s : string) : suffix (skipJsonWs s) s.
Proof.
  induction s as [|c s IH]; cbn [skipJsonWs]; [apply suffix_refl |].
  destruct ((code c =? 32) || (code c =? 9) || (code c =? 10)
            || (code c =? 13))%N.
  - apply suffix_cons. exact IH.
  - apply suffix_refl.
Qed.

Lemma drop_suffix (n : nat) (s : string) : suffix (drop n s) s.
Proof.
  revert s. induction n as [|n IH]; intros s; [destruct s; apply suffix_refl |].
  destruct s as [|c s]; cbn [drop]; [apply suffix_refl |].
  apply suffix_cons, IH.
Qed.

Lemma expect_inv (b : N) (s t : string) :
  expect b s = Some t -> s = String (ascii_of_N b) t.
Proof.
  destruct s as [|c s]; cbn [expect]; [discriminate |].
  destruct (code c =? b)%N eqn:E; [| discriminate].
  intros H. inversion H; subst t. apply N.eqb_eq in E. subst b.
  unfold code. rewrite ascii_N_embedding. reflexivity.
Qed.

Lemma expect_suffix (b : N) (s t : string) :
  expect b s = Some t -> suffix t s.
Proof.
  intros H. rewrite (expect_inv b s t H). apply suffix_cons, suffix_refl.
Qed.

Lemma readDigits_suffix (s : string) :
  forall acc count m n rest,
    readDigits s acc count = (m, n, rest) -> suffix rest s.
Proof.
  induction s as [|c s IH]; intros acc count m n rest; cbn [readDigits].
  - intros H. inversion H. apply suffix_refl.
  - destruct (isDigit c).
    + intros H. apply suffix_cons. exact (IH _ _ _ _ _ H).
    + intros H. inversion H. apply suffix_refl.
Qed.

Lemma readFraction_suffix (s : string) (int m n : Z) (rest : string) :
  readFraction s int = Some (m, n, rest) -> suffix rest s.
Proof.
  unfold readFraction. destruct (expect 46 s) as [t|] eqn:Et.
  - destruct (readDigits t int 0) as [[m' n'] rest'] eqn:E.
    destruct (n' =? 0); [discriminate |].
    intros H. inversion H; subst.
    apply (suffix_trans _ t); [| exact (expect_suffix _ _ _ Et)].
    exact (readDigits_suffix _ _ _ _ _ _ E).
  - intros H. inversion H. apply suffix_refl.
Qed.

Lemma readExponent_suffix (s : string) (e : Z) (rest : string) :
  readExponent s = Some (e, rest) -> suffix rest s.
Proof.
  unfold readExponent.
  assert (forall t, suffix t s ->
            (let '(sign, t') :=
               match expect 43 t, expect 45 t with
               | Some u, _ => (1, u)
               | None, Some u => (-1, u)
               | None, None => (1, t)
               end in
             let '(e0, n, rest0) := readDigits t' 0 0 in
             if n =? 0 then None else Some (sign * e0, rest0))
            = Some (e, rest) -> suffix rest s) as Hsign.
  { intros t Ht.
    destruct (expect 43 t) as [u|] eqn:Ep;
      [| destruct (expect 45 t) as [u|] eqn:Em].
    - destruct (readDigits u 0 0) as [[e0 n] rest0] eqn:E.
      destruct (n =? 0); [discriminate |]. intros H. inversion H; subst.
      apply (suffix_trans _ u); [exact (readDigits_suffix _ _ _ _ _ _ E) |].
      apply (suffix_trans _ t); [exact (expect_suffix _ _ _ Ep) | exact Ht].
    - destruct (readDigits u 0 0) as [[e0 n] rest0] eqn:E.
      destruct (n =? 0); [discriminate |]. intros H. inversion H; subst.
      apply (suffix_trans _ u); [exact (readDigits_suffix _ _ _ _ _ _ E) |].
      apply (suffix_trans _ t); [exact (expect_suffix _ _ _ Em) | exact Ht].
    - destruct (readDigits t 0 0) as [[e0 n] rest0] eqn:E.
      destruct (n =? 0); [discriminate |]. intros H. inversion H; subst.
      apply (suffix_trans _ t); [exact (readDigits_suffix _ _ _ _ _ _ E) |].
      exact Ht. }
  destruct (expect 101 s) as [t|] eqn:E1; [| destruct (expect 69 s) as [t|] eqn:E2].
  - apply Hsign. exact (expect_suffix _ _ _ E1).
  - apply Hsign. exact (expect_suffix _ _ _ E2).
  - intros H. inversion H. apply suffix_refl.
Qed.

Lemma parseNumber_suffix (s : string) (v : value) (rest : string) :
  parseNumber s = Some (v, rest) -> suffix rest s /\ isObject v = false.
Proof.
  unfold parseNumber.
  assert (exists sign s1,
             match expect 45 s with
             | Some t => (-1, t)
             | None => (1, s)
             end = (sign, s1) /\ suffix s1 s) as (sign & s1 & -> & Hs1).
  { destruct (expect 45 s) as [t|] eqn:E; eexists; eexists;
      (split; [reflexivity |]);
      [exact (expect_suffix _ _ _ E) | apply suffix_refl]. }
  assert (exists int n s2,
             match expect 48 s1 with
             | Some t => (0, 1, t)
             | None => readDigits s1 0 0
             end = (int, n, s2) /\ suffix s2 s1) as (int & n & s2 & -> & Hs2).
  { destruct (expect 48 s1) as [t|] eqn:E.
    - eexists; eexists; eexists. split; [reflexivity |].
      exact (expect_suffix _ _ _ E).
    - destruct (readDigits s1 0 0) as [[int n] s2] eqn:Ed.
      eexists; eexists; eexists. split; [reflexivity |].
      exact (readDigits_suffix _ _ _ _ _ _ Ed). }
  destruct (n =? 0); [discriminate |].
  destruct (readFraction s2 int) as [[[m fracLen] s3]|] eqn:Ef; [| discriminate].
  destruct (readExponent s3) as [[e s4]|] eqn:Ee; [| discriminate].
  intros H. inversion H; subst. split; [| reflexivity].
  apply (suffix_trans _ s3); [exact (readExponent_suffix _ _ _ Ee) |].
  apply (suffix_trans _ s2); [exact (readFraction_suffix _ _ _ _ _ Ef) |].
  apply (suffix_trans _ s1); assumption.
Qed.

Lemma parseLiteral_suffix (s : string) (v : value) (rest : string) :
  parseLiteral s = Some (v, rest) -> suffix rest s /\ isObject v = false.
Proof.
  unfold parseLiteral.
  assert (forall (b : value) (n : nat),
             isObject b = false ->
             Some (b, drop n s) = Some (v, rest) ->
             suffix rest s /\ isObject v = false) as Hword.
  { intros b n Hb H.
    assert (v = b) as -> by congruence.
    assert (rest = drop n s) as -> by congruence.
    split; [apply drop_suffix | exact Hb]. }
  destruct (String.prefix "true" s); [apply Hword; reflexivity |].
  destruct (String.prefix "false" s); [apply Hword; reflexivity |].
  destruct (String.prefix "null" s); [apply Hword; reflexivity |].
  apply parseNumber_suffix.
Qed.

Lemma hex4_suffix (s : string) (n : N) (rest : string) :
  hex4 s = Some (n, rest) -> suffix rest s.
Proof.
  unfold hex4.
  destruct s as [|a [|b [|c [|d r]]]]; try discriminate.
  destruct (hexVal a), (hexVal b), (hexVal c), (hexVal d); try discriminate.
  intros H. inversion H; subst. do 4 apply suffix_cons. apply suffix_refl.
Qed.

Lemma readUnicodeEscape_suffix (s piece rest : string) :
  readUnicodeEscape s = Some (piece, rest) -> suffix rest s.
Proof.
  unfold readUnicodeEscape.
  destruct (hex4 s) as [[hi r]|] eqn:Eh; [| discriminate].
  pose proof (hex4_suffix _ _ _ Eh) as Hr.
  assert (Some (utf8 hi, r) = Some (piece, rest) -> suffix rest s) as Hsingle.
  { intros H. inversion H; subst. exact Hr. }
  destruct ((55296 <=? hi) && (hi <=? 56319))%N; [| exact Hsingle].
  destruct (expect 92 r) as [r1|] eqn:E1; [| exact Hsingle].
  destruct (expect 117 r1) as [r2|] eqn:E2; [| exact Hsingle].
  destruct (hex4 r2) as [[lo r3]|] eqn:El; [| exact Hsingle].
  destruct ((56320 <=? lo) && (lo <=? 57343))%N; [| exact Hsingle].
  intros H. inversion H; subst.
  apply (suffix_trans _ r2); [exact (hex4_suffix _ _ _ El) |].
  apply (suffix_trans _ r1); [exact (expect_suffix _ _ _ E2) |].
  apply (suffix_trans _ r); [exact (expect_suffix _ _ _ E1) | exact Hr].
Qed.

Lemma parseChars_suffix (fuel : nat) :
  forall s str rest, parseChars fuel s = Some (str, rest) -> suffix rest s.
Proof.
  induction fuel as [|fuel IH]; intros s str rest; [discriminate |].
  cbn [parseChars].
  assert (forall piece r,
             suffix r s ->
             match parseChars fuel r with
             | Some (str0, rest') => Some ((piece ++ str0)%string, rest')
             | None => None
             end = Some (str, rest) -> suffix rest s) as Hcont.
  { intros piece r Hr.
    destruct (parseChars fuel r) as [[str0 rest']|] eqn:E; [| discriminate].
    intros H. assert (rest' = rest) as <- by congruence.
    exact (suffix_trans _ _ _ (IH _ _ _ E) Hr). }
  destruct s as [|c t]; [discriminate |].
  assert (suffix t (String c t)) as Ht by (apply suffix_cons, suffix_refl).
  destruct (code c =? 34)%N.
  { intros H. assert (rest = t) as -> by congruence. exact Ht. }
  destruct (code c =? 92)%N.
  - destruct t as [|e u]; [discriminate |].
    assert (suffix u (String c (String e u))) as Hu
      by (do 2 apply suffix_cons; apply suffix_refl).
    repeat match goal with
           | |- (if ?b then _ else _) = _ -> _ =>
               destruct b; [apply Hcont; exact Hu |]
           end.
    destruct (code e =? 117)%N; [| discriminate].
    destruct (readUnicodeEscape u) as [[piece r]|] eqn:Eu; [| discriminate].
    apply Hcont.
    exact (suffix_trans _ _ _ (readUnicodeEscape_suffix _ _ _ Eu) Hu).
  - destruct (code c <? 32)%N; [discriminate |].
    apply Hcont. exact Ht.
Qed.

Lemma parseValue_step (fuel : nat) (s : string) :
  parseValue (S fuel) s
  = let s := skipJsonWs s in
    match expect 123 s, expect 91 s, expect 34 s with
    | Some t, _, _ =>
        match expect 125 (skipJsonWs t) with
        | Some rest => Some (VObj [], rest)
        | None =>
            match parseMembers fuel t with
            | Some (fields, rest) => Some (VObj fields, rest)
            | None => None
            end
        end
    | None, Some t, _ =>
        match expect 93 (skipJsonWs t) with
        | Some rest => Some (VArr [], rest)
        | None =>
            match parseElements fuel t with
            | Some (items, rest) => Some (VArr items, rest)
            | None => None
            end
        end
    | None, None, Some t =>
        match parseChars (String.length s) t with
        | Some (str, rest) => Some (VStr str, rest)
        | None => None
        end
    | None, None, None => parseLiteral s
    end.
Proof. reflexivity. Qed.

Lemma parseElements_step (fuel : nat) (s : string) :
  parseElements (S fuel) s
  = match parseValue fuel s with
    | None => None
    | Some (v, rest) =>
        let rest := skipJsonWs rest in
        match expect 93 rest, expect 44 rest with
        | Some rest', _ => Some ([v], rest')
        | None, Some rest' =>
            match parseElements fuel rest' with
            | Some (vs, rest'') => Some (v :: vs, rest'')
            | None => None
            end
        | None, None => None
        end
    end.
Proof. reflexivity. Qed.

Lemma parseMembers_step (fuel : nat) (s : string) :
  parseMembers (S fuel) s
  = match expect 34 (skipJsonWs s) with
    | None => None
    | Some t =>
        match parseChars (String.length s) t with
        | None => None
        | Some (key, rest) =>
            match expect 58 (skipJsonWs rest) with
            | None => None
            | Some rest1 =>
                match parseValue fuel rest1 with
                | None => None
                | Some (v, rest2) =>
                    let rest2 := skipJsonWs rest2 in
                    match expect 125 rest2, expect 44 rest2 with
                    | Some rest3, _ => Some ([(key, v)], rest3)
                    | None, Some rest3 =>
                        match parseMembers fuel rest3 with
                        | Some (fs, rest4) => Some ((key, v) :: fs, rest4)
                        | None => None
                        end
                    | None, None => None
                    end
                end
            end
        end
    end.
Proof. reflexivity. Qed.

Lemma closes_through (x s rest : string) :
  suffix x s ->
  (exists used, x = (used ++ String closeBrace rest)%string) ->
  exists used, s = (used ++ String closeBrace rest)%string.
Proof.
  intros (u & Hu) (used & Hx). exists (u ++ used)%string.
  rewrite Hu, Hx, append_assoc. reflexivity.
Qed.

Lemma closes_suffix (s rest : string) :
  (exists used, s = (used ++ String closeBrace rest)%string) ->
  suffix rest s.
Proof.
  intros (used & Hs). exists (used ++ String closeBrace EmptyString)%string.
  rewrite Hs, append_assoc. reflexivity.
Qed.

(** What a successful parse has consumed: a prefix of the text, which
    for an object holds an opening brace and ends with a closing one. *)
Lemma parse_consumes (fuel : nat) :
  (forall s v rest,
      parseValue fuel s = Some (v, rest) ->
      suffix rest s
      /\ (isObject v = true ->
          exists pre mid,
            s = (pre ++ String openBrace (mid ++ String closeBrace rest))%string))
  /\ (forall s vs rest,
        parseElements fuel s = Some (vs, rest) -> suffix rest s)
  /\ (forall s fs rest,
        parseMembers fuel s = Some (fs, rest) ->
        exists used, s = (used ++ String closeBrace rest)%string).
Proof.
  induction fuel as [|fuel (IHv & IHe & IHm)].
  { repeat split; intros; discriminate. }
  split; [| split].
  - intros s v rest. rewrite parseValue_step. cbv zeta.
    pose proof (skipJsonWs_suffix s) as Hskip.
    set (s' := skipJsonWs s) in *.
    destruct (expect 123 s') as [t|] eqn:E1;
      [| destruct (expect 91 s') as [t|] eqn:E2;
         [| destruct (expect 34 s') as [t|] eqn:E3]].
    + (* an object *)
      assert ((exists used, t = (used ++ String closeBrace rest)%string) ->
              suffix rest s
              /\ (isObject v = true ->
                  exists pre mid,
                    s = (pre ++ String openBrace
                               (mid ++ String closeBrace rest))%string))
        as Hobject.
      { intros (used & Ht). destruct Hskip as (ws & Hws).
        assert (s = (ws ++ String openBrace
                            (used ++ String closeBrace rest))%string) as Hs.
        { rewrite Hws, (expect_inv _ _ _ E1), Ht. reflexivity. }
        split.
        - exists (ws ++ String openBrace (used ++ String closeBrace EmptyString))%string.
          rewrite Hs, append_assoc. cbn. rewrite append_assoc. reflexivity.
        - intros _. exists ws, used. exact Hs. }
      destruct (expect 125 (skipJsonWs t)) as [r|] eqn:E4.
      * intros H. assert (r = rest) as -> by congruence.
        apply Hobject.
        apply (closes_through (skipJsonWs t)); [apply skipJsonWs_suffix |].
        exists EmptyString. exact (expect_inv _ _ _ E4).
      * destruct (parseMembers fuel t) as [[fields r]|] eqn:Em; [| discriminate].
        intros H. assert (r = rest) as -> by congruence.
        apply Hobject. exact (IHm _ _ _ Em).
    + (* an array *)
      assert (suffix t s) as Ht
        by exact (suffix_trans _ _ _ (expect_suffix _ _ _ E2) Hskip).
      destruct (expect 93 (skipJsonWs t)) as [r|] eqn:E4.
      * intros H. assert (r = rest) as -> by congruence.
        assert (v = VArr []) as -> by congruence.
        split; [| discriminate].
        apply (suffix_trans _ (skipJsonWs t)); [exact (expect_suffix _ _ _ E4) |].
        exact (suffix_trans _ _ _ (skipJsonWs_suffix t) Ht).
      * destruct (parseElements fuel t) as [[items r]|] eqn:Ee; [| discriminate].
        intros H. assert (r = rest) as -> by congruence.
        assert (v = VArr items) as -> by congruence.
        split; [| discriminate].
        exact (suffix_trans _ _ _ (IHe _ _ _ Ee) Ht).
    + (* a string *)
      destruct (parseChars (String.length s') t) as [[str r]|] eqn:Ec;
        [| discriminate].
      intros H. assert (r = rest) as -> by congruence.
      assert (v = VStr str) as -> by congruence.
      split; [| discriminate].
      apply (suffix_trans _ t); [exact (parseChars_suffix _ _ _ _ Ec) |].
      exact (suffix_trans _ _ _ (expect_suffix _ _ _ E3) Hskip).
    + (* a literal *)
      intros H. destruct (parseLiteral_suffix _ _ _ H) as [Hr Hv].
      split; [exact (suffix_trans _ _ _ Hr Hskip) |].
      rewrite Hv. discriminate.
  - intros s vs rest. rewrite parseElements_step.
    destruct (parseValue fuel s) as [[v r]|] eqn:Ev; [| discriminate].
    destruct (IHv _ _ _ Ev) as [Hr _]. cbv zeta.
    assert (suffix (skipJsonWs r) s) as Hr'
      by exact (suffix_trans _ _ _ (skipJsonWs_suffix r) Hr).
    destruct (expect 93 (skipJsonWs r)) as [r'|] eqn:E1;
      [| destruct (expect 44 (skipJsonWs r)) as [r'|] eqn:E2; [| discriminate]].
    + intros H. assert (r' = rest) as -> by congruence.
      exact (suffix_trans _ _ _ (expect_suffix _ _ _ E1) Hr').
    + destruct (parseElements fuel r') as [[vs' r'']|] eqn:Ee; [| discriminate].
      intros H. assert (r'' = rest) as -> by congruence.
      apply (suffix_trans _ r'); [exact (IHe _ _ _ Ee) |].
      exact (suffix_trans _ _ _ (expect_suffix _ _ _ E2) Hr').
  - intros s fs rest. rewrite parseMembers_step.
    destruct (expect 34 (skipJsonWs s)) as [t|] eqn:E1; [| discriminate].
    destruct (parseChars (String.length s) t) as [[key r]|] eqn:Ec;
      [| discriminate].
    destruct (expect 58 (skipJsonWs r)) as [r1|] eqn:E2; [| discriminate].
    destruct (parseValue fuel r1) as [[v r2]|] eqn:Ev; [| discriminate].
    cbv zeta.
    assert (suffix (skipJsonWs r2) s) as Hr2.
    { apply (suffix_trans _ r2); [apply skipJsonWs_suffix |].
      apply (suffix_trans _ r1); [exact (proj1 (IHv _ _ _ Ev)) |].
      apply (suffix_trans _ (skipJsonWs r)); [exact (expect_suffix _ _ _ E2) |].
      apply (suffix_trans _ r); [apply skipJsonWs_suffix |].
      apply (suffix_trans _ t); [exact (parseChars_suffix _ _ _ _ Ec) |].
      apply (suffix_trans _ (skipJsonWs s)); [exact (expect_suffix _ _ _ E1) |].
      apply skipJsonWs_suffix. }
    destruct (expect 125 (skipJsonWs r2)) as [r3|] eqn:E3;
      [| destruct (expect 44 (skipJsonWs r2)) as [r3|] eqn:E4; [| discriminate]].
    + intros H. assert (r3 = rest) as -> by congruence.
      apply (closes_through _ _ _ Hr2).
      exists EmptyString. exact (expect_inv _ _ _ E3).
    + destruct (parseMembers fuel r3) as [[fs' r4]|] eqn:Em; [| discriminate].
      intros H. assert (r4 = rest) as -> by congruence.
      apply (closes_through r3).
      * exact (suffix_trans _ _ _ (expect_suffix _ _ _ E4) Hr2).
      * exact (IHm _ _ _ Em).
Qed.

(** The reference parser yields an object only for a text that has an
    opening brace with a closing brace after it. *)
Lemma referenceParse_object (text : string) (v : value) :
  referenceParse text = Ok v -> isObject v = true -> bracePair text.
Proof.
  unfold referenceParse.
  destruct (parseValue (2 * String.length text + 2) text) as [[v0 rest]|] eqn:E;
    [| discriminate].
  destruct (skipJsonWs rest); [| discriminate].
  intros H Hv. assert (v0 = v) as -> by congruence.
  destruct (proj1 (parse_consumes _) _ _ _ E) as [_ Hobj].
  destruct (Hobj Hv) as (pre & mid & Hs).
  exists pre, mid, rest. exact Hs.
Qed.

End ParserFacts.

Module NormalizerClaims.
Import Js Effects GeminiAIService Spec EffectsFacts HeatmapFacts TextFacts.
Import ParserFacts.
Local Open Scope Z_scope.

Lemma cleanJsonResponse_steps (response : string) :
  cleanJsonResponse response = sliceBraces (stripFences (trim response)).
Proof. reflexivity. Qed.

(** With the first opening brace before the last closing brace, the
    slice runs from the one to the other, both included. *)
Lemma sliceBraces_pair (pre mid post : string) :
  occurs openBrace pre = false ->
  occurs closeBrace post = false ->
  sliceBraces (pre ++ String openBrace (mid ++ String closeBrace post))
  = String openBrace (mid ++ String closeBrace EmptyString).
Proof.
  intros Hpre Hpost.
  pose proof (indexOf_first openBrace pre (mid ++ String closeBrace post) Hpre)
    as Hstart.
  assert (lastIndexOf closeBrace
            (pre ++ String openBrace (mid ++ String closeBrace post))
          = Z.of_nat (String.length pre + S (String.length mid))) as Hlast.
  { replace (pre ++ String openBrace (mid ++ String closeBrace post))%string
      with ((pre ++ String openBrace mid) ++ String closeBrace post)%string
      by (rewrite append_assoc; reflexivity).
    rewrite (lastIndexOf_last closeBrace _ post Hpost), length_append.
    reflexivity. }
  unfold sliceBraces. rewrite Hstart, Hlast.
  set (p := String.length pre). set (m := String.length mid).
  replace (negb (Z.of_nat p =? -1)) with true
    by (symmetry; apply negb_true_iff, Z.eqb_neq; lia).
  replace (negb (Z.of_nat (p + S m) =? -1)) with true
    by (symmetry; apply negb_true_iff, Z.eqb_neq; lia).
  replace (Z.of_nat (p + S m) >? Z.of_nat p) with true
    by (symmetry; apply Z.gtb_lt; lia).
  cbn [andb].
  replace (pre ++ String openBrace (mid ++ String closeBrace post))%string
    with (pre ++ String openBrace (mid ++ String closeBrace EmptyString)
              ++ post)%string
    by (f_equal; cbn; f_equal; rewrite append_assoc; reflexivity).
  replace (Z.of_nat (p + S m) + 1)
    with (Z.of_nat (String.length pre
                    + String.length
                        (String openBrace (mid ++ String closeBrace EmptyString)))).
  - apply substring_middle.
  - cbn [String.length]. rewrite length_append. cbn [String.length].
    subst p m. lia.
Qed.

(** Without such a pair the text is left as it is. *)
Lemma sliceBraces_without_pair (text : string) :
  ~ bracePair text -> sliceBraces text = text.
Proof.
  intros Hno. unfold sliceBraces.
  destruct (negb (indexOf openBrace text =? -1)
            && negb (lastIndexOf closeBrace text =? -1)
            && (lastIndexOf closeBrace text >? indexOf openBrace text)) eqn:E;
    [| reflexivity].
  exfalso. apply Hno.
  apply andb_true_iff in E. destruct E as [E Hgt].
  apply andb_true_iff in E. destruct E as [Hstart Hlast].
  apply negb_true_iff, Z.eqb_neq in Hstart, Hlast.
  apply Z.gtb_lt in Hgt.
  destruct (indexOf_split _ _ Hstart) as (pre & rest & Hs & Hpre).
  destruct (lastIndexOf_split _ _ Hlast) as (front & post & Hf & Hpost).
  assert (indexOf openBrace text = Z.of_nat (String.length pre)) as Hi
    by (rewrite Hs; apply indexOf_first; exact Hpre).
  assert (lastIndexOf closeBrace text = Z.of_nat (String.length front)) as Hl
    by (rewrite Hf; apply lastIndexOf_last; exact Hpost).
  rewrite Hi, Hl in Hgt.
  assert ((pre ++ String openBrace rest)%string
          = (front ++ String closeBrace post)%string) as Hcut
    by (rewrite <- Hs; exact Hf).
  destruct (append_split pre _ front _ Hcut) as (m & Hfront & Hrest); [lia |].
  destruct m as [|c m].
  - rewrite Hfront, length_append in Hgt. cbn in Hgt. lia.
  - cbn in Hrest. inversion Hrest; subst c rest.
    exists pre, m, post. exact Hs.
Qed.

(** The fenced reply of the specification's example is recovered: the
    prose and the fences go, the object stays. *)
Example cleanJsonResponse_fenced :
  cleanJsonResponse fencedReply
  = dq "{'glut_risk': 'Low', 'forecast_trend': [{'date': '2026-11-03'}]}".
Proof. vm_compute. reflexivity. Qed.

(** *** Which step an error comes from *)

Lemma throwsOnly_ret {A : Type} (P : exn -> Prop) (a : A) :
  throwsOnly P (ret a).
Proof. intros w e w' E. discriminate E. Qed.

Lemma throwsOnly_bind {A B : Type} (P : exn -> Prop) (c : M A) (k : A -> M B) :
  throwsOnly P c -> (forall a, throwsOnly P (k a)) -> throwsOnly P (bind c k).
Proof.
  intros Hc Hk w e w'. unfold bind.
  destruct (c w) as [[a|e0] w1] eqn:E; intros Eb.
  - exact (Hk a w1 e w' Eb).
  - inversion Eb; subst e0 w1. exact (Hc w e w' E).
Qed.

Lemma throwsOnly_liftResult {A : Type} (P : exn -> Prop) (r : result A) :
  (forall e, r = Throw e -> P e) -> throwsOnly P (liftResult r).
Proof. intros Hr w e w' E. inversion E. apply Hr. assumption. Qed.

Lemma throwsOnly_newDate (P : exn -> Prop) (h : Host) :
  throwsOnly P (newDate h).
Proof. intros w e w' E. discriminate E. Qed.

Lemma getField_throws (v : value) (k : string) (e : exn) :
  getField v k = Throw e -> notMalformed e.
Proof.
  destruct v; cbn [getField]; intros E; try discriminate E;
    try (inversion E; intros F; exact F).
  destruct (ownProperty k fields); discriminate E.
Qed.

Lemma mapResult_throws {A B : Type} (P : exn -> Prop) (g : A -> result B)
  (items : list A) (e : exn) :
  (forall x e', g x = Throw e' -> P e') ->
  mapResult g items = Throw e -> P e.
Proof.
  intros Hg. induction items as [|x rest IH]; cbn [mapResult]; intros E.
  - discriminate E.
  - destruct (g x) as [y|e'] eqn:Ex.
    + destruct (mapResult g rest) as [ys|e'']; [discriminate E |].
      inversion E; subst e''. apply IH. reflexivity.
    + inversion E; subst e'. exact (Hg x e Ex).
Qed.

Lemma sliceMap_throws (trend : value) (bound : option nat) (key : string)
  (e : exn) :
  sliceMap trend bound key = Throw e -> notMalformed e.
Proof.
  unfold sliceMap, pluck.
  destruct trend; cbn [arrayItems]; intros E;
    try (inversion E; intros F; exact F).
  apply (mapResult_throws notMalformed _ _ e
           (fun x e' => getField_throws x key e') E).
Qed.

Lemma toLowerCaseOf_throws (v : value) (e : exn) :
  toLowerCaseOf v = Throw e -> notMalformed e.
Proof.
  destruct v; cbn [toLowerCaseOf]; intros E; try discriminate E;
    inversion E; intros F; exact F.
Qed.

Lemma mapResult_cons_throws {A B : Type} (g : A -> result B) (x : A)
  (rest : list A) (e : exn) :
  mapResult g (x :: rest) = Throw e ->
  g x = Throw e \/ mapResult g rest = Throw e.
Proof.
  cbn [mapResult]. destruct (g x) as [y|e0].
  - destruct (mapResult g rest) as [ys|e1]; [discriminate |].
    intros H. right. congruence.
  - intros H. left. congruence.
Qed.

(** A conversion to a string throws nothing but a [TypeError]. *)
Lemma ToString_throws (h : Host) :
  forall (v : value) (e : exn), ToString h v = Throw e -> notMalformed e.
Proof.
  fix IH 1. intros v e. destruct v as [| |b|n|text|items|fields]; cbn [ToString].
  - discriminate.
  - discriminate.
  - destruct b; discriminate.
  - discriminate.
  - discriminate.
  - assert (forall e',
               mapResult (fun item =>
                            match item with
                            | VUndef | VNull => Ok EmptyString
                            | _ => ToString h item
                            end) items = Throw e' ->
               notMalformed e') as Hitems.
    { clear e. induction items as [|item rest IHitems]; intros e' Em.
      - discriminate Em.
      - apply mapResult_cons_throws in Em.
        destruct Em as [Eitem | Erest]; [| exact (IHitems e' Erest)].
        assert (ToString h item = Throw e') as Hitem
          by (destruct item; try discriminate Eitem; exact Eitem).
        exact (IH item e' Hitem). }
    destruct (mapResult _ items) as [texts|e0]; [discriminate |].
    intros H. apply Hitems. congruence.
  - destruct (ownProperty "toString" fields); [| discriminate].
    intros H. inversion H. intros F. exact F.
Qed.

Lemma elementText_throws (h : Host) (item : value) (e : exn) :
  elementText h item = Throw e -> notMalformed e.
Proof.
  destruct item; cbn [elementText]; try discriminate; apply ToString_throws.
Qed.

Lemma arrayJoin_throws (h : Host) (v : value) (sep : string) (e : exn) :
  arrayJoin h v sep = Throw e -> notMalformed e.
Proof.
  destruct v; cbn [arrayJoin]; intros E; try discriminate E;
    try (inversion E; intros F; exact F).
  destruct (mapResult (elementText h) items) as [texts|e0] eqn:Em;
    [discriminate E |].
  assert (e0 = e) as -> by congruence.
  exact (mapResult_throws notMalformed _ _ e (elementText_throws h) Em).
Qed.

Lemma localeDateOf_throws (h : Host) (v : value) (e : exn) :
  localeDateOf h v = Throw e -> notMalformed e.
Proof.
  unfold localeDateOf. destruct v; try discriminate.
  - destruct (ToString h (VArr items)) as [t|e0] eqn:E; [discriminate |].
    intros H. assert (e0 = e) as -> by congruence.
    exact (ToString_throws h _ _ E).
  - destruct (ToString h (VObj fields)) as [t|e0] eqn:E; [discriminate |].
    intros H. assert (e0 = e) as -> by congruence.
    exact (ToString_throws h _ _ E).
Qed.

Lemma throwsOnly_random (P : exn -> Prop) (h : Host) :
  throwsOnly P (random h).
Proof. intros w e w' E. discriminate E. Qed.

Lemma marketEntry_throws (h : Host) (market : value) (index : nat) :
  throwsOnly notMalformed (marketEntry h market index).
Proof.
  unfold marketEntry, coordinatesOf.
  apply throwsOnly_bind; [| intros coords; apply throwsOnly_bind;
                            [apply throwsOnly_random
                            | intros r; apply throwsOnly_ret]].
  apply throwsOnly_bind.
  - apply throwsOnly_liftResult. apply ToString_throws.
  - intros key. destruct (tableGet baseCoordinates key) as [[la lo]| |].
    + apply throwsOnly_ret.
    + apply throwsOnly_ret.
    + apply throwsOnly_bind; [apply throwsOnly_random |].
      intros r1. apply throwsOnly_bind; [apply throwsOnly_random |].
      intros r2. apply throwsOnly_ret.
Qed.

Lemma forEachMarket_throws (h : Host) (names : list value) :
  forall index marketData,
    throwsOnly notMalformed (forEachMarket h names index marketData).
Proof.
  induction names as [|market rest IH]; intros index marketData;
    cbn [forEachMarket].
  - apply throwsOnly_ret.
  - apply throwsOnly_bind; [apply marketEntry_throws |].
    intros entry. apply IH.
Qed.

Lemma generateMarketHeatmapOf_throws (h : Host) (v : value) :
  throwsOnly notMalformed (generateMarketHeatmapOf h v).
Proof.
  destruct v; cbn [generateMarketHeatmapOf];
    try (intros w e w' E; unfold throw in E; inversion E; intros F; exact F).
  apply forEachMarket_throws.
Qed.

(** The reshaping step throws no [SyntaxError]. *)
Lemma formatForecastResponse_throws (h : Host) (aiData : value)
  (inputData : Request) :
  throwsOnly notMalformed (formatForecastResponse h aiData inputData).
Proof.
  unfold formatForecastResponse. cbv zeta.
  repeat (apply throwsOnly_bind; [| intros ?]);
    try apply throwsOnly_ret;
    try apply throwsOnly_newDate;
    try apply generateMarketHeatmapOf_throws;
    try (apply throwsOnly_liftResult; intros e;
         first [ apply getField_throws | apply sliceMap_throws
               | apply toLowerCaseOf_throws | apply arrayJoin_throws
               | apply localeDateOf_throws | apply ToString_throws ]).
Qed.

Lemma getField_defined_here (data trend : value) :
  getField data "forecast_trend" = Ok trend ->
  exists risk, getField data "glut_risk" = Ok risk.
Proof.
  destruct data; cbn [getField]; intros H; try discriminate H;
    try (eexists; reflexivity).
  destruct (ownProperty "glut_risk" fields); eexists; reflexivity.
Qed.

Lemma validateForecastData_throws (data : value) (e : exn) :
  validateForecastData data = Throw e -> notMalformed e.
Proof.
  unfold validateForecastData, requiredFields. cbn [checkRequired].
  destruct (getField data "forecast_trend") as [trend|e1] eqn:Et.
  - destruct (getField_defined_here data trend Et) as (risk & Er).
    rewrite Er.
    destruct (truthy trend); [| intros E; inversion E; intros F; exact F].
    destruct (truthy risk); [| intros E; inversion E; intros F; exact F].
    destruct (negb (isNonEmptyArray trend));
      [intros E; inversion E; intros F; exact F |].
    destruct (negb (isRiskLabel risk)); intros E;
      [inversion E; intros F; exact F | discriminate E].
  - intros E. inversion E; subst e1. exact (getField_throws _ _ _ Et).
Qed.

(** Normalization fails with a malformed-response error exactly when
    the parser rejects the cleaned text. *)
Lemma normalize_malformed (h : Host) (response : string)
  (inputData : Request) (w : World) (e : exn) :
  malformedResponse e ->
  (exists w', normalize h response inputData w = (Throw e, w'))
  <-> JSON_parse h (cleanJsonResponse response) = Throw e.
Proof.
  intros He. unfold normalize. cbv zeta. split.
  - intros (w' & E). unfold bind at 1 in E. unfold liftResult at 1 in E.
    destruct (JSON_parse h (cleanJsonResponse response)) as [data|e0].
    + exfalso.
      assert (throwsOnly notMalformed
                (bind (liftResult (validateForecastData data))
                      (fun _ => formatForecastResponse h data inputData)))
        as Hrest.
      { apply throwsOnly_bind.
        - apply throwsOnly_liftResult. apply validateForecastData_throws.
        - intros _. apply formatForecastResponse_throws. }
      exact (Hrest w e w' E He).
    + inversion E. reflexivity.
  - intros E. exists w. unfold bind at 1. unfold liftResult at 1.
    rewrite E. reflexivity.
Qed.

(** C6, as stated, fails: the reply [[]] has no pair of braces, yet
    it parses; normalization then fails in the validation step, with a
    validation error and not with a malformed-response error. *)
Lemma C6_braceless_counterexample :
  ~ bracePair (stripFences (trim "[]"))
  /\ normalize sampleHost "[]" riceRequest startOfWorld
     = (Throw (Error "Missing required field: forecast_trend"), startOfWorld)
  /\ ~ malformedResponse (Error "Missing required field: forecast_trend").
Proof.
  split; [| split].
  - intros (pre & mid & post & E).
    assert (occurs openBrace (stripFences (trim "[]")) = true) as Ho.
    { rewrite E, occurs_append. cbn [occurs].
      rewrite Ascii.eqb_refl. cbn [orb]. apply orb_true_r. }
    vm_compute in Ho. discriminate Ho.
  - reflexivity.
  - intros F. exact F.
Qed.

(** Validation lets nothing through that is not an object. *)
Lemma validateForecastData_non_object (data : value) :
  isObject data = false -> exists e, validateForecastData data = Throw e.
Proof.
  unfold validateForecastData, requiredFields.
  destruct data; try discriminate; intros _; eexists; reflexivity.
Qed.

(** A text without a pair of braces never becomes a forecast. *)
Lemma normalize_braceless (h : Host) (response : string)
  (inputData : Request) (w : World) :
  (forall text, JSON_parse h text = referenceParse text) ->
  ~ bracePair (stripFences (trim response)) ->
  exists e w', normalize h response inputData w = (Throw e, w').
Proof.
  intros Hparse Hno. unfold normalize. cbv zeta.
  rewrite Hparse, cleanJsonResponse_steps, (sliceBraces_without_pair _ Hno).
  destruct (referenceParse (stripFences (trim response))) as [data|e] eqn:E.
  - destruct (isObject data) eqn:Hobj.
    + exfalso. apply Hno. exact (referenceParse_object _ _ E Hobj).
    + destruct (validateForecastData_non_object data Hobj) as (e & Ev).
      exists e, w. erewrite bind_ok by reflexivity. cbv beta.
      erewrite bind_throw; [reflexivity |].
      unfold liftResult. rewrite Ev. reflexivity.
  - exists e, w. erewrite bind_throw; reflexivity.
Qed.

(** C6 (amended).  The raw text is trimmed and its code-fence markers
    are stripped; if the result has an opening brace with a closing brace
    after it, exactly the text from the first opening brace to the last
    closing brace, both included, goes to the parser, and otherwise the
    whole result does; normalization fails with a malformed-response
    error exactly when the parser rejects the text it is given; a text
    without a pair of braces always makes normalization fail, in the
    parser or, when it is valid JSON all the same, in validation. *)
Theorem C6_clean_then_parse (h : Host) (response : string) :
  let text := stripFences (trim response) in
  (forall pre mid post,
      text = (pre ++ String openBrace (mid ++ String closeBrace post))%string ->
      occurs openBrace pre = false ->
      occurs closeBrace post = false ->
      cleanJsonResponse response
      = String openBrace (mid ++ String closeBrace EmptyString))
  /\ (~ bracePair text -> cleanJsonResponse response = text)
  /\ (forall inputData w e,
        malformedResponse e ->
        (exists w', normalize h response inputData w = (Throw e, w'))
        <-> JSON_parse h (cleanJsonResponse response) = Throw e)
  /\ ((forall t, JSON_parse h t = referenceParse t) ->
      ~ bracePair text ->
      forall inputData w,
      exists e w', normalize h response inputData w = (Throw e, w')).
Proof.
  cbv zeta. split; [| split; [| split]].
  - intros pre mid post Htext Hpre Hpost.
    rewrite cleanJsonResponse_steps, Htext.
    apply sliceBraces_pair; assumption.
  - rewrite cleanJsonResponse_steps. apply sliceBraces_without_pair.
  - intros inputData w e He. apply normalize_malformed. exact He.
  - intros Hparse Hno inputData w. apply normalize_braceless; assumption.
Qed.

(** The reply of the specification's example goes through the whole
    normalizer up to validation. *)
Example fenced_reply_parses :
  exists data,
    referenceParse (cleanJsonResponse fencedReply) = Ok data
    /\ validateForecastData data = Ok tt.
Proof. eexists. split; vm_compute; reflexivity. Qed.

End NormalizerClaims.
(* ================================================================== *)
(** * Part VI.  Further properties                                    *)
(* ================================================================== *)

(** ** What a reshaped reply is made of *)

Module ReshapeFacts.
Import Js Effects GeminiAIService Spec Vocabulary EffectsFacts.
Local Open Scope R_scope.
Local Open Scope list_scope.

Lemma pluck_inv (key : string) (items l : list value) :
  pluck key items = Ok l -> l = map (propertyOf key) items.
Proof.
  unfold pluck. revert l.
  induction items as [|x rest IH]; intros l E; cbn in E.
  - cbn. congruence.
  - destruct (getField x key) as [v|e] eqn:Ex; [| discriminate E].
    destruct (mapResult (fun item => getField item key) rest) as [vs|e];
      [| discriminate E].
    assert (l = v :: vs) as -> by congruence.
    cbn. unfold propertyOf at 1. rewrite Ex. f_equal. apply IH. reflexivity.
Qed.

Lemma sliceMap_inv (trend : value) (bound : option nat) (key : string)
  (l : list value) :
  sliceMap trend bound key = Ok l ->
  exists items,
    trend = VArr items /\ l = map (propertyOf key) (bounded bound items).
Proof.
  unfold sliceMap. intros E.
  destruct trend as [| |b|n|s|items|fields]; try discriminate E.
  cbn in E. exists items. split; [reflexivity |].
  apply pluck_inv. destruct bound; exact E.
Qed.

(** One of the six series of the reshaped reply. *)
Lemma series_inv (aiData : value) (bound : option nat) (key : string)
  (w w1 : World) (l : list value) :
  bind (liftResult (getField aiData "forecast_trend"))
       (fun trend => liftResult (sliceMap trend bound key)) w = (Ok l, w1) ->
  exists items,
    getField aiData "forecast_trend" = Ok (VArr items)
    /\ l = map (propertyOf key) (bounded bound items)
    /\ w1 = w.
Proof.
  intros E. apply bind_inv_ok in E. destruct E as (trend & w0 & Et & E).
  apply liftResult_inv_ok in Et. destruct Et as [Et ->].
  apply liftResult_inv_ok in E. destruct E as [E ->].
  apply sliceMap_inv in E. destruct E as (items & -> & ->).
  exists items. auto.
Qed.

Lemma toLowerCaseOf_inv (v : value) (s : string) :
  toLowerCaseOf v = Ok s -> exists text, v = VStr text /\ s = toLowerCase text.
Proof.
  destruct v as [| |b|n|text|items|fields]; try discriminate.
  cbn. intros E. exists text. split; congruence.
Qed.

Lemma generateMarketHeatmapOf_inv (h : Host) (v : value) (w w' : World)
  (records : list MarketRecord) :
  generateMarketHeatmapOf h v w = (Ok records, w') ->
  exists items,
    v = VArr items /\ generateMarketHeatmap h items w = (Ok records, w').
Proof.
  destruct v as [| |b|n|text|items|fields]; try discriminate.
  intros E. exists items. split; [reflexivity | exact E].
Qed.

(** The parts of a forecast that [formatForecastResponse] returns. *)
Lemma formatForecastResponse_inv (h : Host) (aiData : value)
  (inputData : Request) (w w' : World) (f : Forecast) :
  formatForecastResponse h aiData inputData w = (Ok f, w') ->
  exists (trend names : list value) (risk : string)
         (records heatmap : list MarketRecord) (w1 : World),
    getField aiData "forecast_trend" = Ok (VArr trend)
    /\ getField aiData "glut_risk" = Ok (VStr risk)
    /\ getField aiData "suggested_markets" = Ok (VArr names)
    /\ getField aiData "recommended_quantity_kg" = Ok (recommendedQuantity f)
    /\ demandTrend f
       = {| day7 := map (propertyOf "expected_demand_kg") (firstn 7 trend);
            day14 := map (propertyOf "expected_demand_kg") (firstn 14 trend);
            day30 := map (propertyOf "expected_demand_kg") trend |}
    /\ priceTrend f
       = {| day7 := map (propertyOf "expected_price_per_kg") (firstn 7 trend);
            day14 := map (propertyOf "expected_price_per_kg")
                         (firstn 14 trend);
            day30 := map (propertyOf "expected_price_per_kg") trend |}
    /\ glutRisk f = toLowerCase risk
    /\ success f = true
    /\ source f = "gemini-ai"%string
    /\ suggestedMarkets f = VArr names
    /\ markets f = Some records
    /\ marketHeatmap f = heatmap
    /\ generateMarketHeatmap h names w = (Ok records, w1)
    /\ (exists w2,
          generateMarketHeatmap h names w1 = (Ok heatmap, w2)
          /\ draws w' = draws w2
          /\ clockReads w' = S (S (clockReads w2))).
Proof.
  unfold formatForecastResponse. cbv zeta. intros E.
  apply bind_inv_ok in E. destruct E as (d7 & w1 & E1 & E).
  apply series_inv in E1. destruct E1 as (trend & Htrend & -> & ->).
  apply bind_inv_ok in E. destruct E as (d14 & w1 & E1 & E).
  apply series_inv in E1. destruct E1 as (trend2 & Htrend2 & -> & ->).
  assert (trend2 = trend) as -> by congruence. clear Htrend2.
  apply bind_inv_ok in E. destruct E as (d30 & w1 & E1 & E).
  apply series_inv in E1. destruct E1 as (trend2 & Htrend2 & -> & ->).
  assert (trend2 = trend) as -> by congruence. clear Htrend2.
  apply bind_inv_ok in E. destruct E as (p7 & w1 & E1 & E).
  apply series_inv in E1. destruct E1 as (trend2 & Htrend2 & -> & ->).
  assert (trend2 = trend) as -> by congruence. clear Htrend2.
  apply bind_inv_ok in E. destruct E as (p14 & w1 & E1 & E).
  apply series_inv in E1. destruct E1 as (trend2 & Htrend2 & -> & ->).
  assert (trend2 = trend) as -> by congruence. clear Htrend2.
  apply bind_inv_ok in E. destruct E as (p30 & w1 & E1 & E).
  apply series_inv in E1. destruct E1 as (trend2 & Htrend2 & -> & ->).
  assert (trend2 = trend) as -> by congruence. clear Htrend2.
  apply bind_inv_ok in E. destruct E as (glut_risk & w1 & E1 & E).
  apply liftResult_inv_ok in E1. destruct E1 as [Hrisk ->].
  apply bind_inv_ok in E. destruct E as (lowered & w1 & E1 & E).
  apply liftResult_inv_ok in E1. destruct E1 as [Hlow ->].
  apply toLowerCaseOf_inv in Hlow. destruct Hlow as (risk & -> & ->).
  apply bind_inv_ok in E. destruct E as (planting & w1 & E1 & E).
  apply liftResult_inv_ok in E1. destruct E1 as [Hplanting ->].
  apply bind_inv_ok in E. destruct E as (selling & w1 & E1 & E).
  apply liftResult_inv_ok in E1. destruct E1 as [Hselling ->].
  apply bind_inv_ok in E. destruct E as (recommended & w1 & E1 & E).
  apply liftResult_inv_ok in E1. destruct E1 as [Hrecommended ->].
  apply bind_inv_ok in E. destruct E as (suggested & w1 & E1 & E).
  apply liftResult_inv_ok in E1. destruct E1 as [Hsuggested ->].
  apply bind_inv_ok in E. destruct E as (summary & w1 & E1 & E).
  apply liftResult_inv_ok in E1. destruct E1 as [Hsummary ->].
  apply bind_inv_ok in E. destruct E as (plantingText & w1 & E1 & E).
  apply liftResult_inv_ok in E1. destruct E1 as [_ ->].
  apply bind_inv_ok in E. destruct E as (sellingText & w1 & E1 & E).
  apply liftResult_inv_ok in E1. destruct E1 as [_ ->].
  apply bind_inv_ok in E. destruct E as (recommendedText & w1 & E1 & E).
  apply liftResult_inv_ok in E1. destruct E1 as [_ ->].
  apply bind_inv_ok in E. destruct E as (joined & w1 & E1 & E).
  apply liftResult_inv_ok in E1. destruct E1 as [_ ->].
  apply bind_inv_ok in E. destruct E as (riskText & w1 & E1 & E).
  apply liftResult_inv_ok in E1. destruct E1 as [_ ->].
  apply bind_inv_ok in E. destruct E as (records & w1 & Erecords & E).
  apply generateMarketHeatmapOf_inv in Erecords.
  destruct Erecords as (names & -> & Erecords).
  apply bind_inv_ok in E. destruct E as (heatmap & w2 & Eheatmap & E).
  apply generateMarketHeatmapOf_inv in Eheatmap.
  destruct Eheatmap as (names2 & Hnames2 & Eheatmap).
  assert (names2 = names) as -> by congruence. clear Hnames2.
  apply bind_inv_ok in E. destruct E as (stamp1 & w3 & Estamp1 & E).
  unfold newDate in Estamp1.
  assert (w3 = {| draws := draws w2; clockReads := S (clockReads w2) |})
    as -> by congruence.
  clear Estamp1.
  apply bind_inv_ok in E. destruct E as (stamp2 & w4 & Estamp2 & E).
  unfold newDate in Estamp2. cbn [draws clockReads] in Estamp2.
  assert (w4 = {| draws := draws w2; clockReads := S (S (clockReads w2)) |})
    as -> by congruence.
  clear Estamp2.
  apply ret_inv in E. destruct E as [Ef Ew]. subst f.
  exists trend, names, risk, records, heatmap, w1.
  cbn [demandTrend priceTrend glutRisk success source suggestedMarkets
       markets marketHeatmap recommendedQuantity bounded].
  split; [exact Htrend |]. split; [exact Hrisk |].
  split; [exact Hsuggested |]. split; [exact Hrecommended |].
  split; [reflexivity |]. split; [reflexivity |]. split; [reflexivity |].
  split; [reflexivity |]. split; [reflexivity |]. split; [reflexivity |].
  split; [reflexivity |]. split; [reflexivity |].
  split; [exact Erecords |]. exists w2.
  split; [exact Eheatmap |]. subst w'. split; reflexivity.
Qed.

End ReshapeFacts.

(** ** What a returned heatmap is made of *)

Module HeatmapRange.
Import Js Effects GeminiAIService Spec Vocabulary EffectsFacts.
Local Open Scope R_scope.
Local Open Scope list_scope.

Lemma coordinatesOf_inv (h : Host) (market : value) (w w1 : World)
  (coords : value * value) :
  coordinatesOf h market w = (Ok coords, w1) ->
  clockReads w1 = clockReads w
  /\ (draws w1 = draws w \/ draws w1 = S (S (draws w))).
Proof.
  unfold coordinatesOf. intros E.
  apply bind_inv_ok in E. destruct E as (key & w0 & Ekey & E).
  apply liftResult_inv_ok in Ekey. destruct Ekey as [_ ->].
  destruct (tableGet baseCoordinates key) as [[la lo]| |].
  - apply ret_inv in E. destruct E as [_ <-]. auto.
  - apply ret_inv in E. destruct E as [_ <-]. auto.
  - cbv [bind random ret] in E. cbn [draws clockReads] in E.
    assert (w1 = {| draws := S (S (draws w)); clockReads := clockReads w |})
      as -> by congruence.
    cbn. auto.
Qed.

Lemma marketEntry_inv (h : Host) (market : value) (index : nat)
  (w w1 : World) (r : MarketRecord) :
  marketEntry h market index w = (Ok r, w1) ->
  name r = market
  /\ demand r = "high"%string
  /\ pricedBy h w w1 r
  /\ clockReads w1 = clockReads w
  /\ (draws w1 = S (draws w) \/ draws w1 = S (S (S (draws w)))).
Proof.
  unfold marketEntry. intros E.
  apply bind_inv_ok in E. destruct E as (coords & w0 & Ecoords & E).
  apply coordinatesOf_inv in Ecoords. destruct Ecoords as [Hclock Hdraws].
  cbv [bind random ret] in E. cbn [draws clockReads] in E.
  assert (Hw : w1 = {| draws := S (draws w0); clockReads := clockReads w0 |})
    by congruence.
  assert (Hr : r = {| name := market; lat := fst coords; lng := snd coords;
                      demand := "high";
                      price := nadd (lit 25)
                                 (nmul (Fin (Math_random h (draws w0)))
                                       (lit 15));
                      risk := if (index =? 0)%nat then "low" else "medium" |})
    by congruence.
  clear E. subst r w1. cbn [name demand price draws clockReads].
  split; [reflexivity |]. split; [reflexivity |].
  split; [| split; [exact Hclock |]].
  - exists (draws w0). cbn [draws]. split; [lia | reflexivity].
  - destruct Hdraws as [-> | ->]; auto.
Qed.

Lemma pricedBy_wider (h : Host) (w0 w w' w1 : World) (r : MarketRecord) :
  (draws w0 <= draws w)%nat -> (draws w' <= draws w1)%nat ->
  pricedBy h w w' r -> pricedBy h w0 w1 r.
Proof. intros H0 H1 (k & Hk & Hp). exists k. split; [lia | exact Hp]. Qed.

(** The loop: one record per name and in the order of the names; one
    or three random numbers per record; the clock is not read. *)
Lemma forEachMarket_inv (h : Host) (names : list value) :
  forall (index : nat) (marketData out : list MarketRecord) (w w' : World),
    forEachMarket h names index marketData w = (Ok out, w') ->
    exists records,
      out = marketData ++ records
      /\ map name records = names
      /\ Forall (fun r => demand r = "high"%string) records
      /\ Forall (pricedBy h w w') records
      /\ clockReads w' = clockReads w
      /\ (draws w + List.length names <= draws w')%nat
      /\ (draws w' <= draws w + 3 * List.length names)%nat.
Proof.
  induction names as [|market rest IH]; intros index marketData out w w' E.
  - cbn in E. apply ret_inv in E. destruct E as [<- <-].
    exists []. rewrite app_nil_r. cbn.
    repeat split; auto; lia.
  - cbn [forEachMarket] in E.
    apply bind_inv_ok in E. destruct E as (r & w1 & Er & E).
    apply marketEntry_inv in Er.
    destruct Er as (Hn & Hd & Hp & Hclock & Hdraws).
    apply IH in E.
    destruct E as (records & -> & Hnames & Hdemand & Hprices & Hclock' & Hlo
                   & Hhi).
    exists (r :: records). rewrite <- app_assoc. cbn [app map List.length].
    split; [reflexivity |].
    split; [rewrite Hn, Hnames; reflexivity |].
    split; [constructor; assumption |].
    split; [| split; [congruence | split; lia]].
    constructor.
    + apply (pricedBy_wider h w w w1 w'); [lia | lia | exact Hp].
    + eapply Forall_impl; [| exact Hprices].
      intros r'. apply pricedBy_wider; lia.
Qed.

Lemma generateMarketHeatmap_inv (h : Host) (names : list value)
  (w w' : World) (records : list MarketRecord) :
  generateMarketHeatmap h names w = (Ok records, w') ->
  map name records = names
  /\ Forall (fun r => demand r = "high"%string) records
  /\ Forall (pricedBy h w w') records
  /\ clockReads w' = clockReads w
  /\ (draws w + List.length names <= draws w')%nat
  /\ (draws w' <= draws w + 3 * List.length names)%nat.
Proof.
  unfold generateMarketHeatmap. intros E.
  apply forEachMarket_inv in E. destruct E as (records' & -> & H).
  exact H.
Qed.

Lemma pricedBy_range (h : Host) (w w' : World) (r : MarketRecord) :
  unitRandom h -> pricedBy h w w' r ->
  exists p, price r = Fin p /\ 25 <= p < 40.
Proof.
  intros Hunit (k & _ & Hp). exists (25 + Math_random h k * 15).
  split; [exact Hp |]. specialize (Hunit k). lra.
Qed.

End HeatmapRange.

(** ** The series of the mock generator in closed form *)

Module MockSeries.
Import Js Effects GeminiAIService Spec Vocabulary EffectsFacts HeatmapFacts.
Import MockFacts HeatmapRange.
Local Open Scope R_scope.
Local Open Scope list_scope.

Lemma dayStep_value (h : Host) (c : CropData) (b : num) (i : nat)
  (trends : Trend num * Trend num) (w : World) :
  dayStep h c b i trends w
  = (Ok (pushTrend i (fst trends) (demandAt h c b i (draws w)),
         pushTrend i (snd trends) (priceAt h c (draws w))),
     {| draws := S (draws w); clockReads := clockReads w |}).
Proof. reflexivity. Qed.

Lemma map_seq_shift {A : Type} (g : nat -> A) (n : nat) :
  map g (seq 1 n) = map (fun j => g (S j)) (seq 0 n).
Proof. rewrite <- seq_shift, map_map. reflexivity. Qed.

(** Day [i + j] of the loop uses the [j]-th random number from where
    the loop started, and nothing else changes. *)
Lemma forLoop_series (h : Host) (c : CropData) (b : num) (count : nat) :
  forall (i : nat) (trends : Trend num * Trend num) (w : World),
    exists trends' w',
      forLoop count i (dayStep h c b) trends w = (Ok trends', w')
      /\ day30 (fst trends')
         = day30 (fst trends)
           ++ map (fun j => demandAt h c b (i + j) (draws w + j))
                  (seq 0 count)
      /\ day30 (snd trends')
         = day30 (snd trends)
           ++ map (fun j => priceAt h c (draws w + j)) (seq 0 count)
      /\ draws w' = (draws w + count)%nat
      /\ clockReads w' = clockReads w.
Proof.
  induction count as [|count IH]; intros i trends w.
  - exists trends, w. cbn. rewrite !app_nil_r, Nat.add_0_r. auto.
  - destruct (IH (S i)
                (pushTrend i (fst trends) (demandAt h c b i (draws w)),
                 pushTrend i (snd trends) (priceAt h c (draws w)))
                {| draws := S (draws w); clockReads := clockReads w |})
      as (trends' & w' & E' & Hd & Hp & Hdraws & Hclock).
    exists trends', w'. cbn [forLoop].
    rewrite (bind_ok _ _ _ _ _ (dayStep_value h c b i trends w)), E'.
    cbn [fst snd pushTrend day30 draws clockReads] in Hd, Hp, Hdraws, Hclock.
    unfold push in Hd, Hp.
    split; [reflexivity |].
    cbn [seq map]. rewrite !map_seq_shift, !Nat.add_0_r.
    split; [| split; [| split]].
    + rewrite Hd, <- app_assoc. cbn [app]. f_equal. f_equal.
      apply map_ext. intros j. f_equal; lia.
    + rewrite Hp, <- app_assoc. cbn [app]. f_equal. f_equal.
      apply map_ext. intros j. f_equal; lia.
    + lia.
    + exact Hclock.
Qed.

Lemma prefixes_map {A B : Type} (g : A -> B) (i : nat) (t : Trend A) :
  windows i t -> prefixes (mapTrend g t).
Proof.
  intros (_ & H14 & H7). unfold prefixes, mapTrend. cbn [day7 day14 day30].
  rewrite H14, H7, !firstn_map. auto.
Qed.

Lemma classifyGlut_level (q a : num) : riskLevel (classifyGlut q a).
Proof.
  unfold classifyGlut, riskLevel.
  destruct (ngt q (nmul a (lit 1.5))); [auto |].
  destruct (ngt q (nmul a (lit 1.2))); auto.
Qed.

(** What a returned mock forecast is made of, day by day. *)
Lemma generateMockForecast_shape (h : Host) (inputData : Request)
  (w w' : World) (f : Forecast) :
  generateMockForecast h inputData w = (Ok f, w') ->
  exists (names : list string) (w1 w2 : World),
    suggestedMarketsOf (district inputData) = Own names
    /\ day30 (demandTrend f) = map VNum (mockDemands h inputData w)
    /\ day30 (priceTrend f) = map VNum (mockPrices h inputData w)
    /\ prefixes (demandTrend f)
    /\ prefixes (priceTrend f)
    /\ success f = true
    /\ source f = "mock-data"%string
    /\ glutRisk f
       = classifyGlut (Fin (baseQuantityOf inputData))
           (ndiv (sum (mockDemands h inputData w)) (lit 30))
    /\ recommendedQuantity f
       = VNum (Math_round
                 (nmul (ndiv (sum (mockDemands h inputData w)) (lit 30))
                       (lit 0.9)))
    /\ suggestedMarkets f = VArr (map VStr names)
    /\ markets f = None
    /\ draws w1 = (draws w + 30)%nat
    /\ generateMarketHeatmap h (map VStr names) w1
       = (Ok (marketHeatmap f), w2)
    /\ draws w' = draws w2
    /\ clockReads w' = S (S (clockReads w)).
Proof.
  unfold generateMockForecast. intros E.
  destruct (forLoop_days h (cropDataOf (crop inputData))
              (Math_round (nmul (Fin (baseQuantityOf inputData))
                 (demandMultiplier (cropDataOf (crop inputData)))))
              30 0 (emptyTrend, emptyTrend) w windows_empty windows_empty)
    as ([dT pT] & w1 & Eloop & Hd & Hp & _).
  destruct (forLoop_series h (cropDataOf (crop inputData))
              (Math_round (nmul (Fin (baseQuantityOf inputData))
                 (demandMultiplier (cropDataOf (crop inputData)))))
              30 0 (emptyTrend, emptyTrend) w)
    as (trends & w0 & Eloop' & Hds & Hps & Hdraws & Hclock).
  rewrite Eloop in Eloop'.
  assert (trends = (dT, pT)) as -> by congruence.
  assert (w0 = w1) as -> by congruence. clear Eloop'.
  rewrite (bind_ok _ _ _ _ _ Eloop) in E.
  apply bind_inv_ok in E. destruct E as (today & w2 & Etoday & E).
  unfold newDate in Etoday.
  assert (w2 = {| draws := draws w1; clockReads := S (clockReads w1) |})
    as -> by congruence.
  clear Etoday.
  apply bind_inv_ok in E. destruct E as (names & w3 & Enames & E).
  apply liftResult_inv_ok in Enames. destruct Enames as [Enames ->].
  apply bind_inv_ok in E. destruct E as (heatmap & w4 & Eheat & E).
  apply bind_inv_ok in E. destruct E as (stamp & w5 & Estamp & E).
  unfold newDate in Estamp.
  assert (w5 = {| draws := draws w4; clockReads := S (clockReads w4) |})
    as -> by congruence.
  clear Estamp.
  apply ret_inv in E. destruct E as [Ef Ew]. subst f.
  assert (Hown : suggestedMarketsOf (district inputData) = Own names).
  { destruct (suggestedMarketsOf (district inputData)); cbn in Enames;
      congruence. }
  exists names,
    {| draws := draws w1; clockReads := S (clockReads w1) |}, w4.
  cbn [fst snd emptyTrend day30 app] in Hd, Hp, Hds, Hps.
  assert (Hdemands : day30 dT = mockDemands h inputData w) by exact Hds.
  assert (Hprices : day30 pT = mockPrices h inputData w) by exact Hps.
  cbn [demandTrend priceTrend glutRisk success source suggestedMarkets
       markets marketHeatmap recommendedQuantity fst snd mapTrend day30
       draws].
  rewrite Hdemands, Hprices.
  split; [exact Hown |].
  split; [reflexivity |]. split; [reflexivity |].
  split; [exact (prefixes_map VNum _ dT Hd) |].
  split; [exact (prefixes_map VNum _ pT Hp) |].
  split; [reflexivity |]. split; [reflexivity |].
  split; [reflexivity |]. split; [reflexivity |].
  split; [reflexivity |]. split; [reflexivity |].
  split; [exact Hdraws |].
  split; [exact Eheat |].
  subst w'. cbn [draws clockReads]. split; [reflexivity |].
  apply generateMarketHeatmap_inv in Eheat.
  destruct Eheat as (_ & _ & _ & Hc & _).
  cbn [clockReads] in Hc. congruence.
Qed.

End MockSeries.

(** ** Every forecast, whichever path produced it *)

Module ForecastInvariants.
Import Js Effects GeminiAIService Spec Vocabulary EffectsFacts.
Import HeatmapFacts MockFacts ReshapeFacts HeatmapRange MockSeries.
Local Open Scope R_scope.
Local Open Scope list_scope.

Lemma prefixes_reshaped {A B : Type} (g : A -> B) (trend : list A) :
  prefixes {| day7 := map g (firstn 7 trend);
              day14 := map g (firstn 14 trend);
              day30 := map g trend |}.
Proof. unfold prefixes. cbn [day7 day14 day30]. rewrite !firstn_map. auto. Qed.

(** X2.  The AI path keeps the invariant of the mock path: the 7-day and
    14-day series of a reshaped reply are the first 7 and 14 entries of
    its 30-day series, whatever the reply holds, and demand and price
    have one entry per item of the reply's trend. *)
Theorem reshape_prefix_invariant (h : Host) (aiData : value)
  (inputData : Request) (w w' : World) (f : Forecast) :
  formatForecastResponse h aiData inputData w = (Ok f, w') ->
  prefixes (demandTrend f)
  /\ prefixes (priceTrend f)
  /\ List.length (day30 (demandTrend f)) = List.length (day30 (priceTrend f))
  /\ List.length (day7 (demandTrend f))
     = Nat.min 7 (List.length (day30 (demandTrend f)))
  /\ List.length (day14 (demandTrend f))
     = Nat.min 14 (List.length (day30 (demandTrend f)))
  /\ source f = "gemini-ai"%string.
Proof.
  intros E. apply formatForecastResponse_inv in E.
  destruct E as (trend & names & risk & records & heatmap & w1 & _ & _ & _
                 & _ & Hd & Hp & _ & _ & Hsource & _).
  rewrite Hd, Hp. cbn [day7 day14 day30].
  split; [apply prefixes_reshaped |]. split; [apply prefixes_reshaped |].
  rewrite !length_map, !length_firstn. auto.
Qed.

Lemma reshape_prefix_invariant_witness :
  exists f w',
    formatForecastResponse sampleHost tenDayReply riceRequest startOfWorld
    = (Ok f, w')
    /\ prefixes (demandTrend f)
    /\ List.length (day7 (demandTrend f))
       = Nat.min 7 (List.length (day30 (demandTrend f))).
Proof.
  destruct (ReshapeClaims.formatForecastResponse_returns sampleHost
              tenDayReply riceRequest startOfWorld tenDays _
              ReshapeClaims.tenDayReply_followsSchema)
    as (f & w' & E & _).
  exists f, w'. split; [exact E |].
  destruct (reshape_prefix_invariant sampleHost tenDayReply riceRequest
              startOfWorld w' f E) as (H1 & _ & _ & H7 & _).
  split; [exact H1 | exact H7].
Defined.

(** X3.  On the AI path the two lists of market records, [markets] and
    [marketHeatmap], come from two calls of the heatmap generator: they
    carry the names of the reply's markets in the same order, and no
    random number is used by both. *)
Theorem reshape_two_heatmaps (h : Host) (aiData : value)
  (inputData : Request) (w w' : World) (f : Forecast) :
  formatForecastResponse h aiData inputData w = (Ok f, w') ->
  exists (names : list value) (records : list MarketRecord) (w1 : World),
    getField aiData "suggested_markets" = Ok (VArr names)
    /\ markets f = Some records
    /\ map name records = names
    /\ map name (marketHeatmap f) = names
    /\ Forall (pricedBy h w w1) records
    /\ Forall (pricedBy h w1 w') (marketHeatmap f).
Proof.
  intros E. apply formatForecastResponse_inv in E.
  destruct E as (trend & names & risk & records & heatmap & w1 & _ & _
                 & Hnames & _ & _ & _ & _ & _ & _ & _ & Hmarkets & Hheat
                 & Erecords & w2 & Eheatmap & Hdraws & _).
  apply generateMarketHeatmap_inv in Erecords.
  destruct Erecords as (Hn1 & _ & Hp1 & _).
  apply generateMarketHeatmap_inv in Eheatmap.
  destruct Eheatmap as (Hn2 & _ & Hp2 & _).
  exists names, records, w1. rewrite Hheat.
  split; [exact Hnames |]. split; [exact Hmarkets |].
  split; [exact Hn1 |]. split; [exact Hn2 |]. split; [exact Hp1 |].
  eapply Forall_impl; [| exact Hp2].
  intros r. apply pricedBy_wider; lia.
Qed.

Lemma reshape_two_heatmaps_witness :
  exists f w' records,
    formatForecastResponse sampleHost tenDayReply riceRequest startOfWorld
    = (Ok f, w')
    /\ markets f = Some records
    /\ map name records = map name (marketHeatmap f).
Proof.
  destruct (ReshapeClaims.formatForecastResponse_returns sampleHost
              tenDayReply riceRequest startOfWorld tenDays _
              ReshapeClaims.tenDayReply_followsSchema)
    as (f & w' & E & _).
  destruct (reshape_two_heatmaps sampleHost tenDayReply riceRequest
              startOfWorld w' f E)
    as (names & records & w1 & _ & Hm & H1 & H2 & _).
  exists f, w', records. split; [exact E |]. split; [exact Hm |].
  rewrite H1, H2. reflexivity.
Defined.

(** What validation guarantees. *)
Lemma validateForecastData_inv (data : value) :
  validateForecastData data = Ok tt ->
  exists (item : value) (rest : list value) (label : string),
    getField data "forecast_trend" = Ok (VArr (item :: rest))
    /\ getField data "glut_risk" = Ok (VStr label)
    /\ (label = "Low" \/ label = "Medium" \/ label = "High")%string.
Proof.
  unfold validateForecastData. intros E.
  destruct (checkRequired data requiredFields) as [[]|e]; [| discriminate E].
  destruct (getField data "forecast_trend") as [trend|e]; [| discriminate E].
  destruct (isNonEmptyArray trend) eqn:Htrend; [| discriminate E].
  cbn [negb] in E.
  destruct (getField data "glut_risk") as [risk|e]; [| discriminate E].
  destruct (isRiskLabel risk) eqn:Hrisk; [| discriminate E].
  destruct trend as [| |b|n|s|[|item rest]|fields]; try discriminate Htrend.
  destruct risk as [| |b|n|label|items|fields]; try discriminate Hrisk.
  exists item, rest, label. split; [reflexivity |]. split; [reflexivity |].
  unfold isRiskLabel, inb, riskLabels in Hrisk. cbn [existsb] in Hrisk.
  rewrite !orb_true_iff in Hrisk.
  destruct Hrisk as [H | [H | [H | H]]]; try discriminate H;
    apply String.eqb_eq in H; auto.
Qed.

Lemma normalize_inv (h : Host) (response : string) (inputData : Request)
  (w w' : World) (f : Forecast) :
  normalize h response inputData w = (Ok f, w') ->
  exists data,
    JSON_parse h (cleanJsonResponse response) = Ok data
    /\ validateForecastData data = Ok tt
    /\ formatForecastResponse h data inputData w = (Ok f, w').
Proof.
  unfold normalize. cbv zeta. intros E.
  apply bind_inv_ok in E. destruct E as (data & w1 & Eparse & E).
  apply liftResult_inv_ok in Eparse. destruct Eparse as [Eparse ->].
  apply bind_inv_ok in E. destruct E as ([] & w1 & Evalid & E).
  apply liftResult_inv_ok in Evalid. destruct Evalid as [Evalid ->].
  exists data. auto.
Qed.

Lemma riskLevel_lowered (label : string) :
  (label = "Low" \/ label = "Medium" \/ label = "High")%string ->
  riskLevel (toLowerCase label).
Proof.
  unfold riskLevel. intros [-> | [-> | ->]]; [left | right; left | right; right];
    reflexivity.
Qed.

(** X4.  A reply that gets through the normalizer gives a forecast whose
    glut risk is "low", "medium" or "high" (the label of the reply in
    lower case) and whose series are not empty. *)
Theorem normalize_postconditions (h : Host) (response : string)
  (inputData : Request) (w w' : World) (f : Forecast) :
  normalize h response inputData w = (Ok f, w') ->
  riskLevel (glutRisk f)
  /\ day7 (demandTrend f) <> []
  /\ day7 (priceTrend f) <> []
  /\ (1 <= List.length (day30 (demandTrend f)))%nat
  /\ source f = "gemini-ai"%string.
Proof.
  intros E. apply normalize_inv in E.
  destruct E as (data & _ & Hvalid & E).
  apply validateForecastData_inv in Hvalid.
  destruct Hvalid as (item & rest & label & Htrend & Hrisk & Hlabel).
  apply formatForecastResponse_inv in E.
  destruct E as (trend & names & risk & records & heatmap & w1 & Htrend'
                 & Hrisk' & _ & _ & Hd & Hp & Hglut & _ & Hsource & _).
  assert (trend = item :: rest) as -> by congruence.
  assert (risk = label) as -> by congruence.
  rewrite Hd, Hp, Hglut. cbn [day7 day30 firstn map List.length].
  split; [apply riskLevel_lowered; exact Hlabel |].
  split; [discriminate |]. split; [discriminate |].
  split; [lia | exact Hsource].
Qed.

Lemma schemaReply_parses :
  exists data trend markets,
    referenceParse (cleanJsonResponse schemaReply) = Ok data
    /\ validateForecastData data = Ok tt
    /\ followsSchema data trend markets.
Proof.
  eexists. eexists. eexists.
  split; [vm_compute; reflexivity |].
  split; [vm_compute; reflexivity |].
  unfold followsSchema.
  split; [vm_compute; reflexivity |].
  split; [vm_compute; reflexivity |].
  split; [eexists; vm_compute; reflexivity |].
  split; [vm_compute; reflexivity |].
  split; [vm_compute; reflexivity |].
  eexists. eexists. eexists.
  repeat split; vm_compute; reflexivity.
Qed.

Lemma normalize_returns (h : Host) (response : string) (inputData : Request)
  (w : World) (data : value) (trend markets : list value) :
  JSON_parse h (cleanJsonResponse response) = Ok data ->
  validateForecastData data = Ok tt ->
  followsSchema data trend markets ->
  exists f w', normalize h response inputData w = (Ok f, w').
Proof.
  intros Hparse Hvalid Hschema. unfold normalize. cbv zeta.
  rewrite Hparse. erewrite bind_ok by reflexivity. cbv beta.
  rewrite Hvalid. erewrite bind_ok by reflexivity. cbv beta.
  destruct (ReshapeClaims.formatForecastResponse_returns h data inputData w
              trend markets Hschema) as (f & w' & E & _).
  exists f, w'. exact E.
Qed.

Lemma normalize_schemaReply :
  exists f w',
    normalize sampleHost schemaReply riceRequest startOfWorld = (Ok f, w').
Proof.
  destruct schemaReply_parses as (data & trend & markets & Hp & Hv & Hs).
  exact (normalize_returns sampleHost schemaReply riceRequest startOfWorld
           data trend markets Hp Hv Hs).
Qed.

Lemma normalize_postconditions_witness :
  exists f w',
    normalize sampleHost schemaReply riceRequest startOfWorld = (Ok f, w')
    /\ riskLevel (glutRisk f).
Proof.
  destruct normalize_schemaReply as (f & w' & E).
  exists f, w'. split; [exact E |].
  exact (proj1 (normalize_postconditions sampleHost schemaReply riceRequest
                  startOfWorld w' f E)).
Defined.

Lemma mockSeries_length (h : Host) (inputData : Request) (w : World) :
  List.length (mockDemands h inputData w) = 30%nat
  /\ List.length (mockPrices h inputData w) = 30%nat.
Proof. unfold mockDemands, mockPrices. rewrite !length_map. auto. Qed.

(** A returned forecast is the reshaped reply of the AI, or a mock
    forecast. *)
Lemma generateForecast_inv (h : Host) (isAvailable : bool) (ai : AiOutcome)
  (inputData : Request) (w w' : World) (f : Forecast) :
  generateForecast h isAvailable ai inputData w = (Ok f, w') ->
  (isAvailable = true
   /\ exists response,
        raceWithTimeout ai = Ok response
        /\ normalize h response inputData w = (Ok f, w'))
  \/ (exists w0, generateMockForecast h inputData w0 = (Ok f, w')).
Proof.
  unfold generateForecast. destruct isAvailable; cbn [negb].
  - unfold tryCatch.
    destruct (aiPath h ai inputData w) as [[f0|e] w1] eqn:Eai; intros E.
    + left. split; [reflexivity |].
      unfold aiPath in Eai.
      apply bind_inv_ok in Eai. destruct Eai as (response & w0 & Er & Eai).
      apply liftResult_inv_ok in Er. destruct Er as [Er ->].
      exists response. split; [exact Er |]. congruence.
    + right. exists w1. exact E.
  - intros E. right. exists w. exact E.
Qed.

(** What the two paths have in common. *)
Lemma generateForecast_series (h : Host) (isAvailable : bool)
  (ai : AiOutcome) (inputData : Request) (w w' : World) (f : Forecast) :
  generateForecast h isAvailable ai inputData w = (Ok f, w') ->
  success f = true
  /\ riskLevel (glutRisk f)
  /\ prefixes (demandTrend f)
  /\ prefixes (priceTrend f)
  /\ (1 <= List.length (day30 (demandTrend f)))%nat
  /\ List.length (day30 (demandTrend f)) = List.length (day30 (priceTrend f)).
Proof.
  intros E. apply generateForecast_inv in E.
  destruct E as [(Havailable & response & Hrace & E) | (w0 & E)].
  - apply normalize_inv in E. destruct E as (data & _ & Hvalid & E).
    apply validateForecastData_inv in Hvalid.
    destruct Hvalid as (item & rest & label & Htrend & Hrisk & Hlabel).
    apply formatForecastResponse_inv in E.
    destruct E as (trend & names & risk & records & heatmap & w1 & Htrend'
                   & Hrisk' & _ & _ & Hd & Hp & Hglut & Hsuccess & Hsource
                   & _).
    assert (trend = item :: rest) as -> by congruence.
    assert (risk = label) as -> by congruence.
    rewrite Hd, Hp, Hglut. cbn [day30].
    split; [exact Hsuccess |].
    split; [apply riskLevel_lowered; exact Hlabel |].
    split; [apply prefixes_reshaped |]. split; [apply prefixes_reshaped |].
    rewrite !length_map. cbn [List.length].
    split; [lia | reflexivity].
  - apply generateMockForecast_shape in E.
    destruct E as (names & w1 & w2 & _ & Hd30 & Hp30 & Hd & Hp & Hsuccess
                   & Hsource & Hglut & _).
    destruct (mockSeries_length h inputData w0) as [Hld Hlp].
    rewrite Hd30, Hp30, !length_map, Hld, Hlp, Hglut.
    split; [exact Hsuccess |]. split; [apply classifyGlut_level |].
    split; [exact Hd |]. split; [exact Hp |]. split; [lia | reflexivity].
Qed.

(** X1.  Whichever path produced it, a forecast that [generateForecast]
    returns has [success] set, a glut risk of "low", "medium" or
    "high", non-empty series whose 7-day and 14-day horizons are
    prefixes of the 30-day one, and a source tag that tells the path:
    "gemini-ai" only when the service is available and the reply
    arrived in time, "mock-data" with exactly 30 days otherwise. *)
Theorem generateForecast_postconditions (h : Host) (isAvailable : bool)
  (ai : AiOutcome) (inputData : Request) (w w' : World) (f : Forecast) :
  generateForecast h isAvailable ai inputData w = (Ok f, w') ->
  success f = true
  /\ riskLevel (glutRisk f)
  /\ prefixes (demandTrend f)
  /\ prefixes (priceTrend f)
  /\ (1 <= List.length (day30 (demandTrend f)))%nat
  /\ List.length (day30 (demandTrend f)) = List.length (day30 (priceTrend f))
  /\ ((source f = "gemini-ai"%string
       /\ isAvailable = true
       /\ exists response, raceWithTimeout ai = Ok response)
      \/ (source f = "mock-data"%string
          /\ List.length (day30 (demandTrend f)) = 30%nat)).
Proof.
  intros E.
  destruct (generateForecast_series h isAvailable ai inputData w w' f E)
    as (H1 & H2 & H3 & H4 & H5 & H6).
  split; [exact H1 |]. split; [exact H2 |]. split; [exact H3 |].
  split; [exact H4 |]. split; [exact H5 |]. split; [exact H6 |].
  apply generateForecast_inv in E.
  destruct E as [(Havailable & response & Hrace & E) | (w0 & E)].
  - left. apply normalize_inv in E. destruct E as (data & _ & _ & E).
    apply formatForecastResponse_inv in E.
    destruct E as (trend & names & risk & records & heatmap & w1 & _ & _ & _
                   & _ & _ & _ & _ & _ & Hsource & _).
    split; [exact Hsource |]. split; [exact Havailable |].
    exists response. exact Hrace.
  - right. apply generateMockForecast_shape in E.
    destruct E as (names & w1 & w2 & _ & Hd30 & _ & _ & _ & _ & Hsource & _).
    split; [exact Hsource |].
    rewrite Hd30, length_map. apply mockSeries_length.
Qed.

Lemma generateForecast_postconditions_witness :
  exists f w',
    generateForecast sampleHost false TimedOut riceRequest startOfWorld
    = (Ok f, w')
    /\ riskLevel (glutRisk f)
    /\ prefixes (demandTrend f).
Proof.
  destruct (generateMockForecast_returns sampleHost riceRequest startOfWorld
              _ eq_refl) as (f & w' & E).
  exists f, w'. split; [exact E |].
  destruct (generateForecast_postconditions sampleHost false TimedOut
              riceRequest startOfWorld w' f E) as (_ & H1 & H2 & _).
  split; [exact H1 | exact H2].
Defined.

End ForecastInvariants.

(** ** The numbers of a mock forecast *)

Module MockBounds.
Import Js Effects GeminiAIService Spec Vocabulary EffectsFacts.
Import HeatmapFacts MockFacts HeatmapRange MockSeries.
Local Open Scope R_scope.
Local Open Scope list_scope.

(** Every entry of the table of crops, within the bounds of the table. *)
Lemma pricedCrop_entry (cropName : string) :
  pricedCrop cropName ->
  exists p v m,
    cropDataOf cropName = cropEntry p v m
    /\ 3 <= p <= 45 /\ 0.05 <= v <= 0.2 /\ 0.9 <= m <= 1.3.
Proof.
  unfold pricedCrop, cropDataOf, tableGet. cbn [assoc crops].
  repeat match goal with
         | |- context [if (?a =? cropName)%string then _ else _] =>
             destruct (a =? cropName)%string
         end;
    try (intros _; cbn [asCropData]; eexists; eexists; eexists;
         split; [reflexivity | lra]).
  destruct (inb cropName objectPrototypeKeys).
  - intros H. contradiction H. reflexivity.
  - intros _. cbn. eexists. eexists. eexists. split; [reflexivity | lra].
Qed.

Lemma demandAt_entry (h : Host) (p v m b : R) (i k : nat) :
  demandAt h (cropEntry p v m) (Fin b) i k = Fin (demandReal h v b i k).
Proof. reflexivity. Qed.

Lemma priceAt_entry (h : Host) (p v m : R) (k : nat) :
  priceAt h (cropEntry p v m) k = Fin (priceReal h p v k).
Proof. reflexivity. Qed.

Lemma baseDemandOf_entry (inputData : Request) (p v m : R) :
  cropDataOf (crop inputData) = cropEntry p v m ->
  baseDemandOf inputData = Fin (Rround (baseQuantityOf inputData * m)).
Proof. intros Hc. unfold baseDemandOf. rewrite Hc. reflexivity. Qed.

Lemma mockDemands_entry (h : Host) (inputData : Request) (w : World)
  (p v m : R) :
  cropDataOf (crop inputData) = cropEntry p v m ->
  mockDemands h inputData w
  = map Fin (map (fun j => demandReal h v
                             (Rround (baseQuantityOf inputData * m))
                             j (draws w + j))
                 (seq 0 30)).
Proof.
  intros Hc. unfold mockDemands.
  rewrite (baseDemandOf_entry inputData p v m Hc), Hc, map_map.
  reflexivity.
Qed.

Lemma mockPrices_entry (h : Host) (inputData : Request) (w : World)
  (p v m : R) :
  cropDataOf (crop inputData) = cropEntry p v m ->
  mockPrices h inputData w
  = map Fin (map (fun j => priceReal h p v (draws w + j)) (seq 0 30)).
Proof. intros Hc. unfold mockPrices. rewrite Hc, map_map. reflexivity. Qed.

Lemma fold_nadd_Fin (l : list R) (a : R) :
  fold_left nadd (map Fin l) (Fin a) = Fin (fold_left Rplus l a).
Proof.
  revert a. induction l as [|x l IH]; intros a; [reflexivity |].
  cbn [map fold_left]. exact (IH (a + x)).
Qed.

Lemma sum_Fin (l : list R) : sum (map Fin l) = Fin (fold_left Rplus l 0).
Proof. exact (fold_nadd_Fin l 0). Qed.

Lemma Rround_bounds (x : R) : x - / 2 < Rround x <= x + / 2.
Proof.
  destruct (MockClaims.Rround_nearest x) as (z & -> & Hz). lra.
Qed.

Lemma Forall_map_seq {A : Type} (P : A -> Prop) (g : nat -> A) (n : nat) :
  (forall j, P (g j)) -> Forall P (map g (seq 0 n)).
Proof.
  intros H. apply Forall_forall. intros x Hx.
  apply in_map_iff in Hx. destruct Hx as (j & <- & _). apply H.
Qed.



Lemma randomFactor_bounds (r v : R) :
  0 <= r < 1 -> 0 <= v ->
  1 - v / 2 <= 1 + (r - 0.5) * v <= 1 + v / 2.
Proof. intros Hr Hv. nra. Qed.

Lemma priceReal_bounds (h : Host) (p v : R) (k : nat) :
  unitRandom h -> 0 <= p -> 0 <= v ->
  p * (1 - v / 2) - 0.005 <= priceReal h p v k <= p * (1 + v / 2) + 0.005.
Proof.
  intros Hunit Hp Hv. unfold priceReal.
  pose proof (randomFactor_bounds (Math_random h k) v (Hunit k) Hv) as Hf.
  pose proof (Rround_bounds (p * (1 + (Math_random h k - 0.5) * v) * 100))
    as Hr.
  assert (p * (1 - v / 2) <= p * (1 + (Math_random h k - 0.5) * v))
    by (apply Rmult_le_compat_l; lra).
  assert (p * (1 + (Math_random h k - 0.5) * v) <= p * (1 + v / 2))
    by (apply Rmult_le_compat_l; lra).
  lra.
Qed.

(** X7.  On the mock path every price lies within half the crop's
    volatility of its base price, up to the rounding to a hundredth:
    with base price [p] and volatility [v] (at most 0.2 in the table),
    between [p (1 - v/2) - 0.005] and [p (1 + v/2) + 0.005]. *)
Theorem mock_price_range (h : Host) (inputData : Request)
  (w w' : World) (f : Forecast) :
  unitRandom h ->
  pricedCrop (crop inputData) ->
  generateMockForecast h inputData w = (Ok f, w') ->
  exists p v m,
    cropDataOf (crop inputData) = cropEntry p v m
    /\ v <= 0.2
    /\ Forall (within (p * (1 - v / 2) - 0.005) (p * (1 + v / 2) + 0.005))
              (day30 (priceTrend f)).
Proof.
  intros Hunit Hcrop E.
  destruct (pricedCrop_entry _ Hcrop) as (p & v & m & Hc & Hp & Hv & _).
  exists p, v, m. split; [exact Hc |]. split; [lra |].
  apply generateMockForecast_shape in E.
  destruct E as (names & w1 & w2 & _ & _ & Hp30 & _).
  rewrite Hp30, (mockPrices_entry h inputData w p v m Hc), !map_map.
  apply Forall_map_seq. intros j. eexists. split; [reflexivity |].
  apply priceReal_bounds; [exact Hunit | lra | lra].
Qed.

Lemma unitRandom_sampleHost : unitRandom sampleHost.
Proof. intros k. cbn. lra. Qed.

Lemma pricedCrop_rice : pricedCrop (crop riceRequest).
Proof. vm_compute. discriminate. Qed.

Lemma mock_price_range_witness :
  exists f w' p v m,
    generateMockForecast sampleHost riceRequest startOfWorld = (Ok f, w')
    /\ cropDataOf (crop riceRequest) = cropEntry p v m
    /\ Forall (within (p * (1 - v / 2) - 0.005) (p * (1 + v / 2) + 0.005))
              (day30 (priceTrend f)).
Proof.
  destruct (generateMockForecast_returns sampleHost riceRequest startOfWorld
              _ eq_refl) as (f & w' & E).
  destruct (mock_price_range sampleHost riceRequest startOfWorld w' f
              unitRandom_sampleHost pricedCrop_rice E)
    as (p & v & m & Hc & _ & Hall).
  exists f, w', p, v, m. split; [exact E |]. split; [exact Hc | exact Hall].
Defined.

Lemma dayFactor_bounds (i : nat) :
  0.9 <= 1 + sin (INR i / 7) * 0.1 <= 1.1.
Proof. pose proof (SIN_bound (INR i / 7)) as H. lra. Qed.

Lemma product_bounds (b x y lx hx ly hy : R) :
  0 <= b -> 0 <= lx -> lx <= x <= hx -> 0 <= ly -> ly <= y <= hy ->
  lx * ly * b <= b * x * y <= hx * hy * b.
Proof.
  intros Hb Hlx Hx Hly Hy.
  assert (lx * ly <= x * y) by (apply Rmult_le_compat; lra).
  assert (x * y <= hx * hy) by (apply Rmult_le_compat; lra).
  assert (lx * ly * b <= x * y * b) by (apply Rmult_le_compat_r; lra).
  assert (x * y * b <= hx * hy * b) by (apply Rmult_le_compat_r; lra).
  replace (b * x * y) with (x * y * b) by ring. lra.
Qed.

Lemma demandReal_bounds (h : Host) (v b : R) (i k : nat) :
  unitRandom h -> 0 <= v <= 0.2 -> 0 <= b ->
  0.9 * (1 - v / 2) * b - 0.5 <= demandReal h v b i k
  <= 1.1 * (1 + v / 2) * b + 0.5.
Proof.
  intros Hunit Hv Hb. unfold demandReal.
  pose proof (randomFactor_bounds (Math_random h k) v (Hunit k) (proj1 Hv))
    as Hf.
  pose proof (dayFactor_bounds i) as Hd.
  pose proof (Rround_bounds (b * (1 + sin (INR i / 7) * 0.1)
                             * (1 + (Math_random h k - 0.5) * v))) as Hr.
  pose proof (product_bounds b (1 + sin (INR i / 7) * 0.1)
                (1 + (Math_random h k - 0.5) * v)
                0.9 1.1 (1 - v / 2) (1 + v / 2) Hb) as Hprod.
  assert (Hp : 0.9 * (1 - v / 2) * b
               <= b * (1 + sin (INR i / 7) * 0.1)
                  * (1 + (Math_random h k - 0.5) * v)
               <= 1.1 * (1 + v / 2) * b)
    by (apply Hprod; lra).
  lra.
Qed.

Lemma Rround_nonneg (x : R) : 0 <= x -> 0 <= Rround x.
Proof.
  intros Hx. unfold Rround, Rfloor. apply IZR_le.
  destruct (base_Int_part (x + / 2)) as [_ Hgt].
  assert (H : (-1 < Int_part (x + / 2))%Z) by (apply lt_IZR; lra).
  lia.
Qed.


Lemma baseQuantityOf_rice : baseQuantityOf riceRequest = 100.
Proof.
  unfold baseQuantityOf. cbn.
  destruct (Req_dec_T 100 0) as [H|_]; [lra | reflexivity].
Qed.


Lemma fold_plus_lower (L : R) (l : list R) (a : R) :
  Forall (fun x => L <= x) l ->
  a + L * INR (List.length l) <= fold_left Rplus l a.
Proof.
  intros Hall. revert a.
  induction Hall as [|x l Hx Hall IH]; intros a.
  - cbn. lra.
  - cbn [fold_left List.length]. rewrite S_INR.
    specialize (IH (a + x)). lra.
Qed.

(** The mean of the 30 demand values of a mock forecast, as a real
    number, and a lower bound for it. *)
Lemma mock_average_lower (h : Host) (inputData : Request) (w : World)
  (p v m : R) :
  unitRandom h ->
  cropDataOf (crop inputData) = cropEntry p v m ->
  0 <= v <= 0.2 -> 0.9 <= m ->
  0 <= baseQuantityOf inputData ->
  exists avg,
    ndiv (sum (mockDemands h inputData w)) (lit 30) = Fin avg
    /\ 0.81 * (baseQuantityOf inputData * m - 0.5) - 0.5 <= avg.
Proof.
  intros Hunit Hc Hv Hm Hq.
  rewrite (mockDemands_entry h inputData w p v m Hc), sum_Fin.
  set (b := Rround (baseQuantityOf inputData * m)).
  set (ds := map (fun j => demandReal h v b j (draws w + j)) (seq 0 30)).
  exists (fold_left Rplus ds 0 / 30). split; [reflexivity |].
  assert (Hb : 0 <= b).
  { apply Rround_nonneg. apply Rmult_le_pos; lra. }
  assert (Hb' : baseQuantityOf inputData * m - 0.5 <= b).
  { pose proof (Rround_bounds (baseQuantityOf inputData * m)) as H.
    unfold b. lra. }
  assert (Hall : Forall (fun x => 0.81 * b - 0.5 <= x) ds).
  { apply Forall_map_seq. intros j.
    pose proof (demandReal_bounds h v b j (draws w + j) Hunit Hv Hb) as H.
    assert (0.81 * b <= 0.9 * (1 - v / 2) * b)
      by (apply Rmult_le_compat_r; lra).
    lra. }
  pose proof (fold_plus_lower _ ds 0 Hall) as Hsum.
  assert (Hlen : INR (List.length ds) = 30).
  { unfold ds. rewrite length_map, length_seq. cbn [INR]. lra. }
  rewrite Hlen in Hsum. lra.
Qed.

(** X9.  On the mock path the glut risk is never "high" for a quantity of
    16 kg or more, and it is always "low" when, in addition, the
    crop's demand multiplier is at least 1.1 (Rice, Wheat, Sugarcane,
    Tomato, Potato and every unknown crop): the generated demand
    follows the requested quantity too closely for the thresholds 1.5
    and 1.2 to be reached. *)
Theorem mock_glut_risk_low (h : Host) (inputData : Request)
  (w w' : World) (f : Forecast) :
  unitRandom h ->
  pricedCrop (crop inputData) ->
  16 <= baseQuantityOf inputData ->
  generateMockForecast h inputData w = (Ok f, w') ->
  glutRisk f <> "high"%string
  /\ (forall p v m,
        cropDataOf (crop inputData) = cropEntry p v m -> 1.1 <= m ->
        glutRisk f = "low"%string).
Proof.
  intros Hunit Hcrop Hq E.
  destruct (pricedCrop_entry _ Hcrop) as (p & v & m & Hc & Hp & Hv & Hm).
  destruct (mock_average_lower h inputData w p v m Hunit Hc)
    as (avg & Havg & Hlow); [lra | lra | lra |].
  apply generateMockForecast_shape in E.
  destruct E as (names & w1 & w2 & _ & _ & _ & _ & _ & _ & _ & Hglut & _).
  rewrite Hglut, Havg. unfold classifyGlut, ngt, nmul, lift2, lit.
  assert (Hqm : baseQuantityOf inputData * 0.9 <= baseQuantityOf inputData * m)
    by (apply Rmult_le_compat_l; lra).
  split.
  - destruct (Rgt_dec (baseQuantityOf inputData) (avg * 1.5)) as [H|_];
      [lra |].
    destruct (Rgt_dec (baseQuantityOf inputData) (avg * 1.2));
      discriminate.
  - intros p' v' m' Hc' Hm'.
    assert (m' = m) as ->.
    { rewrite Hc in Hc'. unfold cropEntry in Hc'. congruence. }
    assert (Hqm' : baseQuantityOf inputData * 1.1
                   <= baseQuantityOf inputData * m)
      by (apply Rmult_le_compat_l; lra).
    destruct (Rgt_dec (baseQuantityOf inputData) (avg * 1.5)) as [H|_];
      [lra |].
    destruct (Rgt_dec (baseQuantityOf inputData) (avg * 1.2)) as [H|_];
      [lra | reflexivity].
Qed.

Lemma mock_glut_risk_low_witness :
  exists f w',
    generateMockForecast sampleHost riceRequest startOfWorld = (Ok f, w')
    /\ glutRisk f = "low"%string.
Proof.
  destruct (generateMockForecast_returns sampleHost riceRequest startOfWorld
              _ eq_refl) as (f & w' & E).
  assert (Hq : 16 <= baseQuantityOf riceRequest)
    by (rewrite baseQuantityOf_rice; lra).
  exists f, w'. split; [exact E |].
  apply (proj2 (mock_glut_risk_low sampleHost riceRequest startOfWorld w' f
                  unitRandom_sampleHost pricedCrop_rice Hq E) 25 0.1 1.2).
  - reflexivity.
  - lra.
Defined.

Lemma sum_NaN (n : nat) (a : num) : fold_left nadd (repeat NaN (S n)) a = NaN.
Proof.
  cbn [repeat fold_left]. replace (nadd a NaN) with NaN by (destruct a; reflexivity).
  induction n as [|n IH]; [reflexivity | exact IH].
Qed.

(** X10.  A crop whose name is a built-in of [Object.prototype] (such as
    "toString" or "constructor") is not replaced by Rice: the mock
    generator returns a forecast, marked as a success, in which every
    demand value, every price and the recommended quantity are [NaN],
    and the glut risk is "low". *)
Theorem mock_builtin_crop (h : Host) (inputData : Request)
  (w w' : World) (f : Forecast) :
  tableGet crops (crop inputData) = Inherited ->
  generateMockForecast h inputData w = (Ok f, w') ->
  success f = true
  /\ day30 (demandTrend f) = repeat (VNum NaN) 30
  /\ day30 (priceTrend f) = repeat (VNum NaN) 30
  /\ recommendedQuantity f = VNum NaN
  /\ glutRisk f = "low"%string.
Proof.
  intros Hcrop E.
  apply generateMockForecast_shape in E.
  destruct E as (names & w1 & w2 & _ & Hd30 & Hp30 & _ & _ & Hsuccess & _
                 & Hglut & Hrec & _).
  assert (Hc : cropDataOf (crop inputData) = builtinAsCrop)
    by (unfold cropDataOf; rewrite Hcrop; reflexivity).
  assert (Hd : mockDemands h inputData w = repeat NaN 30).
  { unfold mockDemands, baseDemandOf. rewrite Hc. reflexivity. }
  assert (Hp : mockPrices h inputData w = repeat NaN 30).
  { unfold mockPrices. rewrite Hc. reflexivity. }
  rewrite Hd30, Hp30, Hrec, Hglut, Hd, Hp.
  unfold sum. rewrite sum_NaN.
  split; [exact Hsuccess |]. repeat split; reflexivity.
Qed.

Lemma mock_builtin_crop_witness :
  exists f w',
    generateMockForecast sampleHost toStringCropRequest startOfWorld
    = (Ok f, w')
    /\ recommendedQuantity f = VNum NaN.
Proof.
  destruct (generateMockForecast_returns sampleHost toStringCropRequest
              startOfWorld _ eq_refl) as (f & w' & E).
  exists f, w'. split; [exact E |].
  apply (mock_builtin_crop sampleHost toStringCropRequest startOfWorld w' f);
    [reflexivity | exact E].
Defined.

End MockBounds.

(** ** The boundary of the glut classification *)

Module GlutBoundary.
Import Js Effects GeminiAIService Spec Vocabulary EffectsFacts.
Import MockFacts MockSeries MockBounds.
Local Open Scope R_scope.
Local Open Scope list_scope.















End GlutBoundary.

(** ** The prices of a heatmap *)

Module HeatmapBounds.
Import Js Effects GeminiAIService Spec Vocabulary EffectsFacts.
Import HeatmapFacts HeatmapRange.
Local Open Scope R_scope.
Local Open Scope list_scope.

(** In binary64 the price reaches 40: for the largest double below 1
    the product is rounded to [15 - 2^-49] and the sum to 40. *)
Lemma market_price_reaches_40 :
  Double.marketPrice Double.belowOne = Double.ofZ 40
  /\ Double.gt (Double.ofZ 1) Double.belowOne = true.
Proof. split; vm_compute; reflexivity. Qed.

(** X12.  A heatmap has one record per name, in the order of the names, each
    with demand "high" and a price of at least 25 and at most 40 (the
    real number [25 + r * 15] is below 40, and the double nearest to it
    can be 40 itself); building it reads no clock and draws between one
    and three random numbers per name. *)
Theorem heatmap_price_range (h : Host) (names : list value)
  (w w' : World) (records : list MarketRecord) :
  unitRandom h ->
  generateMarketHeatmap h names w = (Ok records, w') ->
  map name records = names
  /\ Forall (fun r => demand r = "high"%string
                      /\ exists p, price r = Fin p /\ 25 <= p <= 40) records
  /\ clockReads w' = clockReads w
  /\ (draws w + List.length names <= draws w'
      <= draws w + 3 * List.length names)%nat.
Proof.
  intros Hunit E. apply generateMarketHeatmap_inv in E.
  destruct E as (Hnames & Hdemand & Hprices & Hclock & Hlo & Hhi).
  split; [exact Hnames |]. split; [| split; [exact Hclock | lia]].
  apply Forall_forall. intros r Hr.
  rewrite Forall_forall in Hdemand, Hprices.
  split; [exact (Hdemand r Hr) |].
  destruct (pricedBy_range h w w' r Hunit (Hprices r Hr)) as (p & Hp & Hrange).
  exists p. split; [exact Hp | lra].
Qed.

Lemma heatmap_price_range_witness :
  exists records w',
    generateMarketHeatmap sampleHost [VStr "KR Market"; VStr "Hassan Market"]
      startOfWorld = (Ok records, w')
    /\ map name records = [VStr "KR Market"; VStr "Hassan Market"]
    /\ (2 <= draws w' <= 6)%nat.
Proof.
  destruct (generateMarketHeatmap_shape sampleHost
              [VStr "KR Market"; VStr "Hassan Market"] startOfWorld eq_refl)
    as (records & w' & E & _).
  exists records, w'. split; [exact E |].
  destruct (heatmap_price_range sampleHost _ startOfWorld w' records
              MockBounds.unitRandom_sampleHost E) as (Hn & _ & _ & Hd).
  split; [exact Hn | exact Hd].
Defined.

End HeatmapBounds.

(** ** The arithmetic of the simulation *)

Module SimulationFacts.
Import Js Effects GeminiAIService Spec Simulation Vocabulary EffectsFacts.
Local Open Scope R_scope.
Local Open Scope list_scope.

Section Arithmetic.
Variable StringToNumber : string -> num.
Variable h : Host.

Lemma add_numbers (a b : R) :
  add StringToNumber h (VNum (Fin a)) (VNum (Fin b)) = Ok (VNum (Fin (a + b))).
Proof. reflexivity. Qed.

Lemma total_from (series : list R) (a : R) :
  reduce (add StringToNumber h) (numbers series) (VNum (Fin a))
  = Ok (VNum (Fin (fold_left Rplus series a))).
Proof.
  revert a. induction series as [|x series IH]; intros a; [reflexivity |].
  cbn [numbers map reduce]. rewrite add_numbers. exact (IH (a + x)).
Qed.

Lemma total_numbers (series : list R) :
  total StringToNumber h (numbers series)
  = Ok (VNum (Fin (fold_left Rplus series 0))).
Proof. exact (total_from series 0). Qed.

Lemma squares_from (series : list R) (m a : R) :
  reduce (addSquare StringToNumber h (Fin m)) (numbers series) (Fin a)
  = Ok (Fin (fold_left (fun a b => a + (b - m) ^ 2) series a)).
Proof.
  revert a. induction series as [|x series IH]; intros a; [reflexivity |].
  cbn [numbers map reduce fold_left]. unfold addSquare at 1.
  cbn [ToNumber ToPrimitive]. cbv zeta. cbn [nsub nmul nadd lift2].
  replace (a + (x - m) * (x - m)) with (a + (x - m) ^ 2) by ring.
  exact (IH (a + (x - m) ^ 2)).
Qed.

End Arithmetic.

Lemma squares_nonneg (series : list R) (m a : R) :
  0 <= a -> 0 <= fold_left (fun a b => a + (b - m) ^ 2) series a.
Proof.
  revert a. induction series as [|x series IH]; intros a Ha; [exact Ha |].
  cbn [fold_left]. apply IH. pose proof (pow2_ge_0 (x - m)). lra.
Qed.

Lemma INR_length_pos {A : Type} (l : list A) : l <> [] -> 0 < INR (List.length l).
Proof.
  destruct l as [|x l]; [congruence |]. intros _.
  cbn [List.length]. rewrite S_INR. pose proof (pos_INR (List.length l)). lra.
Qed.

(** On a non-empty series of finite numbers whose mean is not zero
    the function on values is the function on real numbers. *)
Lemma calculateVolatilityOf_reals (StringToNumber : string -> num)
  (h : Host) (series : list R) :
  series <> [] ->
  mean series <> 0 ->
  calculateVolatilityOf StringToNumber h (numbers series)
  = Ok (calculateVolatility series).
Proof.
  intros Hne Hmean. unfold calculateVolatilityOf.
  rewrite total_numbers. cbn [ToNumber ToPrimitive]. cbv zeta.
  assert (Hlen : List.length (numbers series) = List.length series)
    by apply length_map.
  rewrite Hlen.
  destruct (List.length series) as [|n] eqn:En.
  { destruct series; [congruence | discriminate En]. }
  unfold overLength at 1.
  change (ndiv (Fin (fold_left Rplus series 0)) (ofNat (S n)))
    with (Fin (fold_left Rplus series 0 / INR (S n))).
  rewrite squares_from. unfold overLength.
  change (ndiv (Fin ?x) (ofNat (S n))) with (Fin (x / INR (S n))).
  unfold calculateVolatility. rewrite En.
  unfold mean in Hmean. rewrite En in Hmean.
  set (m := fold_left Rplus series 0 / INR (S n)) in *.
  set (variance := fold_left (fun a b => a + (b - m) ^ 2) series 0
                   / INR (S n)).
  assert (Hvar : 0 <= variance).
  { unfold variance. apply Rmult_le_pos.
    - apply squares_nonneg. lra.
    - apply Rlt_le, Rinv_0_lt_compat. rewrite <- En.
      apply INR_length_pos. exact Hne. }
  unfold Math_sqrt. destruct (Rlt_dec variance 0) as [Hneg|_]; [lra |].
  unfold ratioExceeds.
  destruct (Req_dec_T m 0) as [Hz|_]; [contradiction |].
  cbv zeta.
  destruct (Rgt_dec (sqrt variance / m) 0.15); [reflexivity |].
  destruct (Rgt_dec (sqrt variance / m) 0.08); reflexivity.
Qed.

(** With a mean of zero the source divides by zero: the quotient is
    [Infinity], and the bucket "high", as soon as the prices differ,
    and [NaN], and the bucket "low", when all prices are zero. *)
Lemma calculateVolatilityOf_zero_mean (StringToNumber : string -> num)
  (h : Host) (series : list R) :
  series <> [] ->
  mean series = 0 ->
  calculateVolatilityOf StringToNumber h (numbers series)
  = Ok (if Rgt_dec (stdDev series) 0 then "high" else "low")%string.
Proof.
  intros Hne Hmean. unfold calculateVolatilityOf.
  rewrite total_numbers. cbn [ToNumber ToPrimitive]. cbv zeta.
  assert (Hlen : List.length (numbers series) = List.length series)
    by apply length_map.
  rewrite Hlen.
  destruct (List.length series) as [|n] eqn:En.
  { destruct series; [congruence | discriminate En]. }
  unfold overLength at 1.
  change (ndiv (Fin (fold_left Rplus series 0)) (ofNat (S n)))
    with (Fin (fold_left Rplus series 0 / INR (S n))).
  rewrite squares_from. unfold overLength.
  change (ndiv (Fin ?x) (ofNat (S n))) with (Fin (x / INR (S n))).
  unfold stdDev. rewrite En.
  unfold mean in Hmean |- *. rewrite En in Hmean |- *.
  set (m := fold_left Rplus series 0 / INR (S n)) in *.
  set (variance := fold_left (fun a b => a + (b - m) ^ 2) series 0
                   / INR (S n)).
  assert (Hvar : 0 <= variance).
  { unfold variance. apply Rmult_le_pos.
    - apply squares_nonneg. lra.
    - apply Rlt_le, Rinv_0_lt_compat. rewrite <- En.
      apply INR_length_pos. exact Hne. }
  unfold Math_sqrt. destruct (Rlt_dec variance 0) as [Hneg|_]; [lra |].
  unfold ratioExceeds.
  destruct (Req_dec_T m 0) as [_|Hnz]; [| contradiction].
  destruct (Rgt_dec (sqrt variance) 0); reflexivity.
Qed.

Lemma calculateVolatility_level (series : list R) :
  riskLevel (calculateVolatility series).
Proof.
  unfold calculateVolatility, riskLevel.
  destruct (Rgt_dec _ 0.15); [auto |]. destruct (Rgt_dec _ 0.08); auto.
Qed.

Lemma mean_opposite (a : R) : mean [a; - a] = 0.
Proof. unfold mean. cbn [fold_left List.length INR]. lra. Qed.

Lemma stdDev_opposite (a : R) : a <> 0 -> stdDev [a; - a] > 0.
Proof.
  intros Ha. unfold stdDev. rewrite mean_opposite.
  cbn [fold_left List.length INR].
  apply sqrt_lt_R0.
  assert (0 < a * a) by nra. lra.
Qed.

(** X15.  [calculateVolatility] on an array of finite numbers never throws
    and answers "low", "medium" or "high".  The divisions by zero do
    not throw either: an empty array and an array of zeros give "low"
    (the quotient is [NaN], and no comparison with [NaN] holds), and
    two opposite prices give "high" (their mean is zero and the
    quotient [Infinity]). *)
Theorem volatility_on_numbers (StringToNumber : string -> num)
  (h : Host) (series : list R) :
  (exists bucket,
      calculateVolatilityOf StringToNumber h (numbers series) = Ok bucket
      /\ riskLevel bucket)
  /\ calculateVolatilityOf StringToNumber h (numbers []) = Ok "low"%string
  /\ (forall n,
        calculateVolatilityOf StringToNumber h (numbers (repeat 0 n))
        = Ok "low"%string)
  /\ (forall a,
        1 <= Rabs a ->
        calculateVolatilityOf StringToNumber h (numbers [a; - a])
        = Ok "high"%string).
Proof.
  split; [| split; [reflexivity | split]].
  - destruct series as [|x series]; [exists "low"%string; split;
      [reflexivity | unfold riskLevel; auto] |].
    destruct (Req_dec_T (mean (x :: series)) 0) as [Hz | Hnz].
    + rewrite calculateVolatilityOf_zero_mean by (discriminate || exact Hz).
      eexists. split; [reflexivity |].
      unfold riskLevel. destruct (Rgt_dec _ 0); auto.
    + rewrite calculateVolatilityOf_reals by (discriminate || exact Hnz).
      eexists. split; [reflexivity | apply calculateVolatility_level].
  - intros [|n]; [reflexivity |].
    rewrite calculateVolatilityOf_zero_mean.
    + rewrite VolatilityClaims.stdDev_repeat by lia.
      destruct (Rgt_dec 0 0) as [H|_]; [lra | reflexivity].
    + discriminate.
    + apply VolatilityClaims.mean_repeat. lia.
  - intros a Ha.
    assert (Hnz : a <> 0).
    { intros ->. rewrite Rabs_R0 in Ha. lra. }
    rewrite calculateVolatilityOf_zero_mean;
      [| discriminate | apply mean_opposite].
    destruct (Rgt_dec (stdDev [a; - a]) 0) as [_|n]; [reflexivity |].
    contradiction n. apply stdDev_opposite. exact Hnz.
Qed.

Lemma volatility_on_numbers_witness :
  calculateVolatilityOf (fun _ => NaN) sampleHost (numbers [20; - 20])
  = Ok "high"%string.
Proof.
  apply (proj2 (proj2 (proj2 (volatility_on_numbers (fun _ => NaN)
                                sampleHost [])))).
  rewrite Rabs_pos_eq; lra.
Defined.

End SimulationFacts.

(** ** Prices in a band *)

Module VolatilityBounds.
Import Js Effects GeminiAIService Spec Simulation Vocabulary EffectsFacts.
Import SimulationFacts.
Local Open Scope R_scope.
Local Open Scope list_scope.




Lemma fold_plus_sumOf (series : list R) :
  fold_left Rplus series 0 = sumOf (fun b => b) series.
Proof. reflexivity. Qed.









End VolatilityBounds.

(** ** The predictions of a simulation *)

Module SimulationProperties.
Import Js Effects GeminiAIService Spec Simulation Vocabulary EffectsFacts.
Import HeatmapFacts MockFacts MockSeries MockBounds SimulationFacts.
Import VolatilityBounds.
Local Open Scope R_scope.
Local Open Scope list_scope.

Lemma Rround_IZR (k : Z) : Rround (IZR k) = IZR k.
Proof.
  destruct (MockClaims.Rround_nearest (IZR k)) as (z & -> & Hz).
  f_equal.
  assert (z - 1 < k)%Z by (apply lt_IZR; rewrite minus_IZR; lra).
  assert (k < z + 1)%Z by (apply lt_IZR; rewrite plus_IZR; lra).
  lia.
Qed.

Lemma quantityOr_given (inputData : Request) (f : Forecast) (q : R) :
  quantity inputData = Some q -> q <> 0 ->
  quantityOr inputData f = VNum (Fin q).
Proof.
  intros Hq Hnz. unfold quantityOr. rewrite Hq.
  destruct (Req_dec_T q 0); [contradiction | reflexivity].
Qed.

Lemma calculateRevenue_numbers (StringToNumber : string -> num) (h : Host)
  (f : Forecast) (inputData : Request) (series : list R) (q : R) :
  day30 (priceTrend f) = numbers series ->
  quantityOr inputData f = VNum (Fin q) ->
  calculateRevenue StringToNumber h f inputData
  = Ok (Fin (Rround (fold_left Rplus series 0 / 30 * q))).
Proof.
  intros Hprices Hq. unfold calculateRevenue.
  rewrite Hprices, total_numbers, Hq. reflexivity.
Qed.

Lemma calculateProfit_numbers (StringToNumber : string -> num) (h : Host)
  (f : Forecast) (inputData : Request) (series : list R) (q : R) :
  day30 (priceTrend f) = numbers series ->
  quantityOr inputData f = VNum (Fin q) ->
  calculateProfit StringToNumber h f inputData
  = Ok (Fin (Rround (Rround (fold_left Rplus series 0 / 30 * q) - q * 10))).
Proof.
  intros Hprices Hq. unfold calculateProfit.
  rewrite (calculateRevenue_numbers StringToNumber h f inputData series q
             Hprices Hq), Hq.
  reflexivity.
Qed.

Lemma Rround_whole (x : R) :
  exists z : Z, Rround x = IZR z /\ Rabs (IZR z - x) <= / 2.
Proof.
  destruct (MockClaims.Rround_nearest x) as (z & Hz & Hnear).
  exists z. split; [exact Hz |]. apply Rabs_le. lra.
Qed.

Lemma roundedFrom_Rround (x : R) (z : Z) :
  Rround x = IZR z -> roundedFrom x z.
Proof.
  intros Hz. unfold roundedFrom, tolerance.
  destruct (Rround_whole x) as (k & Hk & Hnear).
  assert (k = z) as -> by (apply eq_IZR; congruence).
  pose proof (Rabs_pos x). lra.
Qed.

(** The two predictions are whole numbers, each within a half of what
    it rounds. *)
Lemma predictions_rounded (StringToNumber : string -> num) (h : Host)
  (f : Forecast) (inputData : Request) (series : list R) (q : R) :
  day30 (priceTrend f) = numbers series ->
  quantityOr inputData f = VNum (Fin q) ->
  exists revenue profit : Z,
    calculateRevenue StringToNumber h f inputData = Ok (Fin (IZR revenue))
    /\ calculateProfit StringToNumber h f inputData = Ok (Fin (IZR profit))
    /\ Rround (fold_left Rplus series 0 / 30 * q) = IZR revenue
    /\ Rround (IZR revenue - q * 10) = IZR profit
    /\ roundedFrom (fold_left Rplus series 0 / 30 * q) revenue
    /\ Rabs (IZR profit - (IZR revenue - q * 10))
       <= / 2 + tolerance * (Rabs (IZR revenue) + Rabs (q * 10)).
Proof.
  intros Hprices Hqv.
  destruct (Rround_whole (fold_left Rplus series 0 / 30 * q))
    as (revenue & Hrevenue & _).
  destruct (Rround_whole (IZR revenue - q * 10))
    as (profit & Hprofit & Hnear).
  exists revenue, profit.
  split.
  { rewrite (calculateRevenue_numbers _ h f inputData series q Hprices Hqv).
    rewrite Hrevenue. reflexivity. }
  split.
  { rewrite (calculateProfit_numbers _ h f inputData series q Hprices Hqv).
    rewrite Hrevenue, Hprofit. reflexivity. }
  split; [exact Hrevenue |]. split; [exact Hprofit |].
  split; [exact (roundedFrom_Rround _ _ Hrevenue) |].
  unfold tolerance.
  pose proof (Rabs_pos (IZR revenue)). pose proof (Rabs_pos (q * 10)).
  lra.
Qed.

(** The rounding of the doubles can decide a revenue that lies halfway
    between two whole numbers: for thirty prices of 25.05 and 10 kg
    the revenue is 250.5 before rounding, and 251 after it, over the
    real numbers; the doubles add up to 751.4999999999998 instead of
    751.5, and the code returns 250. *)
Lemma revenue_in_doubles :
  Rround (fold_left Rplus (repeat 25.05 30) 0 / 30 * 10) = 251
  /\ Double.calculateRevenue (repeat (Double.decimal 2505 2) 30)
       (Double.ofZ 10)
     = Double.ofZ 250.
Proof.
  split; [| vm_compute; reflexivity].
  rewrite VolatilityClaims.sum_repeat.
  replace (INR 30) with 30 by (cbn [INR]; lra).
  replace (30 * 25.05 / 30 * 10) with (IZR 251 - / 2) by lra.
  destruct (MockClaims.Rround_nearest (IZR 251 - / 2)) as (z & -> & Hz).
  f_equal.
  assert (z - 1 < 251)%Z by (apply lt_IZR; rewrite minus_IZR; lra).
  assert (250 < z)%Z by (apply lt_IZR; lra).
  lia.
Qed.

(** X17.  For a forecast with prices of an ordinary size and a requested
    quantity [q] other than zero, the revenue and the profit are whole
    numbers: the revenue is the sum of the prices divided by 30, times
    [q], and the profit the revenue less [10 q], each up to the
    rounding to a whole number (and to the rounding of the doubles
    before it, a part in [10^9]).  The divisor is 30 whatever the
    number of prices, so the revenue follows [mean * q] only for a
    series of 30 days; and the profit is exactly the revenue less
    [10 q] when [10 q] is a whole number. *)
Theorem revenue_and_profit (StringToNumber : string -> num) (h : Host)
  (f : Forecast) (inputData : Request) (series : list R) (q : R) :
  day30 (priceTrend f) = numbers series ->
  quantity inputData = Some q ->
  q <> 0 ->
  ordinarySeries series ->
  ordinaryQuantity q ->
  exists revenue profit : Z,
    calculateRevenue StringToNumber h f inputData = Ok (Fin (IZR revenue))
    /\ calculateProfit StringToNumber h f inputData = Ok (Fin (IZR profit))
    /\ roundedFrom (fold_left Rplus series 0 / 30 * q) revenue
    /\ Rabs (IZR profit - (IZR revenue - q * 10))
       <= / 2 + tolerance * (Rabs (IZR revenue) + Rabs (q * 10))
    /\ (List.length series = 30%nat ->
        roundedFrom (mean series * q) revenue)
    /\ (forall z : Z, q * 10 = IZR z -> profit = (revenue - z)%Z).
Proof.
  intros Hprices Hq Hnz _ _.
  pose proof (quantityOr_given inputData f q Hq Hnz) as Hqv.
  destruct (predictions_rounded StringToNumber h f inputData series q
              Hprices Hqv)
    as (revenue & profit & Hrev & Hpro & Hrevenue & Hprofit & Hnear & Hnear').
  exists revenue, profit.
  split; [exact Hrev |]. split; [exact Hpro |].
  split; [exact Hnear |]. split; [exact Hnear' |].
  split.
  - intros Hlen. apply roundedFrom_Rround. rewrite <- Hrevenue.
    unfold mean. rewrite Hlen.
    replace (INR 30) with 30 by (cbn [INR]; lra). reflexivity.
  - intros z Hz. apply eq_IZR.
    rewrite <- Hprofit, Hz, <- minus_IZR. apply Rround_IZR.
Qed.

Lemma mock_prices_numbers (h : Host) (inputData : Request) (w w' : World)
  (f : Forecast) (p v m : R) :
  cropDataOf (crop inputData) = cropEntry p v m ->
  generateMockForecast h inputData w = (Ok f, w') ->
  day30 (priceTrend f)
  = numbers (map (fun j => priceReal h p v (draws w + j)) (seq 0 30)).
Proof.
  intros Hc E. apply generateMockForecast_shape in E.
  destruct E as (names & w1 & w2 & _ & _ & Hp30 & _).
  rewrite Hp30, (mockPrices_entry h inputData w p v m Hc).
  unfold numbers. rewrite !map_map. reflexivity.
Qed.

Lemma revenue_and_profit_witness :
  exists f w' revenue,
    generateMockForecast sampleHost riceRequest startOfWorld = (Ok f, w')
    /\ calculateRevenue (fun _ => NaN) sampleHost f riceRequest
       = Ok (Fin revenue).
Proof.
  destruct (generateMockForecast_returns sampleHost riceRequest startOfWorld
              _ eq_refl) as (f & w' & E).
  pose proof (mock_prices_numbers sampleHost riceRequest startOfWorld w' f
                25 0.1 1.2 eq_refl E) as Hprices.
  assert (Hnz : 100 <> 0) by lra.
  assert (Hseries : ordinarySeries
                      (map (fun j => priceReal sampleHost 25 0.1
                                       (draws startOfWorld + j))
                           (seq 0 30))).
  { split; [rewrite length_map, length_seq; lia |].
    apply Forall_map_seq. intros j.
    pose proof (priceReal_bounds sampleHost 25 0.1 (draws startOfWorld + j)
                  unitRandom_sampleHost) as H.
    unfold ordinaryPrice. lra. }
  assert (Hquantity : ordinaryQuantity 100).
  { unfold ordinaryQuantity. rewrite Rabs_pos_eq; lra. }
  destruct (revenue_and_profit (fun _ => NaN) sampleHost f riceRequest _ 100
              Hprices eq_refl Hnz Hseries Hquantity)
    as (revenue & _ & Hrev & _).
  exists f, w', (IZR revenue). split; [exact E | exact Hrev].
Defined.







(** A simulation does not catch what the forecast throws. *)
Lemma generateSimulation_throws (StringToNumber : string -> num) (h : Host)
  (isAvailable : bool) (ai : AiOutcome) (inputData : SimulationRequest)
  (w w' : World) (e : exn) :
  generateForecast h isAvailable ai (request inputData) w = (Throw e, w') ->
  generateSimulation StringToNumber h isAvailable ai inputData w
  = (Throw e, w').
Proof.
  intros E. unfold generateSimulation.
  rewrite (bind_throw _ _ _ _ _ E). reflexivity.
Qed.

Lemma nadd_NaN_r (n : num) : nadd n NaN = NaN.
Proof. destruct n; reflexivity. Qed.

Lemma nsub_NaN_r (n : num) : nsub n NaN = NaN.
Proof. destruct n; reflexivity. Qed.

Lemma add_number_or_missing (StringToNumber : string -> num) (h : Host)
  (a : num) (v : value) :
  numberOrMissing v ->
  exists n,
    add StringToNumber h (VNum a) v = Ok (VNum n)
    /\ (a = NaN \/ v = VUndef -> n = NaN).
Proof.
  intros [-> | (b & ->)].
  - exists NaN. split; [cbn; rewrite nadd_NaN_r; reflexivity | auto].
  - exists (nadd a b). split; [reflexivity |].
    intros [-> | H]; [reflexivity | discriminate H].
Qed.

Lemma total_with_NaN (StringToNumber : string -> num) (h : Host)
  (prices : list value) :
  Forall numberOrMissing prices ->
  reduce (add StringToNumber h) prices (VNum NaN) = Ok (VNum NaN).
Proof.
  induction 1 as [|v prices Hv Hall IH]; [reflexivity |].
  cbn [reduce].
  destruct (add_number_or_missing StringToNumber h NaN v Hv) as (n & -> & Hn).
  rewrite Hn by (left; reflexivity). exact IH.
Qed.

Lemma total_with_missing (StringToNumber : string -> num) (h : Host)
  (prices : list value) :
  Forall numberOrMissing prices ->
  In VUndef prices ->
  forall a, reduce (add StringToNumber h) prices (VNum a) = Ok (VNum NaN).
Proof.
  induction 1 as [|v prices Hv Hall IH]; intros Hin a; [contradiction Hin |].
  cbn [reduce].
  destruct (add_number_or_missing StringToNumber h a v Hv) as (n & -> & Hn).
  destruct Hin as [-> | Hin].
  - rewrite Hn by (right; reflexivity).
    apply total_with_NaN. exact Hall.
  - apply IH. exact Hin.
Qed.

Lemma addSquare_NaN (StringToNumber : string -> num) (h : Host)
  (b : value) (a : num) :
  numberOrMissing b -> addSquare StringToNumber h NaN a b = Ok NaN.
Proof.
  unfold addSquare.
  intros [-> | (n & ->)]; cbn [ToNumber ToPrimitive]; cbv zeta;
    rewrite nsub_NaN_r; cbn [nmul lift2]; rewrite nadd_NaN_r; reflexivity.
Qed.

Lemma squares_from_NaN (StringToNumber : string -> num) (h : Host)
  (prices : list value) :
  Forall numberOrMissing prices ->
  reduce (addSquare StringToNumber h NaN) prices NaN = Ok NaN.
Proof.
  induction 1 as [|b rest Hb Hrest IH]; [reflexivity |].
  cbn [reduce]. rewrite (addSquare_NaN StringToNumber h b NaN Hb).
  exact IH.
Qed.

Lemma squares_with_NaN (StringToNumber : string -> num) (h : Host)
  (prices : list value) (v : value) :
  Forall numberOrMissing (v :: prices) ->
  forall a,
    reduce (addSquare StringToNumber h NaN) (v :: prices) a = Ok NaN.
Proof.
  intros Hall a.
  assert (Hv : numberOrMissing v) by (apply (Forall_inv Hall)).
  assert (Hrest : Forall numberOrMissing prices)
    by (apply (Forall_inv_tail Hall)).
  cbn [reduce]. rewrite (addSquare_NaN StringToNumber h v a Hv).
  apply squares_from_NaN. exact Hrest.
Qed.

(** X18.  A price that the reply left out spoils the predictions without
    any error: when the prices of a forecast are numbers except that
    some are missing, the revenue and the profit are [NaN] and the
    market volatility is reported as "low". *)
Theorem missing_price_predictions (StringToNumber : string -> num)
  (h : Host) (f : Forecast) (inputData : Request) (q : R) :
  Forall numberOrMissing (day30 (priceTrend f)) ->
  In VUndef (day30 (priceTrend f)) ->
  quantity inputData = Some q ->
  q <> 0 ->
  calculateRevenue StringToNumber h f inputData = Ok NaN
  /\ calculateProfit StringToNumber h f inputData = Ok NaN
  /\ exists risk,
       assessRisk StringToNumber h f inputData = Ok risk
       /\ marketVolatility risk = "low"%string.
Proof.
  intros Hall Hin Hq Hnz.
  pose proof (total_with_missing StringToNumber h _ Hall Hin (lit 0)) as Htotal.
  pose proof (quantityOr_given inputData f q Hq Hnz) as Hqv.
  assert (Hrev : calculateRevenue StringToNumber h f inputData = Ok NaN).
  { unfold calculateRevenue, total. rewrite Htotal, Hqv. reflexivity. }
  split; [exact Hrev |]. split.
  - unfold calculateProfit. rewrite Hrev, Hqv. reflexivity.
  - eexists. split.
    + unfold assessRisk, calculateVolatilityOf, total. rewrite Htotal.
      cbn [ToNumber ToPrimitive].
      destruct (day30 (priceTrend f)) as [|v prices] eqn:Hp;
        [contradiction Hin |].
      cbn [List.length overLength ndiv lift2].
      rewrite (squares_with_NaN StringToNumber h prices v Hall).
      reflexivity.
    + reflexivity.
Qed.

Lemma pricelessReply_followsSchema :
  followsSchema pricelessReply
    [ trendItem 1 120 25;
      VObj [("date", VNum (Fin 2)); ("expected_demand_kg", VNum (Fin 118))] ]
    [VStr "KR Market"; VStr "Mysore Market"].
Proof.
  unfold followsSchema. repeat split; try reflexivity.
  - eexists. reflexivity.
  - eexists. eexists. eexists. repeat split; reflexivity.
Qed.

Lemma missing_price_predictions_witness :
  exists f w',
    formatForecastResponse sampleHost pricelessReply riceRequest startOfWorld
    = (Ok f, w')
    /\ calculateRevenue (fun _ => NaN) sampleHost f riceRequest = Ok NaN.
Proof.
  destruct (ReshapeClaims.formatForecastResponse_returns sampleHost
              pricelessReply riceRequest startOfWorld _ _
              pricelessReply_followsSchema)
    as (f & w' & E & _ & Hp & _).
  exists f, w'. split; [exact E |].
  assert (Hprices : day30 (priceTrend f) = [VNum (Fin 25); VUndef])
    by (rewrite Hp; reflexivity).
  assert (Hall : Forall numberOrMissing (day30 (priceTrend f))).
  { rewrite Hprices. constructor; [right; eexists; reflexivity |].
    constructor; [left; reflexivity | constructor]. }
  assert (Hin : In VUndef (day30 (priceTrend f)))
    by (rewrite Hprices; right; left; reflexivity).
  assert (Hnz : 100 <> 0) by lra.
  exact (proj1 (missing_price_predictions (fun _ => NaN) sampleHost f
                  riceRequest 100 Hall Hin eq_refl Hnz)).
Defined.

End SimulationProperties.

(** ** The mock generator of the routes *)

Module RouteMock.
Import Js Effects GeminiAIService Spec Simulation Vocabulary EffectsFacts.
Local Open Scope R_scope.
Local Open Scope list_scope.

Lemma tryCatch_ok {A : Type} (c : M A) (handler : exn -> M A) (w w1 : World)
  (a : A) :
  c w = (Ok a, w1) -> tryCatch c handler w = (Ok a, w1).
Proof. intros E. unfold tryCatch. rewrite E. reflexivity. Qed.

Lemma tryCatch_throw {A : Type} (c : M A) (handler : exn -> M A)
  (w w1 : World) (e : exn) :
  c w = (Throw e, w1) -> tryCatch c handler w = handler e w1.
Proof. intros E. unfold tryCatch. rewrite E. reflexivity. Qed.

Lemma lifted_ok {A B : Type} (r : result A) (a : A) (k : A -> M B)
  (w : World) :
  r = Ok a -> bind (liftResult r) k w = k a w.
Proof. intros ->. reflexivity. Qed.

Lemma lifted_throw {A B : Type} (r : result A) (e : exn) (k : A -> M B)
  (w : World) :
  r = Throw e -> bind (liftResult r) k w = (Throw e, w).
Proof. intros ->. reflexivity. Qed.

(** [Array.from] with a function that draws once per element: element
    [j] is made from the [j]-th random number, counted from where the
    array was started. *)
Lemma arrayFrom_draws {A : Type} (h : Host) (g : nat -> num -> A) (n : nat) :
  forall (i : nat) (w : World),
    Routes.arrayFrom n i (fun k => bind (random h) (fun r => ret (g k r))) w
    = (Ok (map (fun j => g (i + j)%nat (Fin (Math_random h (draws w + j))))
               (seq 0 n)),
       {| draws := draws w + n; clockReads := clockReads w |}).
Proof.
  induction n as [|n IH]; intros i w.
  - cbn. rewrite Nat.add_0_r. destruct w; reflexivity.
  - cbn [Routes.arrayFrom].
    erewrite bind_ok by reflexivity. cbv beta.
    rewrite (bind_ok _ _ _ _ _ (IH (S i) _)). cbv beta.
    unfold ret. cbn [draws clockReads seq map].
    rewrite <- seq_shift, map_map, !Nat.add_0_r.
    f_equal; [f_equal; f_equal |].
    + apply map_ext. intros j. f_equal; [lia | do 2 f_equal; lia].
    + f_equal. lia.
Qed.

Lemma generateDays_value (h : Host) (n : nat) (slope : R) (base : num)
  (variance : R) (w : World) :
  Routes.generateDays h n slope base variance w
  = (Ok (routeDays h n slope base variance (draws w)),
     {| draws := draws w + n; clockReads := clockReads w |}).
Proof.
  unfold Routes.generateDays.
  rewrite (arrayFrom_draws h
             (fun i r =>
                Math_round
                  (nadd (nadd base (nmul (nsub r (lit 0.5)) (lit variance)))
                        (nmul (ofNat i) (lit slope)))) n 0 w).
  reflexivity.
Qed.

Lemma routeDays_length (h : Host) (n : nat) (slope : R) (base : num)
  (variance : R) (start : nat) :
  List.length (routeDays h n slope base variance start) = n.
Proof. unfold routeDays. rewrite length_map. apply length_seq. Qed.

(** The mock generator of the routes returns when its four arguments
    convert to strings; what it returns. *)
Lemma generateMockForecast_value (h : Host)
  (crop district season quantity : value)
  (cropText districtText seasonText quantityText : string) (w : World) :
  ToString h crop = Ok cropText ->
  ToString h district = Ok districtText ->
  ToString h season = Ok seasonText ->
  ToString h quantity = Ok quantityText ->
  exists m w',
    Routes.generateMockForecast h crop district season quantity w
    = (Ok m, w')
    /\ draws w' = (draws w + 106)%nat
    /\ clockReads w' = S (clockReads w)
    /\ (let demandBase := Fin (Math_random h (S (draws w)) * 50 + 50) in
        Routes.rf_demandTrend m
        = {| day7 := routeDays h 7 2 demandBase 8 (draws w + 3);
             day14 := routeDays h 14 1.5 demandBase 12 (draws w + 10);
             day30 := routeDays h 30 1 demandBase 15 (draws w + 24) |})
    /\ (let basePrice := Fin (Math_random h (draws w) * 30 + 15) in
        Routes.rf_priceTrend m
        = {| day7 := routeDays h 7 2 basePrice 3 (draws w + 54);
             day14 := routeDays h 14 1.5 basePrice 5 (draws w + 61);
             day30 := routeDays h 30 1 basePrice 7 (draws w + 75) |})
    /\ Routes.rf_glutRisk m
       = Routes.elementAt Routes.glutRisks
           (Rfloor (Math_random h (draws w + 2) * 3))
    /\ Routes.competitionLevel (Routes.rf_marketAnalysis m)
       = (if Routes.riskIs (Routes.rf_glutRisk m) "high" then "high"
          else if Routes.riskIs (Routes.rf_glutRisk m) "medium"
               then "medium" else "low")%string
    /\ Routes.rf_markets m = Routes.sampleMarketsOf districtText
    /\ Routes.rm_source (Routes.rf_metadata m) = "mock-data"%string
    /\ Routes.rm_quantity (Routes.rf_metadata m) = quantity.
Proof.
  intros Hc Hd Hs Hq.
  unfold Routes.generateMockForecast, Routes.generate7Day,
    Routes.generate14Day, Routes.generate30Day.
  erewrite bind_ok by reflexivity. cbv beta.
  erewrite bind_ok by reflexivity. cbv beta.
  erewrite bind_ok by reflexivity. cbv beta zeta.
  rewrite (bind_ok _ _ _ _ _ (generateDays_value h 7 2 _ 8 _)). cbv beta.
  rewrite (bind_ok _ _ _ _ _ (generateDays_value h 14 1.5 _ 12 _)). cbv beta.
  rewrite (bind_ok _ _ _ _ _ (generateDays_value h 30 1 _ 15 _)). cbv beta.
  rewrite (bind_ok _ _ _ _ _ (generateDays_value h 7 2 _ 3 _)). cbv beta.
  rewrite (bind_ok _ _ _ _ _ (generateDays_value h 14 1.5 _ 5 _)). cbv beta.
  rewrite (bind_ok _ _ _ _ _ (generateDays_value h 30 1 _ 7 _)). cbv beta.
  rewrite (lifted_ok _ _ _ _ Hc). cbv beta.
  rewrite (lifted_ok _ _ _ _ Hd). cbv beta.
  rewrite (lifted_ok _ _ _ _ Hs). cbv beta.
  rewrite (lifted_ok _ _ _ _ Hq). cbv beta.
  erewrite bind_ok by reflexivity. cbv beta.
  erewrite bind_ok by reflexivity. cbv beta.
  eexists. eexists. split; [reflexivity |].
  cbn [draws clockReads Routes.rf_demandTrend Routes.rf_priceTrend
       Routes.rf_glutRisk Routes.rf_marketAnalysis Routes.competitionLevel
       Routes.rf_markets Routes.rf_metadata Routes.rm_source
       Routes.rm_quantity].
  split; [lia |]. split; [reflexivity |].
  split; [| split; [| split; [| split; [| split; [| split]]]]];
    try reflexivity.
  - cbv zeta.
    change (nadd (nmul (Fin (Math_random h (S (draws w)))) (lit 50)) (lit 50))
      with (Fin (Math_random h (S (draws w)) * 50 + 50)).
    f_equal; f_equal; lia.
  - cbv zeta.
    change (nadd (nmul (Fin (Math_random h (draws w))) (lit 30)) (lit 15))
      with (Fin (Math_random h (draws w) * 30 + 15)).
    f_equal; f_equal; lia.
  - replace (draws w + 2)%nat with (S (S (draws w))) by lia. reflexivity.
Qed.

(** It throws when one of them does not. *)
Lemma generateMockForecast_fails (h : Host)
  (crop district season quantity : value) (w : World) :
  unconvertible h crop \/ unconvertible h district
  \/ unconvertible h season \/ unconvertible h quantity ->
  exists e w',
    Routes.generateMockForecast h crop district season quantity w
    = (Throw e, w').
Proof.
  intros Hbad.
  unfold Routes.generateMockForecast, Routes.generate7Day,
    Routes.generate14Day, Routes.generate30Day.
  erewrite bind_ok by reflexivity. cbv beta.
  erewrite bind_ok by reflexivity. cbv beta.
  erewrite bind_ok by reflexivity. cbv beta zeta.
  rewrite (bind_ok _ _ _ _ _ (generateDays_value h 7 2 _ 8 _)). cbv beta.
  rewrite (bind_ok _ _ _ _ _ (generateDays_value h 14 1.5 _ 12 _)). cbv beta.
  rewrite (bind_ok _ _ _ _ _ (generateDays_value h 30 1 _ 15 _)). cbv beta.
  rewrite (bind_ok _ _ _ _ _ (generateDays_value h 7 2 _ 3 _)). cbv beta.
  rewrite (bind_ok _ _ _ _ _ (generateDays_value h 14 1.5 _ 5 _)). cbv beta.
  rewrite (bind_ok _ _ _ _ _ (generateDays_value h 30 1 _ 7 _)). cbv beta.
  destruct (ToString h crop) as [cropText|e] eqn:Hc;
    [| eexists; eexists; erewrite lifted_throw by reflexivity; reflexivity].
  erewrite lifted_ok by reflexivity. cbv beta.
  destruct (ToString h district) as [districtText|e] eqn:Hd;
    [| eexists; eexists; erewrite lifted_throw by reflexivity; reflexivity].
  erewrite lifted_ok by reflexivity. cbv beta.
  destruct (ToString h season) as [seasonText|e] eqn:Hs;
    [| eexists; eexists; erewrite lifted_throw by reflexivity; reflexivity].
  erewrite lifted_ok by reflexivity. cbv beta.
  destruct (ToString h quantity) as [quantityText|e] eqn:Hq;
    [| eexists; eexists; erewrite lifted_throw by reflexivity; reflexivity].
  destruct Hbad as [(e & He) | [(e & He) | [(e & He) | (e & He)]]];
    congruence.
Qed.

Lemma generateMockForecast_throw_inv (h : Host)
  (crop district season quantity : value) (w w' : World) (e : exn) :
  Routes.generateMockForecast h crop district season quantity w
  = (Throw e, w') ->
  unconvertible h crop \/ unconvertible h district
  \/ unconvertible h season \/ unconvertible h quantity.
Proof.
  intros E. unfold unconvertible.
  destruct (ToString h crop) as [cropText|e1] eqn:Hc; [| eauto].
  destruct (ToString h district) as [districtText|e2] eqn:Hd; [| eauto].
  destruct (ToString h season) as [seasonText|e3] eqn:Hs; [| eauto].
  destruct (ToString h quantity) as [quantityText|e4] eqn:Hq;
    [| right; right; right; eauto].
  destruct (generateMockForecast_value h crop district season quantity
              _ _ _ _ w Hc Hd Hs Hq) as (m & w0 & E0 & _).
  rewrite E0 in E. discriminate E.
Qed.

End RouteMock.

(** ** The two endpoints *)

Module RouteProperties.
Import Js Effects GeminiAIService Spec Simulation Vocabulary EffectsFacts.
Import MockFacts ForecastInvariants SimulationFacts SimulationProperties.
Import RouteMock.
Local Open Scope R_scope.
Local Open Scope list_scope.

Lemma Rfloor_third (r : R) :
  0 <= r < 1 -> (0 <= Rfloor (r * 3) <= 2)%Z.
Proof.
  intros Hr. unfold Rfloor.
  destruct (base_Int_part (r * 3)) as [Hle Hgt].
  split.
  - assert (-1 < Int_part (r * 3))%Z by (apply lt_IZR; lra). lia.
  - assert (Int_part (r * 3) < 3)%Z by (apply lt_IZR; lra). lia.
Qed.

Lemma elementAt_glutRisks (index : Z) :
  (0 <= index <= 2)%Z ->
  exists label,
    Routes.elementAt Routes.glutRisks index = Some label
    /\ riskLevel label
    /\ (if Routes.riskIs (Some label) "high" then "high"
        else if Routes.riskIs (Some label) "medium" then "medium"
             else "low")%string = label.
Proof.
  intros Hi. unfold riskLevel.
  assert (index = 0 \/ index = 1 \/ index = 2)%Z as [-> | [-> | ->]] by lia;
    eexists; (split; [reflexivity |]); split; auto.
Qed.

(** X20.  For texts and a number the mock generator of the routes never
    throws.  It draws 106 random numbers and reads the clock once; its
    six series have 7, 14 and 30 entries, each series made from random
    numbers of its own and with a slope of its own (2, 1.5 and 1 a
    day); and, the random numbers being in [0, 1), its glut risk is
    "low", "medium" or "high" and is repeated as the competition
    level. *)
Theorem route_mock_forecast (h : Host) (cropName districtName
  seasonName : string) (q : R) (w : World) :
  exists m w',
    Routes.generateMockForecast h (VStr cropName) (VStr districtName)
      (VStr seasonName) (VNum (Fin q)) w
    = (Ok m, w')
    /\ draws w' = (draws w + 106)%nat
    /\ clockReads w' = S (clockReads w)
    /\ (let demandBase := Fin (Math_random h (S (draws w)) * 50 + 50) in
        Routes.rf_demandTrend m
        = {| day7 := routeDays h 7 2 demandBase 8 (draws w + 3);
             day14 := routeDays h 14 1.5 demandBase 12 (draws w + 10);
             day30 := routeDays h 30 1 demandBase 15 (draws w + 24) |})
    /\ (let basePrice := Fin (Math_random h (draws w) * 30 + 15) in
        Routes.rf_priceTrend m
        = {| day7 := routeDays h 7 2 basePrice 3 (draws w + 54);
             day14 := routeDays h 14 1.5 basePrice 5 (draws w + 61);
             day30 := routeDays h 30 1 basePrice 7 (draws w + 75) |})
    /\ List.length (day7 (Routes.rf_demandTrend m)) = 7%nat
    /\ List.length (day14 (Routes.rf_demandTrend m)) = 14%nat
    /\ List.length (day30 (Routes.rf_demandTrend m)) = 30%nat
    /\ Routes.rm_source (Routes.rf_metadata m) = "mock-data"%string
    /\ (unitRandom h ->
        exists label,
          Routes.rf_glutRisk m = Some label
          /\ riskLevel label
          /\ Routes.competitionLevel (Routes.rf_marketAnalysis m) = label).
Proof.
  destruct (generateMockForecast_value h (VStr cropName) (VStr districtName)
              (VStr seasonName) (VNum (Fin q)) _ _ _ _ w
              eq_refl eq_refl eq_refl eq_refl)
    as (m & w' & E & Hdraws & Hclock & Hd & Hp & Hrisk & Hlevel & _ & Hsource
        & _).
  exists m, w'. split; [exact E |]. split; [exact Hdraws |].
  split; [exact Hclock |]. split; [exact Hd |]. split; [exact Hp |].
  cbv zeta in Hd. rewrite Hd. cbn [day7 day14 day30].
  rewrite !routeDays_length.
  split; [reflexivity |]. split; [reflexivity |]. split; [reflexivity |].
  split; [exact Hsource |].
  intros Hunit.
  destruct (elementAt_glutRisks _ (Rfloor_third _ (Hunit (draws w + 2)%nat)))
    as (label & Hlabel & Hrl & Hcompetition).
  exists label. rewrite Hlevel, Hrisk, Hlabel.
  split; [reflexivity |]. split; [exact Hrl | exact Hcompetition].
Qed.

(** *** The fields of a body *)

Lemma getField_propertyOf (body : value) (k : string) :
  nullish body = false -> getField body k = Ok (propertyOf k body).
Proof.
  unfold propertyOf.
  destruct body; cbn; try discriminate; try reflexivity.
  destruct (ownProperty k fields); reflexivity.
Qed.

Lemma getField_nullish (body : value) :
  nullish body = true -> exists e, forall k, getField body k = Throw e.
Proof.
  destruct body; cbn; try discriminate; intros _; eexists; reflexivity.
Qed.

Lemma propertyOf_nullish (body : value) (k : string) :
  nullish body = true -> propertyOf k body = VUndef.
Proof. destruct body; cbn; try discriminate; reflexivity. Qed.

Lemma orElse_supplied (v fallback : value) :
  truthy v = true -> Routes.orElse v fallback = v.
Proof. intros H. unfold Routes.orElse. rewrite H. reflexivity. Qed.

(** A default that is put in the place of a value converts. *)
Lemma orElse_unconvertible (h : Host) (v fallback : value) (text : string) :
  ToString h fallback = Ok text ->
  unconvertible h (Routes.orElse v fallback) -> unconvertible h v.
Proof.
  intros Hf. unfold Routes.orElse.
  destruct (truthy v); [auto |]. intros (e & He). congruence.
Qed.

Lemma fallback_glutRisk (h : Host) (c d s q : value) (w w' : World)
  (m : Routes.RouteForecast) :
  unitRandom h ->
  Routes.generateMockForecast h c d s q w = (Ok m, w') ->
  exists label, Routes.rf_glutRisk m = Some label /\ riskLevel label.
Proof.
  intros Hunit E.
  destruct (ToString h c) as [ct|e1] eqn:Hc.
  2: { destruct (generateMockForecast_fails h c d s q w) as (e & w0 & E0);
       [left; eexists; exact Hc | congruence]. }
  destruct (ToString h d) as [dt|e2] eqn:Hd.
  2: { destruct (generateMockForecast_fails h c d s q w) as (e & w0 & E0);
       [right; left; eexists; exact Hd | congruence]. }
  destruct (ToString h s) as [st|e3] eqn:Hs.
  2: { destruct (generateMockForecast_fails h c d s q w) as (e & w0 & E0);
       [right; right; left; eexists; exact Hs | congruence]. }
  destruct (ToString h q) as [qt|e4] eqn:Hq.
  2: { destruct (generateMockForecast_fails h c d s q w) as (e & w0 & E0);
       [right; right; right; eexists; exact Hq | congruence]. }
  destruct (generateMockForecast_value h c d s q _ _ _ _ w Hc Hd Hs Hq)
    as (m0 & w0 & E0 & _ & _ & _ & _ & Hrisk & _).
  assert (m0 = m) as -> by congruence.
  destruct (elementAt_glutRisks _ (Rfloor_third _ (Hunit (draws w + 2)%nat)))
    as (label & Hlabel & Hrl & _).
  exists label. rewrite Hrisk. split; [exact Hlabel | exact Hrl].
Qed.

(** *** POST /forecast *)

Lemma forecastBlock_nullish (h : Host) (isAvailable : bool) (ai : AiOutcome)
  (other : M Forecast) (body : value) :
  nullish body = true ->
  exists e, forall w,
    Routes.forecastBlock h isAvailable ai other body w = (Throw e, w).
Proof.
  intros Hb. destruct (getField_nullish body Hb) as (e & He).
  exists e. intros w. unfold Routes.forecastBlock.
  apply lifted_throw. apply He.
Qed.

Lemma forecastBlock_fields (h : Host) (isAvailable : bool) (ai : AiOutcome)
  (other : M Forecast) (body : value) (w : World) :
  nullish body = false ->
  Routes.forecastBlock h isAvailable ai other body w
  = (let crop := propertyOf "crop" body in
     let district := propertyOf "district" body in
     let season := propertyOf "season" body in
     let quantity :=
       Routes.withDefault (propertyOf "quantity" body) (VNum (lit 100)) in
     if negb (truthy crop) || negb (truthy district) || negb (truthy season)
     then ret (Routes.BadRequest ["crop"; "district"; "season"]%string)
     else
       bind (liftResult (ToString h crop)) (fun cropText =>
       bind (liftResult (ToString h district)) (fun districtText =>
       bind (liftResult (ToString h season)) (fun seasonText =>
       bind (Routes.callGenerateForecast h isAvailable ai other
               crop district season quantity) (fun forecastData =>
       ret (Routes.ForecastData forecastData
              (Routes.sampleMarketsOf districtText))))))) w.
Proof.
  intros Hb. unfold Routes.forecastBlock.
  rewrite (lifted_ok _ _ _ _ (getField_propertyOf body "crop" Hb)).
  rewrite (lifted_ok _ _ _ _ (getField_propertyOf body "district" Hb)).
  rewrite (lifted_ok _ _ _ _ (getField_propertyOf body "season" Hb)).
  rewrite (lifted_ok _ _ _ _ (getField_propertyOf body "quantity" Hb)).
  reflexivity.
Qed.

Lemma fallbackForecast_fields (h : Host) (body : value) (w : World) :
  nullish body = false ->
  Routes.fallbackForecast h body w
  = Routes.generateMockForecast h
      (Routes.orElse (propertyOf "crop" body) (VStr "Rice"))
      (Routes.orElse (propertyOf "district" body) (VStr "Karnataka"))
      (Routes.orElse (propertyOf "season" body) (VStr "Kharif"))
      (Routes.orElse (propertyOf "quantity" body) (VNum (lit 100))) w.
Proof.
  intros Hb. unfold Routes.fallbackForecast.
  rewrite (lifted_ok _ _ _ _ (getField_propertyOf body "crop" Hb)).
  rewrite (lifted_ok _ _ _ _ (getField_propertyOf body "district" Hb)).
  rewrite (lifted_ok _ _ _ _ (getField_propertyOf body "season" Hb)).
  rewrite (lifted_ok _ _ _ _ (getField_propertyOf body "quantity" Hb)).
  reflexivity.
Qed.

Lemma fallbackForecast_nullish (h : Host) (body : value) :
  nullish body = true ->
  exists e, forall w, Routes.fallbackForecast h body w = (Throw e, w).
Proof.
  intros Hb. destruct (getField_nullish body Hb) as (e & He).
  exists e. intros w. unfold Routes.fallbackForecast.
  apply lifted_throw. apply He.
Qed.

(** The answer once both [try] blocks have thrown. *)
Lemma postForecast_failed (h : Host) (isAvailable : bool) (ai : AiOutcome)
  (other : M Forecast) (body : value) (w w1 w2 : World) (e fe : exn) :
  Routes.forecastBlock h isAvailable ai other body w = (Throw e, w1) ->
  Routes.fallbackForecast h body w1 = (Throw fe, w2) ->
  Routes.postForecast h isAvailable ai other body w
  = (Ok (Routes.ForecastFailed (Routes.message e) (Routes.message fe)), w2).
Proof.
  intros E1 E2. unfold Routes.postForecast.
  rewrite (tryCatch_throw _ _ w w1 e E1).
  rewrite (tryCatch_throw _ _ w1 w2 fe)
    by (rewrite (bind_throw _ _ _ _ _ E2); reflexivity).
  reflexivity.
Qed.

Lemma postForecast_fallback (h : Host) (isAvailable : bool) (ai : AiOutcome)
  (other : M Forecast) (body : value) (w w1 w2 : World) (e : exn)
  (m : Routes.RouteForecast) :
  Routes.forecastBlock h isAvailable ai other body w = (Throw e, w1) ->
  Routes.fallbackForecast h body w1 = (Ok m, w2) ->
  Routes.postForecast h isAvailable ai other body w
  = (Ok (Routes.FallbackData m "Using fallback data due to service error"
           (Routes.message e)), w2).
Proof.
  intros E1 E2. unfold Routes.postForecast.
  rewrite (tryCatch_throw _ _ w w1 e E1).
  apply tryCatch_ok. rewrite (bind_ok _ _ _ _ _ E2). reflexivity.
Qed.

(** The three fields that the handler requires. *)
Lemma supplied_or_not (body : value) :
  (supplied body "crop" /\ supplied body "district"
   /\ supplied body "season")
  \/ (negb (truthy (propertyOf "crop" body))
      || negb (truthy (propertyOf "district" body))
      || negb (truthy (propertyOf "season" body)) = true
      /\ ~ (supplied body "crop" /\ supplied body "district"
            /\ supplied body "season")).
Proof.
  unfold supplied.
  destruct (truthy (propertyOf "crop" body));
    [| right; split; [reflexivity | intros (H & _); discriminate H]].
  destruct (truthy (propertyOf "district" body));
    [| right; split; [reflexivity | intros (_ & H & _); discriminate H]].
  destruct (truthy (propertyOf "season" body));
    [| right; split; [reflexivity | intros (_ & _ & H); discriminate H]].
  left. auto.
Qed.

(** The four ways in which the handler answers. *)
Lemma postForecast_cases (h : Host) (isAvailable : bool) (ai : AiOutcome)
  (other : M Forecast) (body : value) (w : World) :
  let crop := propertyOf "crop" body in
  let district := propertyOf "district" body in
  let season := propertyOf "season" body in
  let quantity :=
    Routes.withDefault (propertyOf "quantity" body) (VNum (lit 100)) in
  let all := supplied body "crop" /\ supplied body "district"
             /\ supplied body "season" in
  exists resp w',
    Routes.postForecast h isAvailable ai other body w = (Ok resp, w')
    /\ ((nullish body = false /\ ~ all
         /\ resp = Routes.BadRequest ["crop"; "district"; "season"]%string)
        \/ (exists msg fe,
               resp = Routes.ForecastFailed msg fe
               /\ (nullish body = true
                   \/ (all
                       /\ exists k,
                            In k ["crop"; "district"; "season"; "quantity"]%string
                            /\ unconvertible h (propertyOf k body))))
        \/ (nullish body = false /\ all
            /\ exists cropText districtText seasonText f,
                 ToString h crop = Ok cropText
                 /\ ToString h district = Ok districtText
                 /\ ToString h season = Ok seasonText
                 /\ Routes.callGenerateForecast h isAvailable ai other
                      crop district season quantity w = (Ok f, w')
                 /\ resp = Routes.ForecastData f
                             (Routes.sampleMarketsOf districtText))
        \/ (nullish body = false /\ all
            /\ exists cropText districtText seasonText e w1 m,
                 ToString h crop = Ok cropText
                 /\ ToString h district = Ok districtText
                 /\ ToString h season = Ok seasonText
                 /\ Routes.callGenerateForecast h isAvailable ai other
                      crop district season quantity w = (Throw e, w1)
                 /\ Routes.generateMockForecast h crop district season
                      (Routes.orElse (propertyOf "quantity" body)
                         (VNum (lit 100))) w1 = (Ok m, w')
                 /\ resp = Routes.FallbackData m
                             "Using fallback data due to service error"
                             (Routes.message e))).
Proof.
  cbv zeta.
  destruct (nullish body) eqn:Hb.
  { destruct (forecastBlock_nullish h isAvailable ai other body Hb)
      as (e & He).
    destruct (fallbackForecast_nullish h body Hb) as (fe & Hfe).
    eexists. eexists.
    split; [exact (postForecast_failed h isAvailable ai other body
                     w w w e fe (He w) (Hfe w)) |].
    right. left. eexists. eexists. split; [reflexivity |]. left. reflexivity. }
  pose proof (forecastBlock_fields h isAvailable ai other body w Hb) as Eblock.
  cbv zeta in Eblock.
  destruct (supplied_or_not body) as [Hall | [Hnot Hno]].
  2: { rewrite Hnot in Eblock.
       eexists. eexists.
       split; [unfold Routes.postForecast; apply tryCatch_ok; exact Eblock |].
       left. split; [reflexivity |]. split; [exact Hno | reflexivity]. }
  destruct Hall as (Hc & Hd & Hs).
  assert (Hall : supplied body "crop" /\ supplied body "district"
                 /\ supplied body "season") by auto.
  unfold supplied in Hc, Hd, Hs.
  rewrite Hc, Hd, Hs in Eblock. cbn [negb orb] in Eblock.
  pose proof (fallbackForecast_fields h body) as Efall.
  rewrite (orElse_supplied _ _ Hc), (orElse_supplied _ _ Hd),
    (orElse_supplied _ _ Hs) in Efall.
  (* a field that the first template literal cannot convert *)
  assert (Hfail : forall k,
             In k ["crop"; "district"; "season"]%string ->
             unconvertible h (propertyOf k body) ->
             forall e,
               Routes.forecastBlock h isAvailable ai other body w
               = (Throw e, w) ->
               exists resp w',
                 Routes.postForecast h isAvailable ai other body w
                 = (Ok resp, w')
                 /\ exists msg fe,
                      resp = Routes.ForecastFailed msg fe
                      /\ (false = true
                          \/ ((supplied body "crop"
                               /\ supplied body "district"
                               /\ supplied body "season")
                              /\ exists k0,
                                   In k0 ["crop"; "district"; "season";
                                          "quantity"]%string
                                   /\ unconvertible h (propertyOf k0 body)))).
  { intros k Hk Hun e E1.
    destruct (generateMockForecast_fails h
                (propertyOf "crop" body) (propertyOf "district" body)
                (propertyOf "season" body)
                (Routes.orElse (propertyOf "quantity" body) (VNum (lit 100)))
                w) as (fe & w2 & E2).
    { destruct Hk as [<- | [<- | [<- | []]]]; auto. }
    rewrite <- (Efall w Hb) in E2.
    eexists. eexists.
    split; [exact (postForecast_failed h isAvailable ai other body
                     w w w2 e fe E1 E2) |].
    eexists. eexists. split; [reflexivity |]. right.
    split; [exact Hall |]. exists k. split; [| exact Hun].
    destruct Hk as [<- | [<- | [<- | []]]]; cbn; auto. }
  destruct (ToString h (propertyOf "crop" body)) as [cropText|e1] eqn:Tc.
  2: { rewrite (lifted_throw _ _ _ _ eq_refl) in Eblock.
       destruct (Hfail "crop"%string) with (e := e1)
         as (resp & w' & E & Hresp);
         [cbn; auto | eexists; exact Tc | exact Eblock |].
       exists resp, w'. split; [exact E |]. right. left. exact Hresp. }
  rewrite (lifted_ok _ _ _ _ eq_refl) in Eblock. cbv beta in Eblock.
  destruct (ToString h (propertyOf "district" body))
    as [districtText|e2] eqn:Td.
  2: { rewrite (lifted_throw _ _ _ _ eq_refl) in Eblock.
       destruct (Hfail "district"%string) with (e := e2)
         as (resp & w' & E & Hresp);
         [cbn; auto | eexists; exact Td | exact Eblock |].
       exists resp, w'. split; [exact E |]. right. left. exact Hresp. }
  rewrite (lifted_ok _ _ _ _ eq_refl) in Eblock. cbv beta in Eblock.
  destruct (ToString h (propertyOf "season" body)) as [seasonText|e3] eqn:Ts.
  2: { rewrite (lifted_throw _ _ _ _ eq_refl) in Eblock.
       destruct (Hfail "season"%string) with (e := e3)
         as (resp & w' & E & Hresp);
         [cbn; auto | eexists; exact Ts | exact Eblock |].
       exists resp, w'. split; [exact E |]. right. left. exact Hresp. }
  rewrite (lifted_ok _ _ _ _ eq_refl) in Eblock. cbv beta in Eblock.
  clear Hfail.
  destruct (Routes.callGenerateForecast h isAvailable ai other
              (propertyOf "crop" body) (propertyOf "district" body)
              (propertyOf "season" body)
              (Routes.withDefault (propertyOf "quantity" body)
                 (VNum (lit 100))) w) as [[f|e] w1] eqn:Ecall.
  - rewrite (bind_ok _ _ _ _ _ Ecall) in Eblock.
    eexists. exists w1.
    split; [unfold Routes.postForecast; apply tryCatch_ok; exact Eblock |].
    right. right. left. split; [reflexivity |]. split; [exact Hall |].
    exists cropText, districtText, seasonText, f. auto.
  - rewrite (bind_throw _ _ _ _ _ Ecall) in Eblock.
    destruct (Routes.generateMockForecast h
                (propertyOf "crop" body) (propertyOf "district" body)
                (propertyOf "season" body)
                (Routes.orElse (propertyOf "quantity" body) (VNum (lit 100)))
                w1) as [[m|fe] w2] eqn:Emock.
    + eexists. exists w2.
      split.
      { apply (postForecast_fallback h isAvailable ai other body w w1 w2 e m
                 Eblock).
        rewrite (Efall w1 Hb). exact Emock. }
      right. right. right. split; [reflexivity |]. split; [exact Hall |].
      exists cropText, districtText, seasonText, e, w1, m.
      repeat split; auto.
    + eexists. exists w2.
      split.
      { apply (postForecast_failed h isAvailable ai other body w w1 w2 e fe
                 Eblock).
        rewrite (Efall w1 Hb). exact Emock. }
      right. left. eexists. eexists. split; [reflexivity |]. right.
      split; [exact Hall |].
      apply generateMockForecast_throw_inv in Emock.
      destruct Emock as [Hun | [Hun | [Hun | Hun]]].
      * exists "crop"%string. split; [cbn; auto | exact Hun].
      * exists "district"%string. split; [cbn; auto | exact Hun].
      * exists "season"%string. split; [cbn; auto | exact Hun].
      * exists "quantity"%string. split; [cbn; auto |].
        exact (orElse_unconvertible h (propertyOf "quantity" body)
                 (VNum (lit 100)) _ eq_refl Hun).
Qed.

Lemma requestOf_fields (crop district season quantity : value)
  (inputData : Request) :
  Routes.requestOf crop district season quantity = Some inputData ->
  crop = VStr (GeminiAIService.crop inputData)
  /\ district = VStr (GeminiAIService.district inputData)
  /\ season = VStr (GeminiAIService.season inputData)
  /\ exists q,
       quantity = VNum (Fin q)
       /\ GeminiAIService.quantity inputData = Some q.
Proof.
  unfold Routes.requestOf.
  destruct crop; try discriminate. destruct district; try discriminate.
  destruct season; try discriminate. destruct quantity; try discriminate.
  destruct n; try discriminate.
  intros H. inversion H. cbn. repeat split. eexists. split; reflexivity.
Qed.

Lemma propertyOf_text (body : value) (k text : string) :
  propertyOf k body = VStr text -> nullish body = false.
Proof.
  destruct body; cbn; try reflexivity; discriminate.
Qed.

(** X21.  [POST /forecast] always answers, whatever JSON the body is.  It
    answers 400 exactly when there is a body and its crop, district or
    season is missing, empty, [null], [false] or 0.  It answers 500
    only when there is no body to read or when the crop, the district,
    the season or the quantity cannot be converted to a string (an
    object with a [toString] of its own), and always so when that is
    the crop, the district or the season: so never for texts and a
    number.  For texts and a number a forecast of the service in a 200
    answer has a glut risk of "low", "medium" or "high", series whose
    shorter horizons are prefixes of the 30-day one, and the sample
    markets of the district (or of Karnataka) as its [markets]; a
    fallback answer carries the warning and, the random numbers being
    in [0, 1), a glut risk of the same three. *)
Theorem postForecast_answers (h : Host) (isAvailable : bool)
  (ai : AiOutcome) (other : M Forecast) (body : value) (w : World) :
  let all := supplied body "crop" /\ supplied body "district"
             /\ supplied body "season" in
  exists resp w',
    Routes.postForecast h isAvailable ai other body w = (Ok resp, w')
    /\ ((exists required, resp = Routes.BadRequest required)
        <-> nullish body = false /\ ~ all)
    /\ (forall msg fe,
          resp = Routes.ForecastFailed msg fe ->
          nullish body = true
          \/ exists k,
               In k ["crop"; "district"; "season"; "quantity"]%string
               /\ unconvertible h (propertyOf k body))
    /\ (nullish body = true
        \/ (all
            /\ exists k,
                 In k ["crop"; "district"; "season"]%string
                 /\ unconvertible h (propertyOf k body)) ->
        exists msg fe, resp = Routes.ForecastFailed msg fe)
    /\ (forall inputData,
          Routes.requestOf (propertyOf "crop" body)
            (propertyOf "district" body) (propertyOf "season" body)
            (Routes.withDefault (propertyOf "quantity" body)
               (VNum (lit 100))) = Some inputData ->
          (forall msg fe, resp <> Routes.ForecastFailed msg fe)
          /\ (forall f mk,
                resp = Routes.ForecastData f mk ->
                riskLevel (glutRisk f)
                /\ prefixes (demandTrend f)
                /\ prefixes (priceTrend f)
                /\ mk = Routes.sampleMarketsOf (district inputData)))
    /\ (unitRandom h ->
        forall m warning details,
          resp = Routes.FallbackData m warning details ->
          warning = "Using fallback data due to service error"%string
          /\ exists label,
               Routes.rf_glutRisk m = Some label /\ riskLevel label).
Proof.
  cbv zeta.
  destruct (postForecast_cases h isAvailable ai other body w)
    as (resp & w' & E & Hcases).
  cbv zeta in Hcases.
  exists resp, w'. split; [exact E |].
  assert (Htyped : forall inputData,
             Routes.requestOf (propertyOf "crop" body)
               (propertyOf "district" body) (propertyOf "season" body)
               (Routes.withDefault (propertyOf "quantity" body)
                  (VNum (lit 100))) = Some inputData ->
             forall k,
               In k ["crop"; "district"; "season"; "quantity"]%string ->
               ~ unconvertible h (propertyOf k body)).
  { intros inputData Hreq k Hk (e & He).
    apply requestOf_fields in Hreq.
    destruct Hreq as (Hc & Hd & Hs & q & Hq & _).
    destruct Hk as [<- | [<- | [<- | [<- | []]]]].
    - rewrite Hc in He. discriminate He.
    - rewrite Hd in He. discriminate He.
    - rewrite Hs in He. discriminate He.
    - unfold Routes.withDefault in Hq.
      destruct (propertyOf "quantity" body); try discriminate He;
        discriminate Hq. }
  destruct Hcases
    as [(Hb & Hno & ->)
       | [(msg0 & fe0 & -> & Hwhy)
         | [(Hb & Hall & ct & dt & st & f & Tc & Td & Ts & Ecall & ->)
           | (Hb & Hall & ct & dt & st & e & w1 & m & Tc & Td & Ts & Ecall
              & Emock & ->)]]].
  - (* 400 *)
    split; [split; [intros _; auto | intros _; eexists; reflexivity] |].
    split; [discriminate |].
    split.
    { intros [Hn | (Hall & _)]; [congruence | contradiction]. }
    split; [| intros _; discriminate].
    intros inputData Hreq. split; [discriminate | discriminate].
  - (* 500 *)
    split.
    { split; [intros (r & Hr); discriminate Hr |].
      intros (Hb & Hno).
      destruct Hwhy as [Hn | (Hall & _)]; [congruence | contradiction]. }
    split.
    { intros msg fe _.
      destruct Hwhy as [Hn | (_ & Hk)]; [left; exact Hn | right; exact Hk]. }
    split; [intros _; eexists; eexists; reflexivity |].
    split; [| intros _; discriminate].
    intros inputData Hreq. exfalso.
    destruct Hwhy as [Hn | (_ & k & Hk & Hun)].
    + apply requestOf_fields in Hreq. destruct Hreq as (Hc & _).
      apply propertyOf_text in Hc. congruence.
    + exact (Htyped inputData Hreq k Hk Hun).
  - (* 200, from the service *)
    split.
    { split; [intros (r & Hr); discriminate Hr |].
      intros (_ & Hno). contradiction. }
    split; [discriminate |].
    split.
    { intros [Hn | (_ & k & Hk & (e & He))]; [congruence |].
      destruct Hk as [<- | [<- | [<- | []]]]; congruence. }
    split; [| intros _; discriminate].
    intros inputData Hreq. split; [discriminate |].
    intros f0 mk Hresp.
    assert (f0 = f) as -> by congruence.
    assert (mk = Routes.sampleMarketsOf dt) as -> by congruence.
    unfold Routes.callGenerateForecast in Ecall. rewrite Hreq in Ecall.
    destruct (generateForecast_series h isAvailable ai _ w w' f Ecall)
      as (_ & H2 & H3 & H4 & _).
    split; [exact H2 |]. split; [exact H3 |]. split; [exact H4 |].
    apply requestOf_fields in Hreq. destruct Hreq as (_ & Hd & _).
    rewrite Hd in Td. cbn in Td. congruence.
  - (* 200, from the fallback *)
    split.
    { split; [intros (r & Hr); discriminate Hr |].
      intros (_ & Hno). contradiction. }
    split; [discriminate |].
    split.
    { intros [Hn | (_ & k & Hk & (e0 & He))]; [congruence |].
      destruct Hk as [<- | [<- | [<- | []]]]; congruence. }
    split.
    { intros inputData Hreq. split; discriminate. }
    intros Hunit m0 warning details Hresp.
    assert (m0 = m) as -> by congruence.
    split; [congruence |].
    exact (fallback_glutRisk h _ _ _ _ w1 w' m Hunit Emock).
Qed.

(** A crop with a [toString] of its own is answered with 500. *)
Lemma postForecast_answers_witness :
  exists msg fe w',
    Routes.postForecast sampleHost false TimedOut
      (throw (Error "not modelled")) toStringBody startOfWorld
    = (Ok (Routes.ForecastFailed msg fe), w').
Proof.
  destruct (postForecast_answers sampleHost false TimedOut
              (throw (Error "not modelled")) toStringBody startOfWorld)
    as (resp & w' & E & _ & _ & Hfailed & _).
  destruct Hfailed as (msg & fe & ->).
  - right. split; [repeat split; reflexivity |].
    exists "crop"%string. split; [cbn; auto |].
    eexists. reflexivity.
  - exists msg, fe, w'. exact E.
Defined.

(** *** POST /simulate *)

Lemma generateSimulation_inv (StringToNumber : string -> num) (h : Host)
  (isAvailable : bool) (ai : AiOutcome) (inputData : SimulationRequest)
  (w w' : World) (sim : Simulation) :
  generateSimulation StringToNumber h isAvailable ai inputData w
  = (Ok sim, w') ->
  generateForecast h isAvailable ai (request inputData) w
  = (Ok (forecast sim), w')
  /\ calculateRevenue StringToNumber h (forecast sim) (request inputData)
     = Ok (revenue (predictions sim))
  /\ calculateProfit StringToNumber h (forecast sim) (request inputData)
     = Ok (profit (predictions sim))
  /\ assessRisk StringToNumber h (forecast sim) (request inputData)
     = Ok (riskAssessment (predictions sim))
  /\ simulationType sim = "scenario-analysis"%string
  /\ sim_marketChoice sim = marketChoiceOf inputData.
Proof.
  unfold generateSimulation. intros E.
  apply bind_inv_ok in E. destruct E as (f & w1 & Ef & E).
  apply bind_inv_ok in E. destruct E as (rev & w2 & Erev & E).
  apply liftResult_inv_ok in Erev. destruct Erev as [Erev ->].
  apply bind_inv_ok in E. destruct E as (pro & w2 & Epro & E).
  apply liftResult_inv_ok in Epro. destruct Epro as [Epro ->].
  apply bind_inv_ok in E. destruct E as (risk & w2 & Erisk & E).
  apply liftResult_inv_ok in Erisk. destruct Erisk as [Erisk ->].
  apply ret_inv in E. destruct E as [<- <-].
  cbn [forecast predictions revenue profit riskAssessment simulationType
       sim_marketChoice].
  repeat split; assumption.
Qed.

Lemma simulationBlock_nullish (StringToNumber : string -> num) (h : Host)
  (isAvailable : bool) (ai : AiOutcome) (other : M Simulation)
  (body : value) :
  nullish body = true ->
  exists e, forall w,
    Routes.simulationBlock StringToNumber h isAvailable ai other body w
    = (Throw e, w).
Proof.
  intros Hb. destruct (getField_nullish body Hb) as (e & He).
  exists e. intros w. unfold Routes.simulationBlock.
  apply lifted_throw. apply He.
Qed.

Lemma simulationBlock_fields (StringToNumber : string -> num) (h : Host)
  (isAvailable : bool) (ai : AiOutcome) (other : M Simulation)
  (body : value) (w : World) :
  nullish body = false ->
  Routes.simulationBlock StringToNumber h isAvailable ai other body w
  = (let crop := propertyOf "crop" body in
     let district := propertyOf "district" body in
     let season := propertyOf "season" body in
     let quantity := propertyOf "quantity" body in
     let marketChoice := propertyOf "marketChoice" body in
     if negb (truthy crop) || negb (truthy district) || negb (truthy season)
        || negb (truthy quantity)
     then ret (Routes.SimulationBadRequest
                 ["crop"; "district"; "season"; "quantity"]%string)
     else
       bind (liftResult (ToString h quantity)) (fun quantityText =>
       bind (liftResult (ToString h crop)) (fun cropText =>
       bind (liftResult (ToString h district)) (fun districtText =>
       bind (Routes.callGenerateSimulation StringToNumber h isAvailable ai
               other crop district season quantity marketChoice)
            (fun simulationData =>
       ret (Routes.SimulationData simulationData)))))) w.
Proof.
  intros Hb. unfold Routes.simulationBlock.
  rewrite (lifted_ok _ _ _ _ (getField_propertyOf body "crop" Hb)).
  rewrite (lifted_ok _ _ _ _ (getField_propertyOf body "district" Hb)).
  rewrite (lifted_ok _ _ _ _ (getField_propertyOf body "season" Hb)).
  rewrite (lifted_ok _ _ _ _ (getField_propertyOf body "quantity" Hb)).
  rewrite (lifted_ok _ _ _ _ (getField_propertyOf body "marketChoice" Hb)).
  reflexivity.
Qed.

Lemma four_supplied_or_not (body : value) :
  (supplied body "crop" /\ supplied body "district"
   /\ supplied body "season" /\ supplied body "quantity")
  \/ (negb (truthy (propertyOf "crop" body))
      || negb (truthy (propertyOf "district" body))
      || negb (truthy (propertyOf "season" body))
      || negb (truthy (propertyOf "quantity" body)) = true
      /\ ~ (supplied body "crop" /\ supplied body "district"
            /\ supplied body "season" /\ supplied body "quantity")).
Proof.
  unfold supplied.
  destruct (truthy (propertyOf "crop" body));
    [| right; split; [reflexivity | intros (H & _); discriminate H]].
  destruct (truthy (propertyOf "district" body));
    [| right; split; [reflexivity | intros (_ & H & _); discriminate H]].
  destruct (truthy (propertyOf "season" body));
    [| right; split; [reflexivity | intros (_ & _ & H & _); discriminate H]].
  destruct (truthy (propertyOf "quantity" body));
    [| right; split; [reflexivity | intros (_ & _ & _ & H); discriminate H]].
  left. auto.
Qed.

(** The three ways in which the handler answers. *)
Lemma postSimulate_cases (StringToNumber : string -> num) (h : Host)
  (isAvailable : bool) (ai : AiOutcome) (other : M Simulation)
  (body : value) (w : World) :
  let crop := propertyOf "crop" body in
  let district := propertyOf "district" body in
  let season := propertyOf "season" body in
  let quantity := propertyOf "quantity" body in
  let marketChoice := propertyOf "marketChoice" body in
  let all := supplied body "crop" /\ supplied body "district"
             /\ supplied body "season" /\ supplied body "quantity" in
  let converted :=
    (exists text, ToString h quantity = Ok text)
    /\ (exists text, ToString h crop = Ok text)
    /\ (exists text, ToString h district = Ok text) in
  exists resp w',
    Routes.postSimulate StringToNumber h isAvailable ai other body w
    = (Ok resp, w')
    /\ ((nullish body = false /\ ~ all
         /\ resp = Routes.SimulationBadRequest
                     ["crop"; "district"; "season"; "quantity"]%string)
        \/ (exists msg, resp = Routes.SimulationFailed msg
                        /\ nullish body = true)
        \/ (exists msg,
               resp = Routes.SimulationFailed msg
               /\ nullish body = false /\ all
               /\ exists k,
                    In k ["quantity"; "crop"; "district"]%string
                    /\ unconvertible h (propertyOf k body))
        \/ (nullish body = false /\ all /\ converted
            /\ exists e w1,
                 Routes.callGenerateSimulation StringToNumber h isAvailable
                   ai other crop district season quantity marketChoice w
                 = (Throw e, w1)
                 /\ resp = Routes.SimulationFailed (Routes.message e))
        \/ (nullish body = false /\ all /\ converted
            /\ exists sim,
                 Routes.callGenerateSimulation StringToNumber h isAvailable
                   ai other crop district season quantity marketChoice w
                 = (Ok sim, w')
                 /\ resp = Routes.SimulationData sim)).
Proof.
  cbv zeta. unfold Routes.postSimulate.
  destruct (nullish body) eqn:Hb.
  { destruct (simulationBlock_nullish StringToNumber h isAvailable ai other
                body Hb) as (e & He).
    eexists. eexists.
    split; [rewrite (tryCatch_throw _ _ w w e (He w)); reflexivity |].
    right. left. eexists. split; reflexivity. }
  pose proof (simulationBlock_fields StringToNumber h isAvailable ai other
                body w Hb) as Eblock.
  cbv zeta in Eblock.
  destruct (four_supplied_or_not body) as [Hall | [Hnot Hno]].
  2: { rewrite Hnot in Eblock.
       eexists. eexists.
       split; [apply tryCatch_ok; exact Eblock |].
       left. split; [reflexivity |]. split; [exact Hno | reflexivity]. }
  destruct Hall as (Hc & Hd & Hs & Hq).
  assert (Hall : supplied body "crop" /\ supplied body "district"
                 /\ supplied body "season" /\ supplied body "quantity")
    by auto.
  unfold supplied in Hc, Hd, Hs, Hq.
  rewrite Hc, Hd, Hs, Hq in Eblock. cbn [negb orb] in Eblock.
  destruct (ToString h (propertyOf "quantity" body))
    as [quantityText|e1] eqn:Tq.
  2: { rewrite (lifted_throw _ _ _ _ eq_refl) in Eblock.
       eexists. eexists.
       split; [rewrite (tryCatch_throw _ _ w w e1 Eblock); reflexivity |].
       right. right. left. eexists. split; [reflexivity |].
       split; [reflexivity |]. split; [exact Hall |].
       exists "quantity"%string. split; [cbn; auto | eexists; exact Tq]. }
  rewrite (lifted_ok _ _ _ _ eq_refl) in Eblock. cbv beta in Eblock.
  destruct (ToString h (propertyOf "crop" body)) as [cropText|e2] eqn:Tc.
  2: { rewrite (lifted_throw _ _ _ _ eq_refl) in Eblock.
       eexists. eexists.
       split; [rewrite (tryCatch_throw _ _ w w e2 Eblock); reflexivity |].
       right. right. left. eexists. split; [reflexivity |].
       split; [reflexivity |]. split; [exact Hall |].
       exists "crop"%string. split; [cbn; auto | eexists; exact Tc]. }
  rewrite (lifted_ok _ _ _ _ eq_refl) in Eblock. cbv beta in Eblock.
  destruct (ToString h (propertyOf "district" body))
    as [districtText|e3] eqn:Td.
  2: { rewrite (lifted_throw _ _ _ _ eq_refl) in Eblock.
       eexists. eexists.
       split; [rewrite (tryCatch_throw _ _ w w e3 Eblock); reflexivity |].
       right. right. left. eexists. split; [reflexivity |].
       split; [reflexivity |]. split; [exact Hall |].
       exists "district"%string. split; [cbn; auto | eexists; exact Td]. }
  rewrite (lifted_ok _ _ _ _ eq_refl) in Eblock. cbv beta in Eblock.
  assert (Hconv : (exists text, @Ok string quantityText = Ok text)
                  /\ (exists text, @Ok string cropText = Ok text)
                  /\ (exists text, @Ok string districtText = Ok text))
    by (repeat split; eexists; reflexivity).
  destruct (Routes.callGenerateSimulation StringToNumber h isAvailable ai
              other (propertyOf "crop" body) (propertyOf "district" body)
              (propertyOf "season" body) (propertyOf "quantity" body)
              (propertyOf "marketChoice" body) w) as [[sim|e] w1] eqn:Ecall.
  - rewrite (bind_ok _ _ _ _ _ Ecall) in Eblock.
    eexists. exists w1.
    split; [apply tryCatch_ok; exact Eblock |].
    right. right. right. right. split; [reflexivity |].
    split; [exact Hall |]. split; [exact Hconv |].
    exists sim. auto.
  - rewrite (bind_throw _ _ _ _ _ Ecall) in Eblock.
    eexists. exists w1.
    split; [rewrite (tryCatch_throw _ _ w w1 e Eblock); reflexivity |].
    right. right. right. left. split; [reflexivity |].
    split; [exact Hall |]. split; [exact Hconv |].
    exists e, w1. auto.
Qed.

Lemma simulationRequestOf_fields (crop district season quantity
  marketChoice : value) (inputData : SimulationRequest) :
  Routes.simulationRequestOf crop district season quantity marketChoice
  = Some inputData ->
  Routes.requestOf crop district season quantity = Some (request inputData)
  /\ ((exists m, marketChoice = VStr m
                 /\ Simulation.marketChoice inputData = Some m)
      \/ (marketChoice = VUndef
          /\ Simulation.marketChoice inputData = None)).
Proof.
  unfold Routes.simulationRequestOf.
  destruct (Routes.requestOf crop district season quantity) as [r|];
    [| discriminate].
  destruct marketChoice; try discriminate; intros H; inversion H; cbn.
  - split; [reflexivity |]. right. auto.
  - split; [reflexivity |]. left. eexists. auto.
Qed.

(** X22.  [POST /simulate] always answers, whatever JSON the body is: with
    400 exactly when there is a body and its crop, district, season or
    quantity is missing, empty, [null], [false] or zero; with 500 when
    there is no body to read, when the quantity, the crop or the
    district cannot be converted to a string, or when
    [generateSimulation] throws, for there is no fallback here; and
    with 200 otherwise.  For texts and a number, a 500 answer carries
    the message of the error that [generateSimulation] threw, and in a
    200 answer the market choice defaults to "Local Market" and the
    revenue and the profit are computed from the requested quantity,
    never from the recommended one: for prices of an ordinary size the
    revenue is their sum over 30 times the quantity and the profit the
    revenue less ten times the quantity, each up to the rounding to a
    whole number. *)
Theorem postSimulate_answers (StringToNumber : string -> num) (h : Host)
  (isAvailable : bool) (ai : AiOutcome) (other : M Simulation)
  (body : value) (w : World) :
  let all := supplied body "crop" /\ supplied body "district"
             /\ supplied body "season" /\ supplied body "quantity" in
  exists resp w',
    Routes.postSimulate StringToNumber h isAvailable ai other body w
    = (Ok resp, w')
    /\ ((exists required, resp = Routes.SimulationBadRequest required)
        <-> nullish body = false /\ ~ all)
    /\ (nullish body = true
        \/ (all
            /\ exists k,
                 In k ["quantity"; "crop"; "district"]%string
                 /\ unconvertible h (propertyOf k body)) ->
        exists msg, resp = Routes.SimulationFailed msg)
    /\ (forall inputData,
          Routes.simulationRequestOf (propertyOf "crop" body)
            (propertyOf "district" body) (propertyOf "season" body)
            (propertyOf "quantity" body) (propertyOf "marketChoice" body)
          = Some inputData ->
          (forall msg,
             resp = Routes.SimulationFailed msg ->
             exists e w1,
               generateSimulation StringToNumber h isAvailable ai inputData w
               = (Throw e, w1)
               /\ msg = Routes.message e)
          /\ (forall sim,
                resp = Routes.SimulationData sim ->
                generateSimulation StringToNumber h isAvailable ai
                  inputData w = (Ok sim, w')
                /\ sim_marketChoice sim = marketChoiceOf inputData
                /\ exists q,
                     propertyOf "quantity" body = VNum (Fin q)
                     /\ q <> 0
                     /\ forall prices,
                          day30 (priceTrend (forecast sim)) = numbers prices ->
                          ordinarySeries prices ->
                          ordinaryQuantity q ->
                          exists revenue profit : Z,
                            Simulation.revenue (predictions sim)
                            = Fin (IZR revenue)
                            /\ Simulation.profit (predictions sim)
                               = Fin (IZR profit)
                            /\ roundedFrom
                                 (fold_left Rplus prices 0 / 30 * q) revenue
                            /\ Rabs (IZR profit - (IZR revenue - q * 10))
                               <= / 2 + tolerance
                                        * (Rabs (IZR revenue)
                                           + Rabs (q * 10)))).
Proof.
  cbv zeta.
  destruct (postSimulate_cases StringToNumber h isAvailable ai other body w)
    as (resp & w' & E & Hcases).
  cbv zeta in Hcases.
  exists resp, w'. split; [exact E |].
  destruct Hcases
    as [(Hb & Hno & ->)
       | [(msg0 & -> & Hb)
         | [(msg0 & -> & Hb & Hall & k & Hk & Hun)
           | [(Hb & Hall & Hconv & e & w1 & Ecall & ->)
             | (Hb & Hall & Hconv & sim & Ecall & ->)]]]].
  - (* 400 *)
    split; [split; [intros _; auto | intros _; eexists; reflexivity] |].
    split.
    { intros [Hn | (Hall & _)]; [congruence | contradiction]. }
    intros inputData Hreq. split; discriminate.
  - (* 500, no body *)
    split.
    { split; [intros (r & Hr); discriminate Hr |].
      intros (Hb' & _). congruence. }
    split; [intros _; eexists; reflexivity |].
    intros inputData Hreq. exfalso.
    apply simulationRequestOf_fields in Hreq. destruct Hreq as (Hreq & _).
    apply requestOf_fields in Hreq. destruct Hreq as (Hc & _).
    apply propertyOf_text in Hc. congruence.
  - (* 500, a field that does not convert *)
    split.
    { split; [intros (r & Hr); discriminate Hr |].
      intros (_ & Hno). contradiction. }
    split; [intros _; eexists; reflexivity |].
    intros inputData Hreq. exfalso.
    apply simulationRequestOf_fields in Hreq. destruct Hreq as (Hreq & _).
    apply requestOf_fields in Hreq.
    destruct Hreq as (Hc & Hd & _ & q & Hq & _).
    destruct Hun as (e & He).
    destruct Hk as [<- | [<- | [<- | []]]].
    + rewrite Hq in He. discriminate He.
    + rewrite Hc in He. discriminate He.
    + rewrite Hd in He. discriminate He.
  - (* 500, from the service *)
    split.
    { split; [intros (r & Hr); discriminate Hr |].
      intros (_ & Hno). contradiction. }
    split; [intros _; eexists; reflexivity |].
    intros inputData Hreq. split; [| discriminate].
    intros msg Hmsg. exists e, w1.
    unfold Routes.callGenerateSimulation in Ecall. rewrite Hreq in Ecall.
    split; [exact Ecall | congruence].
  - (* 200 *)
    split.
    { split; [intros (r & Hr); discriminate Hr |].
      intros (_ & Hno). contradiction. }
    split.
    { intros [Hn | (_ & k & Hk & (e & He))]; [congruence |].
      destruct Hconv as ((tq & Tq) & (tc & Tc) & (td & Td)).
      destruct Hk as [<- | [<- | [<- | []]]]; congruence. }
    intros inputData Hreq. split; [discriminate |].
    intros sim0 Hresp. assert (sim0 = sim) as -> by congruence.
    unfold Routes.callGenerateSimulation in Ecall. rewrite Hreq in Ecall.
    split; [exact Ecall |].
    apply generateSimulation_inv in Ecall.
    destruct Ecall as (_ & Hrev & Hpro & _ & _ & Hchoice).
    split; [exact Hchoice |].
    apply simulationRequestOf_fields in Hreq. destruct Hreq as (Hreq & _).
    apply requestOf_fields in Hreq.
    destruct Hreq as (_ & _ & _ & q & Hq & Hquantity).
    exists q. split; [exact Hq |].
    assert (Hnz : q <> 0).
    { destruct Hall as (_ & _ & _ & Hsupplied).
      unfold supplied in Hsupplied. rewrite Hq in Hsupplied.
      cbn in Hsupplied. destruct (Req_dec_T q 0); [discriminate | assumption]. }
    split; [exact Hnz |].
    intros prices Hprices _ _.
    pose proof (quantityOr_given (request inputData) (forecast sim) q
                  Hquantity Hnz) as Hqv.
    destruct (predictions_rounded StringToNumber h (forecast sim)
                (request inputData) prices q Hprices Hqv)
      as (revenue & profit & Hrev' & Hpro' & _ & _ & Hnear & Hnear').
    exists revenue, profit.
    split; [congruence |]. split; [congruence |].
    split; [exact Hnear | exact Hnear'].
Qed.

(** A request without a body is answered with 500. *)
Lemma postSimulate_answers_witness :
  exists msg w',
    Routes.postSimulate (fun _ => NaN) sampleHost false TimedOut
      (throw (Error "not modelled")) VNull startOfWorld
    = (Ok (Routes.SimulationFailed msg), w').
Proof.
  destruct (postSimulate_answers (fun _ => NaN) sampleHost false TimedOut
              (throw (Error "not modelled")) VNull startOfWorld)
    as (resp & w' & E & _ & Hfailed & _).
  destruct Hfailed as (msg & ->).
  - left. reflexivity.
  - exists msg, w'. exact E.
Defined.

Lemma sampleMarketsOf_inherited (districtName : string) :
  suggestedMarketsOf districtName = Inherited ->
  Routes.sampleMarketsOf districtName = Inherited.
Proof.
  unfold suggestedMarketsOf, Routes.sampleMarketsOf, tableGet.
  cbn [assoc marketsByDistrict Routes.SAMPLE_MARKETS].
  destruct ("Karnataka" =? districtName)%string; [discriminate |].
  destruct ("Maharashtra" =? districtName)%string; [discriminate |].
  destruct ("Tamil Nadu" =? districtName)%string; [discriminate |].
  destruct ("Punjab" =? districtName)%string; [discriminate |].
  destruct ("Haryana" =? districtName)%string; [discriminate |].
  destruct (inb districtName objectPrototypeKeys); [reflexivity |].
  cbn. discriminate.
Qed.

Lemma inherited_not_empty (districtName : string) :
  suggestedMarketsOf districtName = Inherited -> districtName <> EmptyString.
Proof. intros H ->. vm_compute in H. discriminate H. Qed.

(** The mock generator of the service throws for such a district,
    with or without a failed attempt at the AI before it. *)
Lemma generateForecast_inherited (h : Host) (isAvailable : bool)
  (ai : AiOutcome) (inputData : Request) (w : World) :
  suggestedMarketsOf (district inputData) = Inherited ->
  isAvailable = false
  \/ (exists e0 w0, aiPath h ai inputData w = (Throw e0, w0)) ->
  exists w1,
    generateForecast h isAvailable ai inputData w
    = (Throw (TypeError "suggestedMarkets.slice is not a function"), w1).
Proof.
  intros Hd Hpath. unfold generateForecast.
  destruct isAvailable; cbn [negb].
  - destruct Hpath as [Hf | (e0 & w0 & E0)]; [discriminate Hf |].
    unfold tryCatch. rewrite E0.
    exact (generateMockForecast_throws h inputData w0 Hd).
  - exact (generateMockForecast_throws h inputData w Hd).
Qed.

Lemma truthy_text (s : string) : s <> EmptyString -> truthy (VStr s) = true.
Proof.
  intros Hs. cbn. apply Bool.negb_true_iff. apply String.eqb_neq. exact Hs.
Qed.

Lemma truthy_number (q : R) : q <> 0 -> truthy (VNum (Fin q)) = true.
Proof.
  intros Hq. cbn. destruct (Req_dec_T q 0); [contradiction | reflexivity].
Qed.

(** X23.  The same failing request at the two endpoints.  For a district
    whose name is a built-in of [Object.prototype], when the service is
    not available or its attempt at the AI fails, [generateForecast]
    throws; [/forecast] hides this behind a 200 answer with the route's
    own mock data, a warning and the message of the error (and with a
    built-in in the place of [markets]), while [/simulate] answers 500
    with that message. *)
Theorem inherited_district_at_the_routes (StringToNumber : string -> num)
  (h : Host) (isAvailable : bool) (ai : AiOutcome)
  (other : M Forecast) (otherSimulation : M Simulation)
  (cropName districtName seasonName : string) (q : R) (w : World) :
  suggestedMarketsOf districtName = Inherited ->
  cropName <> EmptyString ->
  seasonName <> EmptyString ->
  q <> 0 ->
  isAvailable = false
  \/ (exists e0 w0,
        aiPath h ai {| crop := cropName; district := districtName;
                       season := seasonName; quantity := Some q |} w
        = (Throw e0, w0)) ->
  (exists m w2,
      Routes.postForecast h isAvailable ai other
        (bodyOf cropName districtName seasonName q) w
      = (Ok (Routes.FallbackData m "Using fallback data due to service error"
               "suggestedMarkets.slice is not a function"), w2)
      /\ Routes.rf_markets m = Inherited)
  /\ (exists w1,
        Routes.postSimulate StringToNumber h isAvailable ai otherSimulation
          (bodyOf cropName districtName seasonName q) w
        = (Ok (Routes.SimulationFailed
                 "suggestedMarkets.slice is not a function"), w1)).
Proof.
  intros Hd Hc Hs Hq Hpath.
  pose proof (inherited_not_empty districtName Hd) as Hdne.
  destruct (generateForecast_inherited h isAvailable ai
              {| crop := cropName; district := districtName;
                 season := seasonName; quantity := Some q |} w Hd Hpath)
    as (w1 & E).
  pose proof (truthy_text cropName Hc) as Tc.
  pose proof (truthy_text districtName Hdne) as Td.
  pose proof (truthy_text seasonName Hs) as Ts.
  pose proof (truthy_number q Hq) as Tq.
  set (body := bodyOf cropName districtName seasonName q).
  assert (Hb : nullish body = false) by reflexivity.
  assert (Pc : propertyOf "crop" body = VStr cropName) by reflexivity.
  assert (Pd : propertyOf "district" body = VStr districtName)
    by reflexivity.
  assert (Ps : propertyOf "season" body = VStr seasonName) by reflexivity.
  assert (Pq : propertyOf "quantity" body = VNum (Fin q)) by reflexivity.
  assert (Pm : propertyOf "marketChoice" body = VUndef) by reflexivity.
  split.
  - assert (Eblock : Routes.forecastBlock h isAvailable ai other body w
                     = (Throw (TypeError
                                 "suggestedMarkets.slice is not a function"),
                        w1)).
    { rewrite (forecastBlock_fields h isAvailable ai other body w Hb).
      cbv zeta. rewrite Pc, Pd, Ps, Pq, Tc, Td, Ts. cbn [negb orb].
      erewrite lifted_ok by reflexivity. cbv beta.
      erewrite lifted_ok by reflexivity. cbv beta.
      erewrite lifted_ok by reflexivity. cbv beta.
      apply bind_throw. exact E. }
    destruct (generateMockForecast_value h (VStr cropName)
                (VStr districtName) (VStr seasonName) (VNum (Fin q))
                _ _ _ _ w1 eq_refl eq_refl eq_refl eq_refl)
      as (m & w2 & Em & _ & _ & _ & _ & _ & _ & Hmarkets & _).
    exists m, w2. split.
    + apply (postForecast_fallback h isAvailable ai other body w w1 w2 _ m
               Eblock).
      rewrite (fallbackForecast_fields h body w1 Hb).
      rewrite Pc, Pd, Ps, Pq.
      rewrite (orElse_supplied _ _ Tc), (orElse_supplied _ _ Td),
        (orElse_supplied _ _ Ts), (orElse_supplied _ _ Tq).
      exact Em.
    + rewrite Hmarkets. apply sampleMarketsOf_inherited. exact Hd.
  - exists w1. unfold Routes.postSimulate.
    rewrite (tryCatch_throw _ _ w w1
               (TypeError "suggestedMarkets.slice is not a function")).
    + reflexivity.
    + rewrite (simulationBlock_fields StringToNumber h isAvailable ai
                 otherSimulation body w Hb).
      cbv zeta. rewrite Pc, Pd, Ps, Pq, Pm, Tc, Td, Ts, Tq. cbn [negb orb].
      erewrite lifted_ok by reflexivity. cbv beta.
      erewrite lifted_ok by reflexivity. cbv beta.
      erewrite lifted_ok by reflexivity. cbv beta.
      apply bind_throw.
      exact (generateSimulation_throws StringToNumber h isAvailable ai
               {| request := {| crop := cropName;
                                district := districtName;
                                season := seasonName;
                                quantity := Some q |};
                  marketChoice := None |} w w1 _ E).
Qed.

Lemma inherited_district_at_the_routes_witness :
  (exists m w2,
      Routes.postForecast sampleHost false TimedOut
        (throw (Error "not modelled"))
        (bodyOf "Rice" "constructor" "Kharif" 100) startOfWorld
      = (Ok (Routes.FallbackData m "Using fallback data due to service error"
               "suggestedMarkets.slice is not a function"), w2)
      /\ Routes.rf_markets m = Inherited)
  /\ (exists w1,
        Routes.postSimulate (fun _ => NaN) sampleHost false TimedOut
          (throw (Error "not modelled"))
          (bodyOf "Rice" "constructor" "Kharif" 100) startOfWorld
        = (Ok (Routes.SimulationFailed
                 "suggestedMarkets.slice is not a function"), w1)).
Proof.
  apply inherited_district_at_the_routes.
  - reflexivity.
  - discriminate.
  - discriminate.
  - lra.
  - left. reflexivity.
Defined.

End RouteProperties.

(** ** Cleaning a well-formed reply *)

Module CleanFacts.
Import Js Effects GeminiAIService Spec Vocabulary TextFacts.
Local Open Scope Z_scope.

(** A brace or a backtick starts no white space. *)
Lemma wsLen_open (t : string) : wsLen (String openBrace t) = 0%nat.
Proof. destruct t as [|c2 [|c3 t]]; reflexivity. Qed.

Lemma wsLen_backtick (t : string) : wsLen (String backtick t) = 0%nat.
Proof. destruct t as [|c2 [|c3 t]]; reflexivity. Qed.

(** ... and ends none: the white space that starts a text leaves its
    last character alone when that is a closing brace or a backtick. *)
Lemma wsLen_before (e : ascii) (x : string) :
  e = closeBrace \/ e = backtick ->
  (wsLen (x ++ String e EmptyString) <= String.length x)%nat.
Proof.
  intros He.
  destruct x as [|c1 [|c2 [|c3 x]]].
  - destruct He as [-> | ->]; cbn; lia.
  - unfold wsLen. cbn [append String.length].
    destruct ((9 <=? code c1) && (code c1 <=? 13) || (code c1 =? 32))%N;
      [lia |].
    replace ((code e =? 160)%N) with false
      by (destruct He as [-> | ->]; reflexivity).
    rewrite andb_false_r. lia.
  - unfold wsLen. cbn [append String.length].
    destruct ((9 <=? code c1) && (code c1 <=? 13) || (code c1 =? 32))%N;
      [lia |].
    destruct ((code c1 =? 194) && (code c2 =? 160))%N; [lia |].
    replace ((code e =? 128)%N) with false
      by (destruct He as [-> | ->]; reflexivity).
    replace ((128 <=? code e)%N) with false
      by (destruct He as [-> | ->]; reflexivity).
    replace ((code e =? 168)%N) with false
      by (destruct He as [-> | ->]; reflexivity).
    replace ((code e =? 169)%N) with false
      by (destruct He as [-> | ->]; reflexivity).
    replace ((code e =? 175)%N) with false
      by (destruct He as [-> | ->]; reflexivity).
    replace ((code e =? 159)%N) with false
      by (destruct He as [-> | ->]; reflexivity).
    replace ((code e =? 191)%N) with false
      by (destruct He as [-> | ->]; reflexivity).
    cbn [andb orb]. rewrite !andb_false_r. cbn [orb]. lia.
  - unfold wsLen. cbn [append String.length].
    repeat match goal with
           | |- context [if ?b then _ else _] => destruct b
           end; lia.
Qed.

Lemma drop_within (n : nat) (x t : string) :
  (n <= String.length x)%nat -> drop n (x ++ t) = (drop n x ++ t)%string.
Proof.
  revert x. induction n as [|n IH]; intros x Hn.
  - destruct x; destruct t; reflexivity.
  - destruct x as [|c x]; [cbn in Hn; lia |].
    cbn [append drop]. apply IH. cbn in Hn. lia.
Qed.

Lemma append_not_empty (x : string) (e : ascii) :
  (x ++ String e EmptyString)%string <> EmptyString.
Proof. destruct x; discriminate. Qed.

Lemma skipSpaces_keeps (e : ascii) (fuel : nat) :
  e = closeBrace \/ e = backtick ->
  forall x, skipSpaces fuel (x ++ String e EmptyString) <> EmptyString.
Proof.
  intros He. induction fuel as [|fuel IH]; intros x.
  - apply append_not_empty.
  - cbn [skipSpaces].
    pose proof (wsLen_before e x He) as Hle.
    destruct (wsLen (x ++ String e EmptyString)) as [|n] eqn:En.
    + apply append_not_empty.
    + rewrite drop_within by exact Hle. apply IH.
Qed.

Lemma trimEnd_keeps (e : ascii) (x : string) :
  e = closeBrace \/ e = backtick ->
  trimEnd (x ++ String e EmptyString) = (x ++ String e EmptyString)%string.
Proof.
  intros He. induction x as [|c x IH].
  - cbn [append trimEnd].
    pose proof (skipSpaces_keeps e (String.length (String e EmptyString)) He
                  EmptyString) as Hne.
    cbn [append] in Hne. unfold trimStart.
    destruct (skipSpaces (String.length (String e EmptyString))
                (String e EmptyString) =? EmptyString)%string eqn:E.
    + apply String.eqb_eq in E. contradiction.
    + reflexivity.
  - cbn [append trimEnd].
    pose proof (skipSpaces_keeps e
                  (String.length (String c (x ++ String e EmptyString))) He
                  (String c x)) as Hne.
    cbn [append] in Hne. unfold trimStart.
    destruct (skipSpaces (String.length (String c (x ++ String e EmptyString)))
                (String c (x ++ String e EmptyString)) =? EmptyString)%string
      eqn:E.
    + apply String.eqb_eq in E. contradiction.
    + rewrite IH. reflexivity.
Qed.

Lemma trimStart_plain (c : ascii) (t : string) :
  wsLen (String c t) = 0%nat -> trimStart (String c t) = String c t.
Proof.
  intros Hw. unfold trimStart. cbn [String.length skipSpaces].
  rewrite Hw. reflexivity.
Qed.

(** A text between a brace or a backtick and a brace or a backtick is
    already trimmed. *)
Lemma trim_enclosed (c e : ascii) (x : string) :
  wsLen (String c (x ++ String e EmptyString)) = 0%nat ->
  e = closeBrace \/ e = backtick ->
  trim (String c (x ++ String e EmptyString))
  = String c (x ++ String e EmptyString).
Proof.
  intros Hw He. unfold trim. rewrite (trimStart_plain _ _ Hw).
  exact (trimEnd_keeps e (String c x) He).
Qed.

(** A fence is not found where there is no backtick. *)
Lemma prefix_fence (pat : string) (c : ascii) (t : string) :
  Ascii.eqb c backtick = false ->
  String.prefix (String "`"%char pat) (String c t) = false.
Proof.
  intros Hc. cbn [String.prefix].
  destruct (ascii_dec "`"%char c) as [Heq|_]; [| reflexivity].
  subst c. discriminate Hc.
Qed.

Lemma removeAll_skip (pat x t : string) (k : nat) :
  occurs backtick x = false ->
  removeAll (String.length x + k) (String "`"%char pat) (x ++ t)
  = (x ++ removeAll k (String "`"%char pat) t)%string.
Proof.
  induction x as [|c x IH]; intros Ho; [reflexivity |].
  cbn [occurs] in Ho. apply orb_false_iff in Ho. destruct Ho as [Hc Ho].
  cbn [String.length Nat.add append removeAll].
  rewrite (prefix_fence pat c (x ++ t) Hc), (IH Ho). reflexivity.
Qed.

Lemma removeAll_clean (pat x : string) (fuel : nat) :
  occurs backtick x = false ->
  removeAll fuel (String "`"%char pat) x = x.
Proof.
  revert fuel. induction x as [|c x IH]; intros fuel Ho.
  - destruct fuel; reflexivity.
  - destruct fuel as [|fuel]; [reflexivity |].
    cbn [occurs] in Ho. apply orb_false_iff in Ho. destruct Ho as [Hc Ho].
    cbn [removeAll]. rewrite (prefix_fence pat c x Hc), (IH fuel Ho).
    reflexivity.
Qed.

Lemma occurs_bareObject (body : string) :
  occurs backtick body = false -> occurs backtick (bareObject body) = false.
Proof.
  intros Ho. unfold bareObject. cbn [occurs].
  rewrite occurs_append, Ho. reflexivity.
Qed.

Lemma sliceBraces_object (body post : string) :
  occurs closeBrace post = false ->
  sliceBraces (bareObject body ++ post) = bareObject body.
Proof.
  intros Hpost. unfold bareObject. cbn [append]. rewrite append_assoc.
  cbn [append].
  exact (NormalizerClaims.sliceBraces_pair EmptyString body post eq_refl
           Hpost).
Qed.

Lemma append_empty (s : string) : (s ++ EmptyString)%string = s.
Proof. induction s as [|c s IH]; cbn; [reflexivity | rewrite IH; reflexivity]. Qed.

Lemma prefix_append (p t : string) : String.prefix p (p ++ t) = true.
Proof.
  induction p as [|c p IH]; [destruct t; reflexivity |].
  cbn [append String.prefix].
  destruct (ascii_dec c c) as [_|Hne]; [exact IH | contradiction].
Qed.

Lemma trimStart_newline (t : string) :
  trimStart (newline ++ String openBrace t) = String openBrace t.
Proof.
  unfold trimStart, newline. cbn [append String.length skipSpaces].
  assert (H1 : wsLen (String (ascii_of_N 10) (String openBrace t)) = 1%nat)
    by reflexivity.
  rewrite H1. cbn [drop skipSpaces]. rewrite wsLen_open. reflexivity.
Qed.

Lemma removeAll_json_tail (k : nat) : removeAll k "```json" "```" = "```"%string.
Proof. destruct k as [|[|[|[|k]]]]; reflexivity. Qed.

Lemma removeAll_match (c : ascii) (p t : string) (fuel : nat) :
  removeAll (S fuel) (String c p) (String c p ++ t)
  = removeAll fuel (String c p) (trimStart t).
Proof.
  change (String c p ++ t)%string with (String c (p ++ t)).
  cbn [removeAll].
  change (String c (p ++ t)) with (String c p ++ t)%string.
  rewrite prefix_append, drop_append. reflexivity.
Qed.

(** The first pass removes the opening fence and the line break after
    it; the second the closing fence. *)
Lemma stripFences_fenced (body : string) :
  occurs backtick body = false ->
  stripFences (fencedObject body) = (bareObject body ++ newline)%string.
Proof.
  intros Ho.
  pose proof (occurs_bareObject body Ho) as Hobj.
  assert (Hx : occurs backtick (bareObject body ++ newline) = false)
    by (rewrite occurs_append, Hobj; reflexivity).
  unfold stripFences.
  assert (Hfirst : replaceWithNothing "```json" (fencedObject body)
                   = ((bareObject body ++ newline) ++ "```")%string).
  { assert (Hfuel : String.length (fencedObject body)
                    = S (String.length (bareObject body ++ newline) + 10)).
    { unfold fencedObject. rewrite !length_append.
      cbn [String.length newline]. lia. }
    unfold replaceWithNothing. rewrite Hfuel. unfold fencedObject.
    rewrite removeAll_match.
    change (newline ++ bareObject body ++ newline ++ "```")%string
      with (newline
            ++ String openBrace
                 ((body ++ String closeBrace EmptyString)
                  ++ newline ++ "```"))%string.
    rewrite trimStart_newline.
    change (String openBrace
              ((body ++ String closeBrace EmptyString) ++ newline ++ "```"))%string
      with (bareObject body ++ newline ++ "```")%string.
    rewrite <- append_assoc.
    rewrite (removeAll_skip "``json" _ "```" 10 Hx), removeAll_json_tail.
    reflexivity. }
  rewrite Hfirst. unfold replaceWithNothing.
  rewrite length_append. change (String.length "```") with 3%nat.
  rewrite (removeAll_skip "``" _ "```" 3 Hx).
  change (removeAll 3 "```" "```") with EmptyString.
  apply append_empty.
Qed.

Lemma fencedObject_enclosed (body : string) :
  fencedObject body
  = String backtick
      (("``json" ++ newline ++ bareObject body ++ newline ++ "``")
       ++ String backtick EmptyString)%string.
Proof.
  unfold fencedObject. cbn [append]. do 7 f_equal.
  rewrite !append_assoc. reflexivity.
Qed.

(** X5.  A well-formed reply comes out of the cleaning intact: the text of
    an object that holds no backtick, sent bare or inside a
    [```json] fence, is cleaned to exactly that text. *)
Theorem cleanJsonResponse_recovers (body : string) :
  occurs backtick body = false ->
  cleanJsonResponse (bareObject body) = bareObject body
  /\ cleanJsonResponse (fencedObject body) = bareObject body.
Proof.
  intros Ho.
  pose proof (occurs_bareObject body Ho) as Hobj.
  split.
  - rewrite NormalizerClaims.cleanJsonResponse_steps.
    unfold bareObject at 1.
    rewrite (trim_enclosed openBrace closeBrace body (wsLen_open _)
               (or_introl eq_refl)).
    fold (bareObject body).
    unfold stripFences, replaceWithNothing.
    rewrite (removeAll_clean "``json" _ _ Hobj).
    rewrite (removeAll_clean "``" _ _ Hobj).
    rewrite <- (sliceBraces_object body EmptyString eq_refl) at 2.
    f_equal. symmetry. apply append_empty.
  - rewrite NormalizerClaims.cleanJsonResponse_steps.
    rewrite (fencedObject_enclosed body) at 1.
    rewrite (trim_enclosed backtick backtick _ (wsLen_backtick _)
               (or_intror eq_refl)).
    rewrite <- (fencedObject_enclosed body).
    rewrite (stripFences_fenced body Ho).
    apply sliceBraces_object. reflexivity.
Qed.

Lemma cleanJsonResponse_recovers_witness :
  cleanJsonResponse (fencedObject (dq "'glut_risk': 'Low'"))
  = bareObject (dq "'glut_risk': 'Low'").
Proof.
  exact (proj2 (cleanJsonResponse_recovers (dq "'glut_risk': 'Low'")
                  eq_refl)).
Defined.

End CleanFacts.

(** ** Markets, chunks and the credential *)

Module ServiceProperties.
Import Js Effects GeminiAIService Spec Simulation Vocabulary EffectsFacts.
Import HeatmapFacts MockFacts HeatmapRange MockSeries TextFacts.
Local Open Scope R_scope.
Local Open Scope list_scope.

Lemma suggestedMarkets_three (districtName : string) (names : list string) :
  suggestedMarketsOf districtName = Own names ->
  List.length names = 3%nat
  /\ (tableGet marketsByDistrict districtName = Absent ->
      names = ["KR Market"; "Yeshwantpur Market"; "Bangalore Central Market"]
              %string).
Proof.
  unfold suggestedMarketsOf, tableGet. cbn [assoc marketsByDistrict].
  repeat match goal with
         | |- context [if (?a =? districtName)%string then _ else _] =>
             destruct (a =? districtName)%string
         end;
    try (intros H; split; [| discriminate];
         assert (Hn : Own names = Own names) by reflexivity;
         inversion H; reflexivity).
  destruct (inb districtName objectPrototypeKeys); [discriminate |].
  cbn. intros H. inversion H. split; reflexivity.
Qed.

(** X11.  The markets of a mock forecast.  The generator suggests the three
    markets of the district, those of Karnataka for a district it does
    not know, and its heatmap has one record for each of them, in
    order; producing the forecast reads the clock twice and draws
    between 33 and 39 random numbers. *)
Theorem mock_markets_and_heatmap (h : Host) (inputData : Request)
  (w w' : World) (f : Forecast) :
  generateMockForecast h inputData w = (Ok f, w') ->
  exists names,
    suggestedMarketsOf (district inputData) = Own names
    /\ List.length names = 3%nat
    /\ (tableGet marketsByDistrict (district inputData) = Absent ->
        names = ["KR Market"; "Yeshwantpur Market";
                 "Bangalore Central Market"]%string)
    /\ suggestedMarkets f = VArr (map VStr names)
    /\ map name (marketHeatmap f) = map VStr names
    /\ clockReads w' = S (S (clockReads w))
    /\ (draws w + 33 <= draws w' <= draws w + 39)%nat.
Proof.
  intros E. apply generateMockForecast_shape in E.
  destruct E as (names & w1 & w2 & Hnames & _ & _ & _ & _ & _ & _ & _ & _
                 & Hsuggested & _ & Hdraws & Eheat & Hdraws' & Hclock).
  destruct (suggestedMarkets_three _ names Hnames) as [Hlen Habsent].
  apply generateMarketHeatmap_inv in Eheat.
  destruct Eheat as (Hn & _ & _ & _ & Hlo & Hhi).
  rewrite length_map, Hlen in Hlo, Hhi.
  exists names. split; [exact Hnames |]. split; [exact Hlen |].
  split; [exact Habsent |]. split; [exact Hsuggested |].
  split; [exact Hn |]. split; [exact Hclock | lia].
Qed.

Lemma mock_markets_and_heatmap_witness :
  exists f w',
    generateMockForecast sampleHost riceRequest startOfWorld = (Ok f, w')
    /\ List.length (marketHeatmap f) = 3%nat.
Proof.
  destruct (generateMockForecast_returns sampleHost riceRequest startOfWorld
              _ eq_refl) as (f & w' & E).
  exists f, w'. split; [exact E |].
  destruct (mock_markets_and_heatmap sampleHost riceRequest startOfWorld w' f
              E) as (names & _ & Hlen & _ & _ & Hn & _).
  rewrite <- (length_map name), Hn, length_map. exact Hlen.
Defined.

Lemma accumulate_from (chunks : list (option string)) (start : string) :
  fold_left (fun fullResponse chunk =>
               match chunk with
               | Some text => (fullResponse ++ text)%string
               | None => fullResponse
               end) chunks start
  = (start ++ accumulate chunks)%string.
Proof.
  unfold accumulate. revert start.
  induction chunks as [|[text|] chunks IH]; intros start; cbn [fold_left].
  - symmetry. apply CleanFacts.append_empty.
  - rewrite (IH (start ++ text)%string), (IH (EmptyString ++ text)%string).
    cbn [append]. apply append_assoc.
  - apply IH.
Qed.

(** X13.  How the reply is cut into chunks does not matter: chunks without
    text are skipped, the text of a stream is the concatenation of the
    texts of its parts, and the AI path treats a stream as it treats
    the single chunk of its whole text. *)
Theorem chunking_is_irrelevant (h : Host) (inputData : Request)
  (chunks more : list (option string)) :
  accumulate (chunks ++ more) = (accumulate chunks ++ accumulate more)%string
  /\ accumulate (None :: chunks) = accumulate chunks
  /\ accumulate (Some EmptyString :: chunks) = accumulate chunks
  /\ aiPath h (Streamed chunks) inputData
     = aiPath h (Streamed [Some (accumulate chunks)]) inputData.
Proof.
  split; [| split; [| split]].
  - unfold accumulate at 1. rewrite fold_left_app.
    fold (accumulate chunks). apply accumulate_from.
  - reflexivity.
  - reflexivity.
  - unfold aiPath, raceWithTimeout. reflexivity.
Qed.

(** The service is available exactly when there is a key, the key is
    not empty and the client could be constructed. *)
Lemma init_available (apiKey : option string)
  (construct : string -> result unit) :
  init apiKey construct = true
  <-> exists key,
        apiKey = Some key /\ key <> EmptyString /\ construct key = Ok tt.
Proof.
  unfold init. destruct apiKey as [key|].
  - destruct (key =? EmptyString)%string eqn:Ek.
    + apply String.eqb_eq in Ek. split; [discriminate |].
      intros (k & Hk & Hne & _). congruence.
    + apply String.eqb_neq in Ek.
      destruct (construct key) as [[]|e] eqn:Ec.
      * split; [| reflexivity]. intros _. exists key. auto.
      * split; [discriminate |]. intros (k & Hk & _ & Hc). congruence.
  - split; [discriminate |]. intros (k & Hk & _). discriminate Hk.
Qed.

(** X14.  Without a usable credential the AI is never consulted: whatever
    the model would have answered, the forecast is the one of the mock
    generator. *)
Theorem no_credential_no_ai (h : Host) (apiKey : option string)
  (construct : string -> result unit) (ai ai' : AiOutcome)
  (inputData : Request) (w : World) :
  (apiKey = None \/ apiKey = Some EmptyString
   \/ exists key e, apiKey = Some key /\ construct key = Throw e) ->
  generateForecast h (init apiKey construct) ai inputData w
  = generateMockForecast h inputData w
  /\ generateForecast h (init apiKey construct) ai inputData w
     = generateForecast h (init apiKey construct) ai' inputData w.
Proof.
  intros Hkey.
  assert (Hinit : init apiKey construct = false).
  { destruct (init apiKey construct) eqn:E; [| reflexivity].
    apply init_available in E. destruct E as (key & Hk & Hne & Hc).
    destruct Hkey as [H | [H | (k & e & H & He)]]; congruence. }
  rewrite Hinit. unfold generateForecast. cbn [negb].
  split; reflexivity.
Qed.

Lemma no_credential_no_ai_witness :
  generateForecast sampleHost (init None (fun _ => Ok tt)) TimedOut
    riceRequest startOfWorld
  = generateMockForecast sampleHost riceRequest startOfWorld.
Proof.
  assert (Hkey : @None string = None \/ @None string = Some EmptyString
                 \/ exists key e,
                      @None string = Some key
                      /\ (fun _ : string => @Ok unit tt) key = Throw e)
    by (left; reflexivity).
  exact (proj1 (no_credential_no_ai sampleHost None (fun _ => Ok tt) TimedOut
                  TimedOut riceRequest startOfWorld Hkey)).
Defined.

End ServiceProperties.
